(** * CAM-SIMA [cime_config/cam_config.py]: the [ConfigCAM] object

    A shallow embedding of the configuration engine of
    [src/cime_config/cam_config.py] and the properties its specification
    states about it.

    Conventions of the embedding.

    - A Python [str] is a [string]; each [ascii] stands for the code point of
      the same number, so the strings covered are those over code points
      below 256.
    - A Python exception is a value of [exn]; the text of a CAM error message
      is represented by the constructor of its template together with the
      arguments given to [format].
    - A method of [ConfigCAM] is a function in the monad [M], which threads
      the object's fields and keeps them when an exception is raised, as the
      Python object does. *)

From Stdlib Require Import ZArith List String Ascii Bool Lia DecimalString.
Import ListNotations.

Set Warnings "-register-all".

Open Scope string_scope.
Open Scope Z_scope.

(** ** Python string primitives *)

Module Py.

(** [str.isspace] on one character, for code points below 256: the ASCII
    white space 9-13 and 28-32, NEL (133) and the no-break space (160). *)
Definition isspace (c : ascii) : bool :=
  let n := N_of_ascii c in
  (((9 <=? n) && (n <=? 13)) || ((28 <=? n) && (n <=? 32))
   || (n =? 133) || (n =? 160))%N.

Fixpoint lstrip (s : string) : string :=
  match s with
  | "" => ""
  | String c t => if isspace c then lstrip t else s
  end.

Fixpoint rstrip (s : string) : string :=
  match s with
  | "" => ""
  | String c t =>
      match rstrip t with
      | "" => if isspace c then "" else String c ""
      | t' => String c t'
      end
  end.

(** [s.strip()] *)
Definition strip (s : string) : string := rstrip (lstrip s).

(** [s.split(sep)] for a one-character separator: never empty, keeps empty
    fields. *)
Fixpoint split (sep : ascii) (s : string) : list string :=
  match s with
  | "" => [""]
  | String c t =>
      if Ascii.eqb c sep then "" :: split sep t
      else match split sep t with
           | h :: r => String c h :: r
           | [] => [String c ""]
           end
  end.

(** [s.split()] with no argument: the maximal runs of non-space characters. *)
Fixpoint split_ws (s : string) : list string :=
  match s with
  | "" => []
  | String c t =>
      if isspace c then split_ws t
      else match t with
           | "" => [String c ""]
           | String c' _ =>
               if isspace c' then String c "" :: split_ws t
               else match split_ws t with
                    | h :: r => String c h :: r
                    | [] => [String c ""]
                    end
           end
  end.

(** [s.find(sub)]: the index of the first occurrence, or -1. *)
Fixpoint find_from (sub s : string) (i : Z) : Z :=
  if prefix sub s then i
  else match s with
       | "" => -1
       | String _ t => find_from sub t (i + 1)
       end.

Definition find (s sub : string) : Z := find_from sub s 0.

Definition len (s : string) : Z := Z.of_nat (String.length s).

(** A slice bound as Python normalises it: a negative bound counts from the
    end, and the result is clamped to [0, len s]. *)
Definition clamp (s : string) (i : Z) : Z :=
  let i' := if i <? 0 then i + len s else i in
  Z.max 0 (Z.min i' (len s)).

(** [s[a:b]] *)
Definition slice (s : string) (a b : Z) : string :=
  let a' := clamp s a in
  let b' := clamp s b in
  substring (Z.to_nat a') (Z.to_nat (b' - a')) s.

(** [s[a:]] *)
Definition slice_from (s : string) (a : Z) : string := slice s a (len s).

(** [s.replace(c, '')] for a one-character [c]. *)
Fixpoint remove_chr (c : ascii) (s : string) : string :=
  match s with
  | "" => ""
  | String d t => if Ascii.eqb d c then remove_chr c t else String d (remove_chr c t)
  end.

Definition is_digit (c : ascii) : bool :=
  let n := N_of_ascii c in ((48 <=? n) && (n <=? 57))%N.

Definition digit_val (c : ascii) : Z := Z.of_N (N_of_ascii c) - 48.

(** The digits of an [int()] literal: decimal digits, with single
    underscores allowed between two digits. *)
Fixpoint int_digits (s : string) (acc : Z) (after_digit : bool) : option Z :=
  match s with
  | "" => if after_digit then Some acc else None
  | String c t =>
      if is_digit c then int_digits t (10 * acc + digit_val c) true
      else if Ascii.eqb c "_" && after_digit then int_digits t acc false
      else None
  end.

(** The white space [int()] ignores around a literal, for code points below
    256: the ASCII white space 9-13 and 32, NEL (133) and the no-break space
    (160). The separators 28-31, which [str.strip()] removes, are not among
    them: [int('4\x1c')] raises [ValueError]. *)
Definition int_space (c : ascii) : bool :=
  let n := N_of_ascii c in
  (((9 <=? n) && (n <=? 13)) || (n =? 32) || (n =? 133) || (n =? 160))%N.

Fixpoint int_lstrip (s : string) : string :=
  match s with
  | "" => ""
  | String c t => if int_space c then int_lstrip t else s
  end.

Fixpoint int_rstrip (s : string) : string :=
  match s with
  | "" => ""
  | String c t =>
      match int_rstrip t with
      | "" => if int_space c then "" else String c ""
      | t' => String c t'
      end
  end.

(** [int(s)] in base 10; [None] stands for [ValueError]. Surrounding white
    space is ignored and one sign is allowed. *)
Definition int (s : string) : option Z :=
  match int_rstrip (int_lstrip s) with
  | String c t =>
      if Ascii.eqb c "-" then option_map Z.opp (int_digits t 0 false)
      else if Ascii.eqb c "+" then int_digits t 0 false
      else int_digits (String c t) 0 false
  | "" => None
  end.

(** [str(n)] for an integer. *)
Definition str_of_int (n : Z) : string := NilZero.string_of_int (Z.to_int n).

(** [os.path.join(a, b)] on a POSIX system. *)
Definition path_join (a b : string) : string :=
  if prefix "/" b then b
  else if String.eqb a "" then b
  else if String.eqb (substring (String.length a - 1) 1 a) "/" then a ++ b
  else a ++ "/" ++ b.

End Py.

(** ** Regular expressions as [re] matches them *)

Module Re.

(** The regular expressions of the patterns this file meets. [Any] is [.]
    (every character except the newline), [Cls] a character set given by its
    ranges, [Eol] is [$]. Repetitions are the greedy ones. *)
Inductive regex : Type :=
| Eps
| Lit (c : ascii)
| Any
| Cls (ranges : list (ascii * ascii))
| Eol
| Seq (a b : regex)
| Alt (a b : regex)
| Star (a : regex)
| Plus (a : regex)
| Opt (a : regex).

Definition newline : ascii := "010"%char.

Definition in_range (c : ascii) (r : ascii * ascii) : bool :=
  ((N_of_ascii (fst r) <=? N_of_ascii c) && (N_of_ascii c <=? N_of_ascii (snd r)))%N.

Definition shorter (s s' : string) : bool :=
  (String.length s' <? String.length s)%nat.

(** The ends of zero or more runs of [f] from [s], longest attempts first
    (greedy); an iteration that consumes nothing is not repeated. *)
Fixpoint star_rems (f : string -> list string) (fuel : nat) (s : string)
  : list string :=
  match fuel with
  | O => [s]
  | S n => (flat_map (star_rems f n) (filter (shorter s) (f s)) ++ [s])%list
  end.

(** [rems r s]: what is left of [s] after each way [r] can match at its
    start, in the order a backtracking matcher tries them. *)
Fixpoint rems (r : regex) (s : string) : list string :=
  match r with
  | Eps => [s]
  | Lit c =>
      match s with
      | String d t => if Ascii.eqb d c then [t] else []
      | "" => []
      end
  | Any =>
      match s with
      | String d t => if Ascii.eqb d newline then [] else [t]
      | "" => []
      end
  | Cls ranges =>
      match s with
      | String d t => if existsb (in_range d) ranges then [t] else []
      | "" => []
      end
  | Eol =>
      if String.eqb s "" || String.eqb s (String newline "") then [s] else []
  | Seq a b => flat_map (rems b) (rems a s)
  | Alt a b => (rems a s ++ rems b s)%list
  | Star a => star_rems (rems a) (String.length s) s
  | Plus a =>
      flat_map (fun s' => star_rems (rems a) (String.length s') s') (rems a s)
  | Opt a => (rems a s ++ [s])%list
  end.

(** [re.match(r, s) is not None]: [r] matches a prefix of [s]. *)
Definition matches (r : regex) (s : string) : bool :=
  match rems r s with
  | [] => false
  | _ :: _ => true
  end.

(** [re.match("(r1)r2", s)]: the text of group 1 of the first match found,
    [None] when there is no match. *)
Definition match_group1 (r1 r2 : regex) (s : string) : option string :=
  match List.find (matches r2) (rems r1 s) with
  | Some s1 => Some (substring 0 (String.length s - String.length s1) s)
  | None => None
  end.

(** *** Pattern syntax

    [compile] reads the pattern syntax of [re] for the fragment made of
    ordinary characters, [.], [$], [|], groups [( )], the greedy postfix
    operators [* + ?] on a character, a set or a group, sets [[...]] of
    characters and ranges, and the escape [\d]. It answers [None] on every
    other pattern, valid or not. *)

Record frame : Type := mk_frame {
  alts : list regex;        (* finished alternatives, last first *)
  cur : list regex;         (* atoms of the current alternative, last first *)
}.

Definition seq_of (atoms : list regex) : regex :=
  fold_left (fun acc a => match acc with Eps => a | _ => Seq acc a end)
            (rev atoms) Eps.

Definition alt_of (f : frame) : regex :=
  fold_left (fun acc a => Alt a acc) (alts f) (seq_of (cur f)).

Inductive mode : Type :=
| Normal (repeatable : bool)
| Opened
| Escape
| InSet (items : list (ascii * ascii)) (pending : option ascii) (dash : bool).

Definition push (a : regex) (f : frame) : frame := mk_frame (alts f) (a :: cur f).

Definition requantify (q : regex -> regex) (f : frame) : option frame :=
  match cur f with
  | a :: rest => Some (mk_frame (alts f) (q a :: rest))
  | [] => None
  end.

Fixpoint parse (p : string) (stack : list frame) (f : frame) (m : mode)
  : option regex :=
  match p with
  | "" =>
      match m, stack with
      | Normal _, [] => Some (alt_of f)
      | _, _ => None
      end
  | String c t =>
      match m with
      | Escape =>
          if Ascii.eqb c "d" then parse t stack (push (Cls [("0", "9")]%char) f) (Normal true)
          else None
      | InSet items pending dash =>
          if Ascii.eqb c "]" then
            match items, pending with
            | [], None => None
            | _, _ =>
                let items1 := match pending with
                              | Some a => (items ++ [(a, a)])%list
                              | None => items
                              end in
                let items2 := if dash then (items1 ++ [("-", "-")%char])%list else items1 in
                parse t stack (push (Cls items2) f) (Normal true)
            end
          else if Ascii.eqb c "\" || Ascii.eqb c "[" || Ascii.eqb c "^" then None
          else if Ascii.eqb c "-" then
            match pending, dash with
            | Some _, false => parse t stack f (InSet items pending true)
            | _, _ => None
            end
          else
            match pending, dash with
            | Some a, true =>
                if (N_of_ascii a <=? N_of_ascii c)%N
                then parse t stack f (InSet (items ++ [(a, c)])%list None false)
                else None
            | Some a, false =>
                parse t stack f (InSet (items ++ [(a, a)])%list (Some c) false)
            | None, _ => parse t stack f (InSet items (Some c) false)
            end
      | Normal _ | Opened =>
          let repeatable := match m with Normal b => b | _ => false end in
          if Ascii.eqb c "(" then parse t (f :: stack) (mk_frame [] []) Opened
          else if Ascii.eqb c ")" then
            match stack with
            | g :: stack' => parse t stack' (push (alt_of f) g) (Normal true)
            | [] => None
            end
          else if Ascii.eqb c "|" then
            parse t stack (mk_frame (seq_of (cur f) :: alts f) []) (Normal false)
          else if Ascii.eqb c "." then parse t stack (push Any f) (Normal true)
          else if Ascii.eqb c "$" then parse t stack (push Eol f) (Normal false)
          else if Ascii.eqb c "*" || Ascii.eqb c "+" || Ascii.eqb c "?" then
            if repeatable then
              let q := if Ascii.eqb c "*" then Star
                       else if Ascii.eqb c "+" then Plus else Opt in
              match requantify q f with
              | Some f' => parse t stack f' (Normal false)
              | None => None
              end
            else None
          else if Ascii.eqb c "\" then parse t stack f Escape
          else if Ascii.eqb c "[" then parse t stack f (InSet [] None false)
          else if Ascii.eqb c "^" || Ascii.eqb c "{" then None
          else parse t stack (push (Lit c) f) (Normal true)
      end
  end.

(** [re.compile(p)], on the fragment. *)
Definition compile (p : string) : option regex :=
  parse p [] (mk_frame [] []) (Normal false).

End Re.

(** ** Values, exceptions and the state monad *)

(** The Python values that reach the configuration code. *)
Inductive pyval : Type :=
| VInt (n : Z)
| VBool (b : bool)
| VStr (s : string)
| VList (l : list pyval)
| VDict (d : list (pyval * pyval))
| VNone.

(** [a == b] on integers, booleans ([True == 1]), strings, [None] and lists
    of these. The comparison of two dictionaries is never needed and is not
    modelled. *)
Fixpoint py_eqb (a b : pyval) : bool :=
  match a, b with
  | VInt x, VInt y => x =? y
  | VInt x, VBool y => x =? Z.b2z y
  | VBool x, VInt y => Z.b2z x =? y
  | VBool x, VBool y => Bool.eqb x y
  | VStr x, VStr y => String.eqb x y
  | VNone, VNone => true
  | VList x, VList y =>
      (fix all2 (l1 l2 : list pyval) : bool :=
         match l1, l2 with
         | [], [] => true
         | h1 :: t1, h2 :: t2 => py_eqb h1 h2 && all2 t1 t2
         | _, _ => false
         end) x y
  | _, _ => false
  end.

(** [v in l] *)
Definition py_in (v : pyval) (l : list pyval) : bool := existsb (py_eqb v) l.

(** The templates of the messages of [CamConfigValError]. *)
Inductive val_msg : Type :=
| InvalidDycore (opt : string)             (* '{}' is not a valid dycore *)
| UnknownGrid (grid : string)              (* does not match any known format *)
| DycoreMismatch (user : string) (dyn : pyval)
                                           (* does not match dycore expected from case grid *)
| ConfigExists (name : string)             (* '{}', already exists! *)
| InvalidConfigName (name : string)        (* Invalid configuration name *)
| CppdefAlreadySet (cppname : string)      (* CPP definition '{}' has already been set,
                                              printed with cppname.upper() *)
| SuiteMismatch (nl_val : string) (suite : string)
                                           (* does not match the suite listed *)
| SuiteNotFound (nl_val : string) (suites : pyval)
                                           (* doesn't match any suites listed *)
| SuiteRequired (suites : pyval)           (* No 'physics_suite' variable is present *)
| InvalidValue (name : string) (val : pyval).
                                           (* the value violates its valid_vals *)

(** The templates of the messages of [CamConfigTypeError]. *)
Inductive type_msg : Type :=
| NotIntStrList (name : string) (val : pyval)
                                           (* must be an integer, string, or list *)
| KindMismatch (name : string) (val : pyval).
                                           (* value or valid_vals of the wrong kind *)

Inductive exn : Type :=
| CamConfigValError (msg : val_msg)
| CamConfigTypeError (msg : type_msg)
| NameError (name : string)                (* name '{}' is not defined *)
| ValueError (literal : string)            (* invalid literal for int() with base 10 *)
| KeyError (key : string)
| AttributeError (attr : string)
| PatternNotModelled (pattern : string).   (* a pattern outside the fragment of
                                              [Re.compile]: no behaviour is given *)

Inductive result (A : Type) : Type :=
| Ok (a : A)
| Raise (e : exn).

Arguments Ok {A} a.
Arguments Raise {A} e.

(** [int(s)] *)
Definition py_int (s : string) : result Z :=
  match Py.int s with
  | Some n => Ok n
  | None => Raise (ValueError s)
  end.

(** A Python [dict] with string keys, in insertion order. *)
Definition dict (V : Type) : Type := list (string * V).

Fixpoint dict_get {V} (d : dict V) (k : string) : option V :=
  match d with
  | [] => None
  | (k', v) :: d' => if String.eqb k k' then Some v else dict_get d' k
  end.

(** [k in d] *)
Definition dict_mem {V} (d : dict V) (k : string) : bool :=
  match dict_get d k with
  | Some _ => true
  | None => false
  end.

(** [d[k] = v]: the entry is replaced in place, or added at the end. *)
Fixpoint dict_set {V} (d : dict V) (k : string) (v : V) : dict V :=
  match d with
  | [] => [(k, v)]
  | (k', v') :: d' =>
      if String.eqb k k' then (k, v) :: d' else (k', v') :: dict_set d' k v
  end.

(** ** The configuration classes of [cam_config_classes] *)

Module CamConfigClasses.

(** The [valid_vals] argument: [None], a list of allowed values, a range
    [(lo, hi)] with [hi = None] for no upper bound, or a compiled pattern. *)
Inductive valid_spec : Type :=
| NoSpec
| OneOf (allowed : list pyval)
| Range (lo : Z) (hi : option Z)
| Pattern (r : Re.regex).

Inductive conf_kind : Type := Integer | String_ | List_.

Record conf_obj : Type := mk_conf {
  kind : conf_kind;
  name : string;
  desc : pyval;                      (* a string or a list of strings *)
  value : pyval;
  valid_vals : valid_spec;
  valid_type : option string;        (* element type of a list *)
  is_nml_attr : bool;
}.

(** Modelled from the spec: the validation of an integer value against its
    constraint, whose code ([cam_config_classes.ConfigInteger]) is not among
    the sources; section 4.1: an enumerated set is a membership test, a range
    [(lo, hi)] is [lo <= value] and [value <= hi] when bounded, a pattern is
    matched by the string form of the value. *)
Definition check_int (v : pyval) (n : Z) (spec : valid_spec) : bool :=
  match spec with
  | NoSpec => true
  | OneOf allowed => py_in v allowed
  | Range lo hi =>
      (lo <=? n) && match hi with Some h => n <=? h | None => true end
  | Pattern r => Re.matches r (Py.str_of_int n)
  end.

(** The integer a value of kind [int] stands for ([bool] is a subclass of
    [int]). *)
Definition as_int (v : pyval) : option Z :=
  match v with
  | VInt n => Some n
  | VBool b => Some (Z.b2z b)
  | _ => None
  end.

(** Modelled from the spec: the constructor of the integer variant, whose
    code is not among the sources; section 4.1: TypeMismatch when the value is
    not of the variant's kind, ValidationError when it violates the
    constraint. *)
Definition ConfigInteger (nm : string) (ds val : pyval) (spec : valid_spec)
  (nml : bool) : result conf_obj :=
  match as_int val with
  | Some n =>
      if check_int val n spec
      then Ok (mk_conf Integer nm ds val spec None nml)
      else Raise (CamConfigValError (InvalidValue nm val))
  | None => Raise (CamConfigTypeError (KindMismatch nm val))
  end.

(** Modelled from the spec: the validation of a string value, whose code
    ([cam_config_classes.ConfigString]) is not among the sources; section 4.1:
    an enumerated set is a membership test, a pattern must match the value,
    not necessarily fully. The spec gives a string no range constraint:
    [None] stands for the TypeMismatch of a constraint of the wrong kind. *)
Definition check_str (s : string) (spec : valid_spec) : option bool :=
  match spec with
  | NoSpec => Some true
  | OneOf allowed => Some (py_in (VStr s) allowed)
  | Range _ _ => None
  | Pattern r => Some (Re.matches r s)
  end.

(** Modelled from the spec: the constructor of the string variant, whose code
    is not among the sources; section 4.1, as for [ConfigInteger]. *)
Definition ConfigString (nm : string) (ds val : pyval) (spec : valid_spec)
  (nml : bool) : result conf_obj :=
  match val with
  | VStr s =>
      match check_str s spec with
      | Some true => Ok (mk_conf String_ nm ds val spec None nml)
      | Some false => Raise (CamConfigValError (InvalidValue nm val))
      | None => Raise (CamConfigTypeError (KindMismatch nm val))
      end
  | _ => Raise (CamConfigTypeError (KindMismatch nm val))
  end.

(** Modelled from the spec: the element test of a list value, whose code
    ([cam_config_classes.ConfigList]) is not among the sources; section 4.1:
    every element must be of the elementary type named by [valid_type]. *)
Definition has_type (ty : string) (v : pyval) : bool :=
  match v with
  | VStr _ => String.eqb ty "str"
  | VInt _ => String.eqb ty "int"
  | VBool _ => String.eqb ty "int" || String.eqb ty "bool"
  | _ => false
  end.

(** Modelled from the spec: the constructor of the list variant, whose code
    is not among the sources; section 4.1: the elements are tested against
    the element type, and an accompanying enumerated set restricts the
    contents of the list as a whole (equality with the allowed list), not
    each element. A list takes no range and no pattern. *)
Definition ConfigList (nm : string) (ds val : pyval) (ty : option string)
  (spec : valid_spec) : result conf_obj :=
  match val with
  | VList l =>
      let typed := match ty with
                   | Some t => forallb (has_type t) l
                   | None => true
                   end in
      match spec with
      | NoSpec =>
          if typed then Ok (mk_conf List_ nm ds val spec ty false)
          else Raise (CamConfigValError (InvalidValue nm val))
      | OneOf allowed =>
          if typed && py_eqb val (VList allowed)
          then Ok (mk_conf List_ nm ds val spec ty false)
          else Raise (CamConfigValError (InvalidValue nm val))
      | _ => Raise (CamConfigTypeError (KindMismatch nm val))
      end
  | _ => Raise (CamConfigTypeError (KindMismatch nm val))
  end.

End CamConfigClasses.

(** ** The main configuration object *)

Module ConfigCAM.

Import CamConfigClasses.

(** The fields of a [ConfigCAM] object. *)
Record ConfigCAM : Type := mk_config {
  atm_root : string;
  caseroot : string;
  bldroot : string;
  atm_name : string;
  cppdefs : list string;
  config_dict : dict conf_obj;
  nml_groups : list string;
}.

(** A method: it reads and updates the object and returns or raises; the
    object keeps the updates made before an exception. *)
Definition M (A : Type) : Type := ConfigCAM -> result A * ConfigCAM.

Definition ret {A} (a : A) : M A := fun self => (Ok a, self).

Definition raise {A} (e : exn) : M A := fun self => (Raise e, self).

Definition bind {A B} (m : M A) (k : A -> M B) : M B :=
  fun self =>
    match m self with
    | (Ok a, self') => k a self'
    | (Raise e, self') => (Raise e, self')
    end.

Definition lift {A} (r : result A) : M A := fun self => (r, self).

Notation "x <- m ;; k" := (bind m (fun x => k))
  (at level 61, m at next level, right associativity).
Notation "m ;; k" := (bind m (fun _ => k))
  (at level 61, right associativity).

Definition set_config_dict (d : dict conf_obj) : M unit :=
  fun self =>
    (Ok tt, mk_config (atm_root self) (caseroot self) (bldroot self)
                      (atm_name self) (cppdefs self) d (nml_groups self)).

Definition set_cppdefs (l : list string) : M unit :=
  fun self =>
    (Ok tt, mk_config (atm_root self) (caseroot self) (bldroot self)
                      (atm_name self) l (config_dict self) (nml_groups self)).

(** [self.__nml_groups.append(g)] *)
Definition nml_groups_append (g : string) : M unit :=
  fun self =>
    (Ok tt, mk_config (atm_root self) (caseroot self) (bldroot self)
                      (atm_name self) (cppdefs self) (config_dict self)
                      (nml_groups self ++ [g])%list).

(** Lines 547-566 of [create_config]: the kind of the value picks the class
    of the new object ([isinstance(val, int)] holds for a boolean too). *)
Definition new_conf_obj (nm : string) (ds val : pyval) (spec : valid_spec)
  (valid_list_type : option string) (nml : bool) : result conf_obj :=
  match val with
  | VInt _ | VBool _ => ConfigInteger nm ds val spec nml
  | VStr _ => ConfigString nm ds val spec nml
  | VList _ => ConfigList nm ds val valid_list_type spec
  | _ => Raise (CamConfigTypeError (NotIntStrList nm val))
  end.

(** [create_config] (lines 538-576): the object is built, then the name is
    looked up, then the object is stored. *)
Definition create_config (nm : string) (ds val : pyval) (spec : valid_spec)
  (valid_list_type : option string) (nml : bool) : M unit :=
  conf_obj <- lift (new_conf_obj nm ds val spec valid_list_type nml) ;;
  fun self =>
    if dict_mem (config_dict self) nm
    then raise (CamConfigValError (ConfigExists nm)) self
    else set_config_dict (dict_set (config_dict self) nm conf_obj) self.

(** [get_value] (lines 703-716) *)
Definition get_value (obj_name : string) : M pyval :=
  fun self =>
    match dict_get (config_dict self) obj_name with
    | Some obj => ret (value obj) self
    | None => raise (CamConfigValError (InvalidConfigName obj_name)) self
    end.

(** The value given to a CPP definition, formatted by ['{}={}'.format]; the
    integer and the string values are covered. *)
Inductive cpp_value : Type :=
| CppInt (n : Z)
| CppStr (s : string).

Definition format_value (v : cpp_value) : string :=
  match v with
  | CppInt n => Py.str_of_int n
  | CppStr s => s
  end.

(** [add_cppdef] (lines 649-699). The pattern is built from [cppname] as
    text, so [cppname] is read as a regular expression; the list
    comprehension calls [re.match] once per stored definition, hence not at
    all on an empty list. *)
Definition add_cppdef (cppname : string) (val : option cpp_value) : M unit :=
  let check_str := "-D" ++ cppname in
  fun self =>
    let found :=
      match cppdefs self with
      | [] => Ok false
      | _ :: _ =>
          match Re.compile (check_str ++ "($|=)") with
          | Some r =>
              Ok (existsb (fun cppdef => Re.matches r (Py.strip cppdef))
                          (cppdefs self))
          | None => Raise (PatternNotModelled (check_str ++ "($|=)"))
          end
      end in
    match found with
    | Raise e => raise e self
    | Ok true => raise (CamConfigValError (CppdefAlreadySet cppname)) self
    | Ok false =>
        let cpp_str := match val with
                       | None => check_str
                       | Some v => check_str ++ "=" ++ format_value v
                       end in
        set_cppdefs (cppdefs self ++ [cpp_str])%list self
    end.

(** What [__init__] reads from the CIME case. *)
Record Case : Type := mk_case {
  ATM_GRID : string;
  ATM_NX : Z;
  ATM_NY : Z;
  COMP_OCN : string;
  COMP_ATM : string;
  EXEROOT : string;
  CASEROOT : string;
  COMP_ROOT_DIR_ATM : string;
  CAM_CPPDEFS : string;
  NTHRDS_ATM : Z;
  RUN_STARTDATE : string;
  DEBUG : bool;
}.

(** The namespace [parse_config_opts] returns for [CAM_CONFIG_OPTS]. The
    parsing itself is done by [argparse] and is not part of the embedding:
    [__init__] is given its result. *)
Record Namespace : Type := mk_opts {
  physics_suites : string;
  dyn : string;
  analytic_ic : bool;
  dyn_kind : string;
  phys_kind : string;
}.

Definition strs (l : list string) : list pyval := map VStr l.

Definition dyn_valid_vals : list string :=
  ["eul"; "fv"; "se"; "fv3"; "mpas"; "none"].

(** Lines 107-112: the CPP definitions given by the case. *)
Definition init_cppdefs (cam_cppdefs : string) : list string :=
  let l := filter (fun x => negb (String.eqb x "")) (Py.split_ws cam_cppdefs) in
  if (Z.of_nat (List.length l) =? 1) && existsb (String.eqb "UNSET") l
  then [] else l.

(** Lines 118-127: the alias [ne30pg3], then the level suffix:
    [re.match(r'(.+)z(\d+)', atm_grid)] and its first group. *)
Definition level_prefix_re : Re.regex := Re.Plus Re.Any.
Definition level_suffix_re : Re.regex :=
  Re.Seq (Re.Lit "z") (Re.Plus (Re.Cls [("0", "9")]%char)).

Definition grid_token (atm_grid : string) : string :=
  let atm_grid := if String.eqb atm_grid "ne30pg3" then "ne30np4.pg3"
                  else atm_grid in
  match Re.match_group1 level_prefix_re level_suffix_re atm_grid with
  | Some g => g
  | None => atm_grid
  end.

(** Lines 135-148: the [--dyn] option. The result is the option ([None]
    when empty), the grid and the two case dimensions. *)
Definition check_dyn_opt (user_dyn_opt atm_grid : string) (case_nx case_ny : Z)
  : result (option string * string * pyval * pyval) :=
  if String.eqb user_dyn_opt "none"
  then Ok (Some user_dyn_opt, "null", VStr "null", VStr "null")
  else if String.eqb user_dyn_opt ""
  then Ok (None, atm_grid, VInt case_nx, VInt case_ny)
  else if negb (existsb (String.eqb user_dyn_opt) dyn_valid_vals)
  then Raise (CamConfigValError (InvalidDycore user_dyn_opt))
  else Ok (Some user_dyn_opt, atm_grid, VInt case_nx, VInt case_ny).

(** Lines 216-220: the patterns of the grids of each dycore. *)
Definition digit : Re.regex := Re.Cls [("0", "9")]%char.
Definition digit_or_dot : Re.regex := Re.Cls [("0", "9"); (".", ".")]%char.

Definition eul_grid_re : Re.regex := Re.Seq (Re.Lit "T") (Re.Plus digit).

Definition fv_grid_re : Re.regex :=
  Re.Seq (Re.Seq (Re.Seq (Re.Seq digit (Re.Star digit_or_dot)) (Re.Lit "x"))
                 digit)
         (Re.Star digit_or_dot).

Definition se_grid_re : Re.regex :=
  Re.Seq
    (Re.Seq
       (Re.Seq
          (Re.Seq
             (Re.Seq (Re.Seq (Re.Seq (Re.Lit "n") (Re.Lit "e")) (Re.Plus digit))
                     (Re.Lit "n"))
             (Re.Lit "p"))
          (Re.Cls [("1", "8")]%char))
       (Re.Star Re.Any))
    (Re.Opt (Re.Seq (Re.Seq (Re.Lit "p") (Re.Lit "g"))
                    (Re.Cls [("1", "9")]%char))).

Definition fv3_grid_re : Re.regex := Re.Seq (Re.Lit "C") (Re.Plus digit).

Definition mpas_grid_re : Re.regex :=
  Re.Seq (Re.Seq (Re.Seq (Re.Seq (Re.Seq (Re.Lit "m") (Re.Lit "p")) (Re.Lit "a"))
                         (Re.Lit "s"))
                 (Re.Lit "a"))
         (Re.Plus digit).

Definition dyn_desc : pyval :=
  VStr "Dynamics package, which is set by the horizontal grid specified.".

Definition hgrid_desc : pyval := VStr "Horizontal grid specifier.".

Definition dyn_dirs_desc : pyval :=
  VList (strs ["Comma-separated list of local directories containing";
               "dynamics package source code.";
               "These directories are assumed to be located under";
               "src/dynamics, with a slash ('/') indicating directory hierarchy."]).

Definition create_dyn (core : string) : M unit :=
  create_config "dyn" dyn_desc (VStr core) (OneOf (strs dyn_valid_vals)) None true.

Definition create_hgrid (atm_grid : string) (spec : valid_spec) : M unit :=
  create_config "hgrid" hgrid_desc (VStr atm_grid) spec None true.

(** Lines 225-309: the grid picks the dycore. *)
Definition set_dycore (atm_grid : string) (nthrds : Z) : M unit :=
  if Re.matches fv_grid_re atm_grid then
    create_dyn "fv" ;;
    create_hgrid atm_grid (Pattern fv_grid_re)
  else if Re.matches se_grid_re atm_grid then
    create_dyn "se" ;;
    create_hgrid atm_grid (Pattern se_grid_re) ;;
    create_config "dyn_src_dirs" dyn_dirs_desc
                  (VList (strs ["se"; Py.path_join "se" "dycore"]))
                  NoSpec (Some "str") false ;;
    nml_groups_append "air_composition_nl" ;;
    nml_groups_append "dyn_se_nl" ;;
    add_cppdef "_MPI" None ;;
    add_cppdef "SPMD" None ;;
    if 1 <? nthrds then add_cppdef "_OPENMP" None else ret tt
  else if Re.matches fv3_grid_re atm_grid then
    create_dyn "fv3" ;;
    create_hgrid atm_grid (Pattern fv3_grid_re)
  else if Re.matches mpas_grid_re atm_grid then
    create_dyn "mpas" ;;
    create_hgrid atm_grid (Pattern mpas_grid_re)
  else if Re.matches eul_grid_re atm_grid then
    create_dyn "eul" ;;
    create_hgrid atm_grid (Pattern eul_grid_re) ;;
    create_config "trm" (VStr "Maximum Fourier wavenumber.")
                  (VInt 1) (Range 1 None) None false ;;
    create_config "trn" (VStr "Highest degree of the Legendre polynomials for m=0.")
                  (VInt 1) (Range 1 None) None false ;;
    create_config "trk" (VStr "Highest degree of the associated Legendre polynomials.")
                  (VInt 1) (Range 1 None) None false
  else if String.eqb atm_grid "null" then
    create_dyn "none" ;;
    create_hgrid atm_grid NoSpec ;;
    create_config "dyn_src_dirs" dyn_dirs_desc (VList (strs ["none"]))
                  NoSpec (Some "str") false
  else
    raise (CamConfigValError (UnknownGrid atm_grid)).

(** Lines 312-320: the dycore the grid gave, checked against the option. *)
Definition check_dycore (user_dyn_opt : option string) : M pyval :=
  dyn <- get_value "dyn" ;;
  match user_dyn_opt with
  | Some opt =>
      if negb (py_eqb (VStr opt) dyn)
      then raise (CamConfigValError (DycoreMismatch opt dyn))
      else ret dyn
  | None => ret dyn
  end.

(** Lines 329-344: the three numbers of a spectral-element grid name, cut
    out at the places of ["np"] and [".pg"]: elements along an edge, points
    per element edge, physics grid cells. *)
Definition se_decode (atm_grid : string) : result (Z * Z * Z) :=
  let np_idx := Py.find atm_grid "np" in
  let pg_idx := Py.find atm_grid ".pg" in
  match py_int (Py.slice atm_grid 2 np_idx) with
  | Raise e => Raise e
  | Ok csne_val =>
      if -1 <? pg_idx then
        match py_int (Py.slice atm_grid (np_idx + 2) pg_idx) with
        | Raise e => Raise e
        | Ok csnp_val =>
            match py_int (Py.slice_from atm_grid (pg_idx + 3)) with
            | Raise e => Raise e
            | Ok npg_val => Ok (csne_val, csnp_val, npg_val)
            end
        end
      else
        match py_int (Py.slice_from atm_grid (np_idx + 2)) with
        | Raise e => Raise e
        | Ok csnp_val => Ok (csne_val, csnp_val, 0)
        end
  end.

(** Lines 327-376: the horizontal dimensions. *)
Definition set_grid_vars (dyn : pyval) (atm_grid : string)
  (case_nx case_ny : pyval) : M unit :=
  if py_eqb dyn (VStr "se") then
    vals <- lift (se_decode atm_grid) ;;
    let csne_val := fst (fst vals) in
    let csnp_val := snd (fst vals) in
    let npg_val := snd vals in
    create_config "csne"
      (VStr "Number of elements along one edge of a cubed sphere grid.")
      (VInt csne_val) NoSpec None true ;;
    create_config "csnp"
      (VStr "Number of points on each edge of each element in a cubed sphere grid.")
      (VInt csnp_val) NoSpec None false ;;
    create_config "npg"
      (VStr "Number of finite volume grid cells on each edge of each element in a cubed sphere grid.")
      (VInt npg_val) NoSpec None true ;;
    add_cppdef "NP" (Some (CppInt csnp_val))
  else
    create_config "nlat"
      (VList (strs ["Number of unique latitude points in rectangular lat/lon grid.";
                    "Set to 1 (one) for unstructured grids."]))
      case_ny NoSpec None false ;;
    create_config "nlon"
      (VList (strs ["Number of unique longitude points in rectangular lat/lon grid.";
                    "Total number of columns for unstructured grids."]))
      case_nx NoSpec None false.

(** Lines 383-401: analytic initial conditions. *)
Definition set_analytic_ic (analytic : bool) : M unit :=
  analy_ic_val <- (if analytic then
                     nml_groups_append "analytic_ic_nl" ;;
                     add_cppdef "ANALYTIC_IC" None ;;
                     ret 1
                   else ret 0) ;;
  create_config "analytic_ic"
    (VList (strs ["Switch to turn on analytic initial conditions for the dynamics state: ";
                  "0 => no ";
                  "1 => yes."]))
    (VInt analy_ic_val) (OneOf [VInt 0; VInt 1]) None true.

Definition ocn_valid_vals : list string :=
  ["docn"; "dom"; "som"; "socn"; "aquaplanet"; "pop"; "mom"].

Definition kind_valid_vals : list string := ["REAL32"; "REAL64"].

(** Lines 407-442: the ocean component, the physics suites and the kinds. *)
Definition set_ocn_phys_kinds (comp_ocn : string) (opts : Namespace) : M unit :=
  create_config "ocn"
    (VList (strs ["The ocean model being used.";
                  "Valid values include prognostic ocean models (POP or MOM),";
                  "data ocean models (DOCN or DOM), a stub ocean (SOCN), ";
                  "and an aqua planet ocean (aquaplanet).";
                  "This does not impact how the case is built, only how";
                  "attributes are matched when searching for namelist defaults."]))
    (VStr comp_ocn) (OneOf (strs ocn_valid_vals)) None true ;;
  create_config "physics_suites"
    (VList (strs ["A semicolon-separated list of physics suite definition file (SDF) names.";
                  "To specify the Kessler and Held-Suarez suites as ";
                  "run time options, use '--physics-suites kessler;held_suarez_1994'."]))
    (VStr (physics_suites opts)) NoSpec None false ;;
  create_config "dyn_kind" (VStr "Fortran kind used in dycore for type real.")
    (VStr (dyn_kind opts)) (OneOf (strs kind_valid_vals)) None false ;;
  create_config "phys_kind" (VStr "Fortran kind used in physics for type real.")
    (VStr (phys_kind opts)) (OneOf (strs kind_valid_vals)) None false.

(** Lines 169-196: the start date, the debug flag and the physics columns. *)
Definition set_fixed (start_date : string) (debug_case : bool) : M unit :=
  let start_date_cam := Py.remove_chr "-" start_date in
  create_config "ic_ymd" (VStr "Start date of model run.")
    (VStr start_date_cam) NoSpec None true ;;
  create_config "debug" (VStr "Flag to check if debug mode is enabled.")
    (VInt (Z.b2z debug_case)) NoSpec None true ;;
  create_config "pcols" (VStr "Maximum number of columns assigned to a thread.")
    (VInt 16) (Range 1 None) None true ;;
  create_config "psubcols" (VStr "Maximum number of sub-columns in a column.")
    (VInt 1) (Range 1 None) None true.

Definition default_nml_groups : list string :=
  ["cam_initfiles_nl"; "cam_logfile_nl"; "physics_nl"; "qneg_nl";
   "vert_coord_nl"; "ref_pres_nl"].

(** What [__init__] does once the dictionary exists: the fixed entries and
    the dycore of the grid (lines 152-309), ... *)
Definition init_classify (case : Case) (atm_grid : string) : M unit :=
  set_fixed (RUN_STARTDATE case) (DEBUG case) ;;
  set_dycore atm_grid (NTHRDS_ATM case).

(** ... the check of the dycore against the [--dyn] option (lines 312-320),
    ... *)
Definition init_dycore (case : Case) (user_dyn_opt : option string)
  (atm_grid : string) : M pyval :=
  init_classify case atm_grid ;;
  check_dycore user_dyn_opt.

(** ... and the rest (lines 327-442). The final [print_all] only writes to
    the logger and is left out. *)
Definition init_rest (case : Case) (user_config_opts : Namespace)
  (atm_grid : string) (case_nx case_ny : pyval) (dyn : pyval) : M unit :=
  set_grid_vars dyn atm_grid case_nx case_ny ;;
  set_analytic_ic (analytic_ic user_config_opts) ;;
  set_ocn_phys_kinds (COMP_OCN case) user_config_opts.

(** The object as it is when the dictionary has just been created (lines
    101-160). *)
Definition new_self (case : Case) : ConfigCAM :=
  mk_config (COMP_ROOT_DIR_ATM case) (CASEROOT case)
            (Py.path_join (Py.path_join (EXEROOT case) "atm") "obj")
            (COMP_ATM case) (init_cppdefs (CAM_CPPDEFS case)) []
            default_nml_groups.

(** [ConfigCAM(case, case_log)] (lines 81-448): the object, or the exception
    raised while building it. *)
Definition __init__ (case : Case) (user_config_opts : Namespace)
  : result ConfigCAM :=
  match check_dyn_opt (dyn user_config_opts) (grid_token (ATM_GRID case))
                      (ATM_NX case) (ATM_NY case) with
  | Raise e => Raise e
  | Ok (user_dyn_opt, atm_grid, case_nx, case_ny) =>
      match (dyn <- init_dycore case user_dyn_opt atm_grid ;;
             init_rest case user_config_opts atm_grid case_nx case_ny dyn)
              (new_self case) with
      | (Ok _, self) => Ok self
      | (Raise e, _) => Raise e
      end
  end.

(** [ccpp_phys_set] (lines 799-874). The two dictionaries are arguments the
    method updates in place: they are returned with the outcome.
    [phys_nl_pg_dict] maps a variable to its entry, whose ['values'] is a
    string. In the branch of line 841 the arguments of the message name
    [user_nl_pg_dict], which is bound nowhere: evaluating them raises
    [NameError] before the error of the method is built. *)
Definition ccpp_phys_set (self : ConfigCAM)
  (cam_nml_attr_dict : dict string) (phys_nl_pg_dict : dict (dict string))
  : result unit * dict string * dict (dict string) :=
  match fst (get_value "physics_suites" self) with
  | Raise e => (Raise e, cam_nml_attr_dict, phys_nl_pg_dict)
  | Ok (VStr suites) =>
      let phys_suites := Py.split ";" suites in
      match dict_get phys_nl_pg_dict "physics_suite" with
      | None => (Raise (KeyError "physics_suite"), cam_nml_attr_dict, phys_nl_pg_dict)
      | Some entry =>
          match dict_get entry "values" with
          | None => (Raise (KeyError "values"), cam_nml_attr_dict, phys_nl_pg_dict)
          | Some values =>
              let phys_nl_val := Py.strip values in
              if Z.of_nat (List.length phys_suites) =? 1 then
                let suite0 := Py.strip (hd "" phys_suites) in
                if negb (String.eqb phys_nl_val "UNSET") then
                  if String.eqb phys_nl_val suite0 then
                    (Ok tt, dict_set cam_nml_attr_dict "phys_suite" suite0,
                     phys_nl_pg_dict)
                  else
                    (Raise (NameError "user_nl_pg_dict"), cam_nml_attr_dict,
                     phys_nl_pg_dict)
                else
                  let phys_nl_pg_dict' :=
                    dict_set phys_nl_pg_dict "physics_suite"
                             (dict_set entry "values" suite0) in
                  (Ok tt, dict_set cam_nml_attr_dict "phys_suite" suite0,
                   phys_nl_pg_dict')
              else
                if negb (String.eqb phys_nl_val "UNSET") then
                  match List.find (fun phys_suite =>
                                     String.eqb phys_nl_val (Py.strip phys_suite))
                                  phys_suites with
                  | Some phys_suite =>
                      (Ok tt,
                       dict_set cam_nml_attr_dict "phys_suite" (Py.strip phys_suite),
                       phys_nl_pg_dict)
                  | None =>
                      (Raise (CamConfigValError (SuiteNotFound phys_nl_val (VStr suites))),
                       cam_nml_attr_dict, phys_nl_pg_dict)
                  end
                else
                  (Raise (CamConfigValError (SuiteRequired (VStr suites))),
                   cam_nml_attr_dict, phys_nl_pg_dict)
          end
      end
  | Ok _ => (Raise (AttributeError "split"), cam_nml_attr_dict, phys_nl_pg_dict)
  end.

End ConfigCAM.

(** ** Notions of the specification *)

Module Spec.

Import CamConfigClasses ConfigCAM.

(** The value kinds [create_config] accepts: integer, string, list. *)
Definition supported (val : pyval) : bool :=
  match val with
  | VInt _ | VBool _ | VStr _ | VList _ => true
  | _ => false
  end.

(** The rule list of the grid classifier (section 4.3, step 4): the five
    patterns in their priority order, each with its dynamical core. *)
Definition grid_rules : list (Re.regex * string) :=
  [(fv_grid_re, "fv"); (se_grid_re, "se"); (fv3_grid_re, "fv3");
   (mpas_grid_re, "mpas"); (eul_grid_re, "eul")].

(** First match wins: the core of the first rule whose pattern matches a
    prefix of the token. *)
Definition classify (token : string) : option string :=
  match List.find (fun rule => Re.matches (fst rule) token) grid_rules with
  | Some rule => Some (snd rule)
  | None => None
  end.

(** A stored definition, surrounding white space apart, is [-D] and the
    symbol followed by the end of the text or by [=]. *)
Definition defines (symbol cppdef : string) : bool :=
  String.eqb (Py.strip cppdef) ("-D" ++ symbol)
  || prefix ("-D" ++ symbol ++ "=") (Py.strip cppdef).

Definition defined (symbol : string) (cppdefs : list string) : bool :=
  existsb (defines symbol) cppdefs.

(** The characters with a meaning of their own in a pattern. *)
Definition metachar (c : ascii) : bool :=
  existsb (Ascii.eqb c)
          ["."; "^"; "$"; "*"; "+"; "?"; "{"; "["; "\"; "|"; "("; ")"]%char.

(** A symbol made of ordinary characters only. *)
Fixpoint plain (symbol : string) : bool :=
  match symbol with
  | "" => true
  | String c t => negb (metachar c) && plain t
  end.

End Spec.

(** ** The methods that print, set and generate *)

Module Methods.

Import CamConfigClasses ConfigCAM.

(** *** The debug log

    What [case_log.debug] is given. As for the error messages, a message is
    represented by its template and the arguments given to [format]. *)
Inductive log_msg : Type :=
| Text (s : string)                         (* a fixed text *)
| Desc (desc : pyval)                       (* "{}".format(obj.desc) *)
| NameValue (name : string) (value : pyval) (* "{} = {}".format(obj.name, obj.value) *)
| CppDefs (joined : string).                (* "\nCAM CPP Defs: {}".format(joined) *)

(** [case_log.debug(msg)]: the log with one more message. *)
Definition debug (msg : log_msg) (case_log : list log_msg) : list log_msg :=
  (case_log ++ [msg])%list.

(** [print_config] (lines 580-595): the object is read and not changed. *)
Definition print_config (obj_name : string) (self : ConfigCAM)
  (case_log : list log_msg) : result unit * list log_msg :=
  match dict_get (config_dict self) obj_name with
  | Some obj =>
      let case_log := debug (Desc (desc obj)) case_log in
      let case_log := debug (NameValue (name obj) (value obj)) case_log in
      (Ok tt, case_log)
  | None => (Raise (CamConfigValError (InvalidConfigName obj_name)), case_log)
  end.

(** The loop of lines 611-613 over the names of the dictionary. *)
Fixpoint print_each (names : list string) (self : ConfigCAM)
  (case_log : list log_msg) : result unit * list log_msg :=
  match names with
  | [] => (Ok tt, case_log)
  | obj_name :: rest =>
      match print_config obj_name self case_log with
      | (Ok _, case_log) => print_each rest self case_log
      | (Raise e, case_log) => (Raise e, case_log)
      end
  end.

Definition separator : log_msg := Text "-----------------------------".

(** [print_all] (lines 599-621) *)
Definition print_all (self : ConfigCAM) (case_log : list log_msg)
  : result unit * list log_msg :=
  let case_log := debug (Text "CAM configuration variables:") case_log in
  let case_log := debug separator case_log in
  match print_each (map fst (config_dict self)) self case_log with
  | (Raise e, case_log) => (Raise e, case_log)
  | (Ok _, case_log) =>
      let case_log :=
        match cppdefs self with
        | [] => case_log
        | _ :: _ => debug (CppDefs (String.concat " " (cppdefs self))) case_log
        end in
      (Ok tt, debug separator case_log)
  end.

(** [ConfigCAM(case, case_log)] with its last statement (line 448): the
    object is built and then printed to the log. *)
Definition init_and_print (case : Case) (user_config_opts : Namespace)
  (case_log : list log_msg) : result ConfigCAM * list log_msg :=
  match __init__ case user_config_opts with
  | Raise e => (Raise e, case_log)
  | Ok self =>
      match print_all self case_log with
      | (Ok _, case_log) => (Ok self, case_log)
      | (Raise e, case_log) => (Raise e, case_log)
      end
  end.

(** *** Setting a value *)

(** Modelled from the spec: [obj.set_value(val)] of the configuration
    classes, whose code ([cam_config_classes]) is not among the sources;
    sections 3 and 4.1: the new value is validated exactly as construction
    does, by the class of the object; on failure the prior value is retained
    and the error of the validation is raised. *)
Definition obj_set_value (obj : conf_obj) (val : pyval) : result conf_obj :=
  match kind obj with
  | Integer =>
      ConfigInteger (name obj) (desc obj) val (valid_vals obj) (is_nml_attr obj)
  | String_ =>
      ConfigString (name obj) (desc obj) val (valid_vals obj) (is_nml_attr obj)
  | List_ =>
      ConfigList (name obj) (desc obj) val (valid_type obj) (valid_vals obj)
  end.

(** What [set_value] raises: an exception of the kinds above, or the
    [CamConfigTypeError] of lines 639-642, whose message no other method
    gives. *)
Inductive set_exn : Type :=
| Exn (e : exn)
| NotIntOrStr (obj_name : string) (val : pyval).
                                     (* must be either an integer or a string *)

(** [isinstance(val, (int, str))] *)
Definition is_int_or_str (val : pyval) : bool :=
  match val with
  | VInt _ | VBool _ | VStr _ => true
  | _ => false
  end.

(** [set_value] (lines 625-645): [None] when the method returns. The object
    of the dictionary is updated in place: it keeps its place and its key. *)
Definition set_value (obj_name : string) (val : pyval) (self : ConfigCAM)
  : option set_exn * ConfigCAM :=
  match dict_get (config_dict self) obj_name with
  | None => (Some (Exn (CamConfigValError (InvalidConfigName obj_name))), self)
  | Some obj =>
      if negb (is_int_or_str val) then (Some (NotIntOrStr obj_name val), self)
      else
        match obj_set_value obj val with
        | Raise e => (Some (Exn e), self)
        | Ok obj' =>
            (None,
             mk_config (atm_root self) (caseroot self) (bldroot self)
                       (atm_name self) (cppdefs self)
                       (dict_set (config_dict self) obj_name obj')
                       (nml_groups self))
        end
  end.

(** *** Generating the source code *)

Section Autogen.

(** The collaborators of [generate_cam_src]: the build cache of
    [cam_build_cache] and the three generators of [cam_autogen]. They are not
    part of this file: the method is given them. Each reads and changes the
    files and the cache, here the [World], and may raise; none changes the
    object or the lists it is handed, and each returns a tuple of the
    length the method unpacks, the directories and the groups as lists of
    strings. *)
Variable World : Type.
Variable BuildCache : Type.

Variable BuildCacheCAM : string -> World -> result BuildCache * World.

(** [generate_registry(data_search, build_cache, atm_root, bldroot,
    source_mods_dir, dyn, gen_fort_indent)], returning
    [(reg_dir, force_ccpp, reg_files, ic_names)]. *)
Variable generate_registry :
  list string -> BuildCache -> string -> string -> string -> pyval -> pyval ->
  World -> result (pyval * pyval * pyval * pyval) * World.

(** [generate_physics_suites(build_cache, cppdefs, atm_name, phys_suites,
    atm_root, bldroot, reg_dir, reg_files, source_mods_dir, force_ccpp)],
    returning [(phys_dirs, force_init, cap_datafile, nl_groups, capgen_db)]. *)
Variable generate_physics_suites :
  BuildCache -> list string -> string -> pyval -> string -> string -> pyval ->
  pyval -> string -> pyval ->
  World -> result (list string * pyval * pyval * list string * pyval) * World.

(** [generate_init_routines(build_cache, bldroot, force_ccpp, force_init,
    source_mods_dir, gen_fort_indent, capgen_db, ic_names)], returning
    [init_dir]. *)
Variable generate_init_routines :
  BuildCache -> string -> pyval -> pyval -> string -> pyval -> pyval -> pyval ->
  World -> result pyval * World.

(** [build_cache.write()] *)
Variable build_cache_write : BuildCache -> World -> result unit * World.

(** [self.__nml_groups.extend(nl_groups)] *)
Definition nml_groups_extend (nl_groups : list string) : M unit :=
  fun self =>
    (Ok tt, mk_config (atm_root self) (caseroot self) (bldroot self)
                      (atm_name self) (cppdefs self) (config_dict self)
                      (nml_groups self ++ nl_groups)%list).

(** [generate_cam_src] (lines 720-795): the outcome, the object and the
    world it leaves. *)
Definition generate_cam_src (gen_fort_indent : pyval) (self : ConfigCAM)
  (w : World) : result unit * ConfigCAM * World :=
  let source_mods_dir :=
    Py.path_join (Py.path_join (caseroot self) "SourceMods") "src.cam" in
  let data_path := Py.path_join (Py.path_join (atm_root self) "src") "data" in
  let data_search := [source_mods_dir; data_path] in
  match get_value "dyn" self with
  | (Raise e, self) => (Raise e, self, w)
  | (Ok dyn, self) =>
  match get_value "physics_suites" self with
  | (Raise e, self) => (Raise e, self, w)
  | (Ok phys_suites, self) =>
  match BuildCacheCAM (Py.path_join (bldroot self) "cam_build_cache.xml") w with
  | (Raise e, w) => (Raise e, self, w)
  | (Ok build_cache, w) =>
  match generate_registry data_search build_cache (atm_root self) (bldroot self)
                          source_mods_dir dyn gen_fort_indent w with
  | (Raise e, w) => (Raise e, self, w)
  | (Ok (reg_dir, force_ccpp, reg_files, ic_names), w) =>
  match create_config "reg_dir" (VStr "Location of auto-generated registry code.")
                      reg_dir NoSpec None false self with
  | (Raise e, self) => (Raise e, self, w)
  | (Ok _, self) =>
  match generate_physics_suites build_cache (cppdefs self) (atm_name self)
                                phys_suites (atm_root self) (bldroot self)
                                reg_dir reg_files source_mods_dir force_ccpp w with
  | (Raise e, w) => (Raise e, self, w)
  | (Ok (phys_dirs, force_init, cap_datafile, nl_groups, capgen_db), w) =>
  match (nml_groups_extend nl_groups ;;
         create_config "phys_dirs"
           (VStr "Locations of auto-generated CCPP physics codes.")
           (VStr (String.concat ";" phys_dirs)) NoSpec None false) self with
  | (Raise e, self) => (Raise e, self, w)
  | (Ok _, self) =>
  match generate_init_routines build_cache (bldroot self) force_ccpp force_init
                               source_mods_dir gen_fort_indent capgen_db
                               ic_names w with
  | (Raise e, w) => (Raise e, self, w)
  | (Ok init_dir, w) =>
  match create_config "init_dir"
          (VStr "Location of auto-generated physics initilazation code.")
          init_dir NoSpec None false self with
  | (Raise e, self) => (Raise e, self, w)
  | (Ok _, self) =>
  match build_cache_write build_cache w with
  | (Raise e, w) => (Raise e, self, w)
  | (Ok _, w) => (Ok tt, self, w)
  end end end end end end end end end end.

End Autogen.

End Methods.

(** * Notions used in the statements and their proofs *)

Import CamConfigClasses ConfigCAM Spec.

(** A registry built by [create_config] alone, used to show the checks at
    work: it holds ["pcols"]. *)
Definition registry_with_pcols : ConfigCAM :=
  snd (create_config "pcols" (VStr "Maximum number of columns assigned to a thread.")
         (VInt 16) (Range 1 None) None true (mk_config "" "" "" "" [] [] [])).

(** [s] is empty or starts with a character that is not white space. *)
Definition no_leading_space (s : string) : Prop :=
  match s with
  | "" => True
  | String c _ => Py.isspace c = false
  end.

(** An object whose registry holds the suites given by [--physics-suites]. *)
Definition registry_with_suites (suites : string) : ConfigCAM :=
  snd (create_config "physics_suites" (VStr "Physics suites.") (VStr suites)
         NoSpec None false (mk_config "" "" "" "" [] [] [])).

(** The namelist dictionary holding the user's selection. *)
Definition nl_dict (selection : string) : dict (dict string) :=
  [("physics_suite", [("values", selection)])].

(** The value the namelist dictionary holds for [physics_suite]. *)
Definition nl_value (p : dict (dict string)) : option string :=
  match dict_get p "physics_suite" with
  | Some entry => dict_get entry "values"
  | None => None
  end.

(** A pattern for one character chosen by [p]. *)
Definition one_char (f : string -> list string) (p : ascii -> bool) : Prop :=
  forall s, f s = match s with
                  | String d t => if p d then [t] else []
                  | "" => []
                  end.

(** All the characters of [s] satisfy [p]. *)
Fixpoint all_chars (p : ascii -> bool) (s : string) : bool :=
  match s with
  | "" => true
  | String c t => p c && all_chars p t
  end.

(** The number a string of decimal digits writes. *)
Fixpoint dec_val (s : string) (acc : Z) : Z :=
  match s with
  | "" => acc
  | String c t => dec_val t (10 * acc + Py.digit_val c)
  end.

(** The set [[0-9]], as the patterns test it. *)
Definition is_digit_set (d : ascii) : bool :=
  existsb (Re.in_range d) [("0", "9")]%char.

(** One of the digits 1 to 8. *)
Definition is_1_to_8 (d : ascii) : bool :=
  existsb (Re.in_range d) [("1", "8")]%char.

(** Characters that cannot start [".pg"], or ["np"]. *)
Definition not_dot (c : ascii) : bool := negb (Ascii.eqb c ".").

Definition not_n (c : ascii) : bool := negb (Ascii.eqb c "n").

(** The atoms of a text without special characters. *)
Fixpoint lits (s : string) : list Re.regex :=
  match s with
  | "" => []
  | String c t => Re.Lit c :: lits t
  end.

(** What is left of [s] after the text [p], when [s] starts with it. *)
Fixpoint strip_prefix (p s : string) : option string :=
  match p with
  | "" => Some s
  | String c p' =>
      match s with
      | String d s' => if Ascii.eqb d c then strip_prefix p' s' else None
      | "" => None
      end
  end.

(** The end of the pattern of [add_cppdef], and what it compiles to. *)
Definition check_suffix : string := "($|=)".

Definition end_or_equals : Re.regex := Re.Alt Re.Eol (Re.Lit "=").

(** One step of [Re.seq_of], and what it does to the remainders. *)
Definition seq_step (acc a : Re.regex) : Re.regex :=
  match acc with
  | Re.Eps => a
  | _ => Re.Seq acc a
  end.

Definition rems_step (ss : list string) (a : Re.regex) : list string :=
  flat_map (Re.rems a) ss.

(** The text [add_cppdef] stores. *)
Definition cpp_str (sym : string) (val : option cpp_value) : string :=
  match val with
  | None => "-D" ++ sym
  | Some v => ("-D" ++ sym) ++ "=" ++ format_value v
  end.

(** An object with the given CPP definitions and nothing else. *)
Definition with_cppdefs (l : list string) : ConfigCAM :=
  mk_config "" "" "" "" l [] [].

(** The object after an entry, a CPP definition or a namelist group has
    been added. *)
Definition store (nm : string) (obj : conf_obj) (self : ConfigCAM) : ConfigCAM :=
  mk_config (atm_root self) (caseroot self) (bldroot self) (atm_name self)
            (cppdefs self) (config_dict self ++ [(nm, obj)])%list (nml_groups self).

Definition define (d : string) (self : ConfigCAM) : ConfigCAM :=
  mk_config (atm_root self) (caseroot self) (bldroot self) (atm_name self)
            (cppdefs self ++ [d])%list (config_dict self) (nml_groups self).

(** The CPP symbols the spectral-element dycore defines. *)
Definition se_symbols (nthrds : Z) : list string :=
  if 1 <? nthrds then ["_MPI"; "SPMD"; "_OPENMP"] else ["_MPI"; "SPMD"].

(** One of them is already defined by the case. *)
Definition collides (l : list string) (nthrds : Z) : bool :=
  existsb (fun sym => defined sym l) (se_symbols nthrds).

(** The names [__init__] gives to entries after the dycore is known. *)
Definition later_names : list string :=
  ["csne"; "csnp"; "npg"; "nlat"; "nlon"; "analytic_ic"; "ocn";
   "physics_suites"; "dyn_kind"; "phys_kind"].

(** The value stored under a name. *)
Definition entry_value (self : ConfigCAM) (nm : string) : option pyval :=
  option_map value (dict_get (config_dict self) nm).

(** The object after the classification of the grid [g] to the core [c]:
    dycore and grid are stored, the later names are free. *)
Definition classified (case : Case) (g c : string) (self' : ConfigCAM) : Prop :=
  entry_value self' "dyn" = Some (VStr c) /\
  entry_value self' "hgrid" = Some (VStr g) /\
  forallb (fun k => negb (dict_mem (config_dict self') k)) later_names = true.

(** A method keeps the entries of the registry: whatever it returns or
    raises, what was stored under a name is still stored under it. *)
Definition keeps {A} (m : M A) : Prop :=
  forall self r self', m self = (r, self') ->
  forall k obj, dict_get (config_dict self) k = Some obj ->
                dict_get (config_dict self') k = Some obj.

(** The case of the self-test of [cam_config.py] (lines 904-918), and the
    options its [CAM_CONFIG_OPTS] parses to, here with a chosen [--dyn]. *)
Definition FakeCase : Case :=
  mk_case "f19_f19_mg17" 180 90 "socn" "cam" "/some/made-up/path"
          "/another/made-up/path" "/a/third/made-up/path"
          "-DTEST_CPPDEF -DNEW_TEST=5" 1 "101" false.

(** The same case with another grid. *)
Definition with_grid (case : Case) (atm_grid : string) : Case :=
  mk_case atm_grid (ATM_NX case) (ATM_NY case) (COMP_OCN case) (COMP_ATM case)
          (EXEROOT case) (CASEROOT case) (COMP_ROOT_DIR_ATM case)
          (CAM_CPPDEFS case) (NTHRDS_ATM case) (RUN_STARTDATE case) (DEBUG case).

(** [--physics-suites adiabatic] with the given [--dyn]. *)
Definition fake_opts (user_dyn : string) : Namespace :=
  mk_opts "adiabatic" user_dyn false "REAL64" "REAL64".

(** The error of lines 317-319. *)
Definition is_mismatch (e : exn) : Prop :=
  exists user core, e = CamConfigValError (DycoreMismatch user core).

(** A method never raises the error of the dycore mismatch. *)
Definition no_mismatch {A} (m : M A) : Prop :=
  forall self e self', m self = (Raise e, self') -> ~ is_mismatch e.

(** None of the names is in the registry. *)
Definition fresh (self : ConfigCAM) (names : list string) : Prop :=
  forallb (fun k => negb (dict_mem (config_dict self) k)) names = true.

(** The descriptions of lines 369-375. *)
Definition nlat_desc : pyval :=
  VList (strs ["Number of unique latitude points in rectangular lat/lon grid.";
               "Set to 1 (one) for unstructured grids."]).

Definition nlon_desc : pyval :=
  VList (strs ["Number of unique longitude points in rectangular lat/lon grid.";
               "Total number of columns for unstructured grids."]).

(** The three fields an object holds. *)
Definition se_fields (self : ConfigCAM) : option pyval * option pyval * option pyval :=
  (entry_value self "csne", entry_value self "csnp", entry_value self "npg").

(** The self-test case with the given grid is built, with these fields. *)
Definition built_with_fields (atm_grid : string) (csne csnp npg : Z) : Prop :=
  exists self,
    __init__ (with_grid FakeCase atm_grid) (fake_opts "") = Ok self /\
    se_fields self = (Some (VInt csne), Some (VInt csnp), Some (VInt npg)).

(** The object of the self-test (line 949). *)
Definition FCONFIG : ConfigCAM :=
  match __init__ FakeCase (fake_opts "none") with
  | Ok self => self
  | Raise _ => new_self FakeCase
  end.

Import Methods.

(** ** Further notions *)

(** Characters that are not white space, not [;], not [z], not a newline. *)
Definition not_space (c : ascii) : bool := negb (Py.isspace c).

Definition not_semicolon (c : ascii) : bool := negb (Ascii.eqb c ";").

Definition not_z (c : ascii) : bool := negb (Ascii.eqb c "z").

Definition not_newline (c : ascii) : bool := negb (Ascii.eqb c Re.newline).

(** The ends of the runs of characters chosen by [p] from the start of [s],
    the longest run first. *)
Fixpoint run_tails (p : ascii -> bool) (s : string) : list string :=
  match s with
  | "" => [""]
  | String d t => if p d then (run_tails p t ++ [s])%list else [s]
  end.

(** The same case with another grid and other dimensions. *)
Definition with_dims (case : Case) (atm_grid : string) (nx ny : Z) : Case :=
  mk_case atm_grid nx ny (COMP_OCN case) (COMP_ATM case)
          (EXEROOT case) (CASEROOT case) (COMP_ROOT_DIR_ATM case)
          (CAM_CPPDEFS case) (NTHRDS_ATM case) (RUN_STARTDATE case) (DEBUG case).

(** The two messages [print_config] writes for an entry of the registry. *)
Definition entry_msgs (entry : string * conf_obj) : list log_msg :=
  [Desc (desc (snd entry)); NameValue (name (snd entry)) (value (snd entry))].

(** The message of the CPP definitions, when there are any. *)
Definition cpp_msgs (l : list string) : list log_msg :=
  match l with
  | [] => []
  | _ :: _ => [CppDefs (String.concat " " l)]
  end.

(** Everything [print_all] writes for an object. *)
Definition all_msgs (self : ConfigCAM) : list log_msg :=
  ([Text "CAM configuration variables:"; separator]
   ++ flat_map entry_msgs (config_dict self)
   ++ cpp_msgs (cppdefs self) ++ [separator])%list.

(** The directories [generate_cam_src] hands to the generators: the
    [SourceMods] directory of the case, then the data directory of CAM. *)
Definition source_mods_dir (self : ConfigCAM) : string :=
  Py.path_join (Py.path_join (caseroot self) "SourceMods") "src.cam".

Definition data_search (self : ConfigCAM) : list string :=
  [source_mods_dir self;
   Py.path_join (Py.path_join (atm_root self) "src") "data"].

Definition cache_file (self : ConfigCAM) : string :=
  Py.path_join (bldroot self) "cam_build_cache.xml".

(** The names of the entries [generate_cam_src] adds. *)
Definition generated_names : list string := ["reg_dir"; "phys_dirs"; "init_dir"].

(** The object with more namelist groups. *)
Definition with_groups (groups : list string) (self : ConfigCAM) : ConfigCAM :=
  mk_config (atm_root self) (caseroot self) (bldroot self) (atm_name self)
            (cppdefs self) (config_dict self) (nml_groups self ++ groups)%list.

(** Collaborators that generate nothing and always return: a registry in
    ["/reg"], physics in two directories, one namelist group, the
    initialisation in ["/init"]. *)
Definition no_registry (data_search : list string) (cache : unit)
  (atm_root bldroot source_mods_dir : string) (dyn gen_fort_indent : pyval)
  (w : unit) : result (pyval * pyval * pyval * pyval) * unit :=
  (Ok (VStr "/reg", VBool false, VList [], VList []), w).

Definition no_suites (cache : unit) (cppdefs : list string) (atm_name : string)
  (phys_suites : pyval) (atm_root bldroot : string) (reg_dir reg_files : pyval)
  (source_mods_dir : string) (force_ccpp : pyval) (w : unit)
  : result (list string * pyval * pyval * list string * pyval) * unit :=
  (Ok (["/phys/a"; "/phys/b"], VBool false, VStr "cap", ["suite_nl"], VNone), w).

Definition no_init (cache : unit) (bldroot : string) (force_ccpp force_init : pyval)
  (source_mods_dir : string) (gen_fort_indent capgen_db ic_names : pyval)
  (w : unit) : result pyval * unit :=
  (Ok (VStr "/init"), w).

(** [generate_cam_src] with these collaborators. *)
Definition generate_nothing (self : ConfigCAM) : result unit * ConfigCAM * unit :=
  generate_cam_src unit unit (fun _ w => (Ok tt, w)) no_registry no_suites no_init
                   (fun _ w => (Ok tt, w)) (VInt 3) self tt.

(** The object of the self-test in which [phys_dirs] is already taken. *)
Definition FCONFIG_with_phys_dirs : ConfigCAM :=
  snd (create_config "phys_dirs" (VStr "Taken.") (VStr "/elsewhere")
         NoSpec None false FCONFIG).

(** What a method adds when it returns: names at the end of the registry,
    CPP definitions and namelist groups after those the object had. *)
Definition adds {A} (m : M A) (names cpp groups : list string) : Prop :=
  forall self a self', m self = (Ok a, self') ->
    map fst (config_dict self') = (map fst (config_dict self) ++ names)%list /\
    cppdefs self' = (cppdefs self ++ cpp)%list /\
    nml_groups self' = (nml_groups self ++ groups)%list.

(** The grid the constructor classifies: the sentinel with [--dyn none],
    else the grid of the case without its level suffix. *)
Definition init_grid (case : Case) (opts : Namespace) : string :=
  if String.eqb (dyn opts) "none" then "null" else grid_token (ATM_GRID case).

(** The dycore of a grid: the core of the pattern that matches, [none] for
    the sentinel, and the empty text for a grid the constructor refuses. *)
Definition core_of (atm_grid : string) : string :=
  match classify atm_grid with
  | Some c => c
  | None => if String.eqb atm_grid "null" then "none" else ""
  end.

(** The names of the entries of an object, by its dycore: the fixed ones,
    those of the dycore, those of the horizontal grid, the last ones. *)
Definition fixed_names : list string := ["ic_ymd"; "debug"; "pcols"; "psubcols"].

Definition dycore_names (c : string) : list string :=
  if String.eqb c "se" then ["dyn"; "hgrid"; "dyn_src_dirs"]
  else if String.eqb c "eul" then ["dyn"; "hgrid"; "trm"; "trn"; "trk"]
  else if String.eqb c "none" then ["dyn"; "hgrid"; "dyn_src_dirs"]
  else ["dyn"; "hgrid"].

Definition grid_names (c : string) : list string :=
  if String.eqb c "se" then ["csne"; "csnp"; "npg"] else ["nlat"; "nlon"].

Definition last_names : list string :=
  ["analytic_ic"; "ocn"; "physics_suites"; "dyn_kind"; "phys_kind"].

Definition built_names (c : string) : list string :=
  (fixed_names ++ dycore_names c ++ grid_names c ++ last_names)%list.

(** The CPP definitions and the namelist groups the constructor adds: those
    of the spectral-element dycore, with the points per element the grid name
    decodes to, and those of the analytic initial conditions. *)
Definition se_defs (nthrds : Z) : list string :=
  map (fun sym => cpp_str sym None) (se_symbols nthrds).

Definition np_defs (atm_grid : string) : list string :=
  match se_decode atm_grid with
  | Ok (_, csnp_val, _) => [cpp_str "NP" (Some (CppInt csnp_val))]
  | Raise _ => []
  end.

Definition dycore_defs (c : string) (nthrds : Z) : list string :=
  if String.eqb c "se" then se_defs nthrds else [].

Definition grid_defs (c atm_grid : string) : list string :=
  if String.eqb c "se" then np_defs atm_grid else [].

Definition dycore_groups (c : string) : list string :=
  if String.eqb c "se" then ["air_composition_nl"; "dyn_se_nl"] else [].

Definition analytic_defs (analytic : bool) : list string :=
  if analytic then ["-DANALYTIC_IC"] else [].

Definition analytic_groups (analytic : bool) : list string :=
  if analytic then ["analytic_ic_nl"] else [].

(** The object its class builds from the fields of [obj]. *)
Definition rebuilt (obj : conf_obj) : result conf_obj :=
  new_conf_obj (name obj) (desc obj) (value obj) (valid_vals obj)
               (valid_type obj) (is_nml_attr obj).

(** The registry is well kept: the names are all different, and every
    object is stored under its own name and is the object its class builds
    from its fields, so that its value passes the validation of its
    constraint. *)
Definition well_kept (self : ConfigCAM) : Prop :=
  NoDup (map fst (config_dict self)) /\
  forall k obj, In (k, obj) (config_dict self) ->
                name obj = k /\ rebuilt obj = Ok obj.

(** A method keeps the registry well kept, whether it returns or raises. *)
Definition preserves {A} (m : M A) : Prop :=
  forall self r self', m self = (r, self') -> well_kept self -> well_kept self'.

(** * Properties *)

Import CamConfigClasses ConfigCAM Spec.

(** ** Dictionaries *)

Section Dict.

Context {V : Type}.

Lemma dict_get_set_same (d : dict V) k v : dict_get (dict_set d k v) k = Some v.
Proof.
  induction d as [|[k' v'] d IH]; simpl.
  - now rewrite String.eqb_refl.
  - destruct (String.eqb k k') eqn:E; simpl.
    + now rewrite String.eqb_refl.
    + now rewrite E.
Qed.

Lemma dict_get_set_other (d : dict V) k k' v :
  k' <> k -> dict_get (dict_set d k v) k' = dict_get d k'.
Proof.
  intros Hne. induction d as [|[k0 v0] d IH]; simpl.
  - destruct (String.eqb k' k) eqn:E; [|reflexivity].
    apply String.eqb_eq in E. contradiction.
  - destruct (String.eqb k k0) eqn:E; simpl.
    + apply String.eqb_eq in E. subst k0.
      destruct (String.eqb k' k) eqn:E'; [|reflexivity].
      apply String.eqb_eq in E'. contradiction.
    + now rewrite IH.
Qed.

Lemma dict_set_fresh (d : dict V) k v :
  dict_mem d k = false -> dict_set d k v = (d ++ [(k, v)])%list.
Proof.
  unfold dict_mem. induction d as [|[k' v'] d IH]; simpl; [reflexivity|].
  destruct (String.eqb k k') eqn:E; [discriminate|].
  intros H. now rewrite IH.
Qed.

Lemma dict_mem_In (d : dict V) k :
  dict_mem d k = false -> ~ In k (map fst d).
Proof.
  unfold dict_mem. induction d as [|[k' v'] d IH]; simpl; [tauto|].
  destruct (String.eqb k k') eqn:E; [discriminate|].
  intros H [Heq|Hin].
  - subst. now rewrite String.eqb_refl in E.
  - now apply IH.
Qed.

Lemma dict_set_fresh_NoDup (d : dict V) k v :
  dict_mem d k = false -> NoDup (map fst d) ->
  NoDup (map fst (dict_set d k v)).
Proof.
  intros Hm Hnd. rewrite (dict_set_fresh _ _ _ Hm), map_app. simpl.
  apply NoDup_app; [assumption|repeat constructor; simpl; tauto|].
  intros x Hx [Hk|[]]. subst x. now apply (dict_mem_In d k).
Qed.

End Dict.

(** ** The registry: [create_config] *)

Lemma create_config_unfold nm ds val spec ty nml self :
  create_config nm ds val spec ty nml self =
  match new_conf_obj nm ds val spec ty nml with
  | Raise e => (Raise e, self)
  | Ok obj =>
      if dict_mem (config_dict self) nm
      then (Raise (CamConfigValError (ConfigExists nm)), self)
      else (Ok tt, mk_config (atm_root self) (caseroot self) (bldroot self)
                             (atm_name self) (cppdefs self)
                             (dict_set (config_dict self) nm obj)
                             (nml_groups self))
  end.
Proof.
  unfold create_config, bind, lift, raise, set_config_dict.
  destruct (new_conf_obj nm ds val spec ty nml); reflexivity.
Qed.

Lemma new_conf_obj_unsupported nm ds val spec ty nml :
  supported val = false ->
  new_conf_obj nm ds val spec ty nml = Raise (CamConfigTypeError (NotIntStrList nm val)).
Proof. destruct val; simpl; intros H; try discriminate; reflexivity. Qed.

(** C6, as stated, fails: a value of a supported kind (the integer 0) offered
    under a name that already exists (["pcols"]) with the range [(1, None)]
    is refused by the constructor of the integer object, which runs before
    the name is looked up; the error is the validation error, not the one of
    the duplicate name. *)
Lemma create_config_existing_name_not_always_duplicate :
  supported (VInt 0) = true /\
  dict_mem (config_dict registry_with_pcols) "pcols" = true /\
  fst (create_config "pcols" (VStr "again") (VInt 0) (Range 1 None) None true
         registry_with_pcols)
  = Raise (CamConfigValError (InvalidValue "pcols" (VInt 0))) /\
  fst (create_config "pcols" (VStr "again") (VInt 0) (Range 1 None) None true
         registry_with_pcols)
  <> Raise (CamConfigValError (ConfigExists "pcols")).
Proof. repeat split; try reflexivity. discriminate. Qed.

(** C6, amended: [create_config] first builds the object from the value and
    only then looks the name up. A value that is neither integer, string nor
    list fails with the type error, also under an existing name; a value the
    constructor refuses fails with the constructor's error; a value the
    constructor accepts fails with the duplicate-name error under an existing
    name, and is stored at the end of the registry under a new one. Every
    failure leaves the object as it was, no entry is ever replaced, and the
    names stay pairwise distinct. *)
Theorem create_config_checks_kind_then_name nm ds val spec ty nml self :
  (supported val = false ->
   create_config nm ds val spec ty nml self
   = (Raise (CamConfigTypeError (NotIntStrList nm val)), self)) /\
  (forall e, new_conf_obj nm ds val spec ty nml = Raise e ->
   create_config nm ds val spec ty nml self = (Raise e, self)) /\
  (forall obj, new_conf_obj nm ds val spec ty nml = Ok obj ->
   dict_mem (config_dict self) nm = true ->
   create_config nm ds val spec ty nml self
   = (Raise (CamConfigValError (ConfigExists nm)), self)) /\
  (forall obj, new_conf_obj nm ds val spec ty nml = Ok obj ->
   dict_mem (config_dict self) nm = false ->
   exists self',
     create_config nm ds val spec ty nml self = (Ok tt, self') /\
     config_dict self' = (config_dict self ++ [(nm, obj)])%list /\
     value obj = val /\
     cppdefs self' = cppdefs self /\ nml_groups self' = nml_groups self) /\
  (forall e self',
   create_config nm ds val spec ty nml self = (Raise e, self') -> self' = self) /\
  (forall r self',
   create_config nm ds val spec ty nml self = (r, self') ->
   (forall k obj, dict_get (config_dict self) k = Some obj ->
                  dict_get (config_dict self') k = Some obj) /\
   (NoDup (map fst (config_dict self)) -> NoDup (map fst (config_dict self')))).
Proof.
  rewrite create_config_unfold.
  split; [|split; [|split; [|split; [|split]]]].
  - intros H. now rewrite (new_conf_obj_unsupported _ _ _ _ _ _ H).
  - intros e ->. reflexivity.
  - intros obj -> ->. reflexivity.
  - intros obj Hobj Hm. rewrite Hobj, Hm. eexists. split; [reflexivity|].
    simpl. rewrite (dict_set_fresh _ _ _ Hm). repeat split.
    revert Hobj. unfold new_conf_obj, ConfigInteger, ConfigString, ConfigList.
    destruct val; simpl; try discriminate.
    + destruct (check_int _ _ _); [|discriminate]. now intros [= <-].
    + destruct (check_int _ _ _); [|discriminate]. now intros [= <-].
    + destruct (check_str _ _) as [[|]|]; try discriminate. now intros [= <-].
    + destruct spec; try discriminate;
        match goal with |- context [if ?b then _ else _] => destruct b end;
        try discriminate; now intros [= <-].
  - intros e self'. destruct (new_conf_obj nm ds val spec ty nml).
    + destruct (dict_mem (config_dict self) nm); [now intros [= _ <-]|discriminate].
    + now intros [= _ <-].
  - intros r self'. destruct (new_conf_obj nm ds val spec ty nml) as [obj|e].
    + destruct (dict_mem (config_dict self) nm) eqn:Hm.
      * intros [= _ <-]. split; auto.
      * intros [= _ <-]. simpl. split.
        -- intros k o Hk. rewrite dict_get_set_other; [assumption|].
           intros ->. unfold dict_mem in Hm. now rewrite Hk in Hm.
        -- now apply dict_set_fresh_NoDup.
    + intros [= _ <-]. split; auto.
Qed.

(** The amended C6 at work on the registry holding ["pcols"]: a dictionary
    value is refused for its kind although the name exists, and an accepted
    value under the existing name is refused for the name. *)
Lemma create_config_checks_kind_then_name_witness :
  create_config "pcols" (VStr "d") (VDict [(VStr "x", VStr "y")]) NoSpec None false
    registry_with_pcols
  = (Raise (CamConfigTypeError
              (NotIntStrList "pcols" (VDict [(VStr "x", VStr "y")]))),
     registry_with_pcols) /\
  create_config "pcols" (VStr "d") (VInt 5) NoSpec None false registry_with_pcols
  = (Raise (CamConfigValError (ConfigExists "pcols")), registry_with_pcols).
Proof.
  pose proof (create_config_checks_kind_then_name "pcols" (VStr "d")
                (VDict [(VStr "x", VStr "y")]) NoSpec None false
                registry_with_pcols) as [H1 _].
  pose proof (create_config_checks_kind_then_name "pcols" (VStr "d")
                (VInt 5) NoSpec None false registry_with_pcols) as (_ & _ & H3 & _).
  split.
  - apply H1. reflexivity.
  - apply (H3 (mk_conf Integer "pcols" (VStr "d") (VInt 5) NoSpec None false));
      reflexivity.
Defined.

(** ** [strip] *)

Lemma lstrip_no_leading_space s : no_leading_space (Py.lstrip s).
Proof.
  induction s as [|c t IH]; simpl; [exact I|].
  destruct (Py.isspace c) eqn:E; [assumption|exact E].
Qed.

Lemma lstrip_id s : no_leading_space s -> Py.lstrip s = s.
Proof. destruct s as [|c t]; simpl; [reflexivity|]. now intros ->. Qed.

Lemma rstrip_cons c t :
  Py.isspace c = false ->
  Py.rstrip (String c t) = String c (Py.rstrip t).
Proof. intros H. simpl. destruct (Py.rstrip t); [now rewrite H|reflexivity]. Qed.

Lemma rstrip_no_leading_space s :
  no_leading_space s -> no_leading_space (Py.rstrip s).
Proof.
  destruct s as [|c t]; [trivial|]. intros H. simpl in H.
  now rewrite (rstrip_cons _ _ H).
Qed.

Lemma rstrip_idem s : Py.rstrip (Py.rstrip s) = Py.rstrip s.
Proof.
  induction s as [|c t IH]; [reflexivity|]. simpl.
  destruct (Py.rstrip t) as [|d t'] eqn:E.
  - destruct (Py.isspace c) eqn:Ec; [reflexivity|]. simpl. now rewrite Ec.
  - change (Py.rstrip (String c (String d t'))) with
      (match Py.rstrip (String d t') with
       | "" => if Py.isspace c then "" else String c ""
       | t'' => String c t''
       end).
    now rewrite IH.
Qed.

Lemma strip_idem s : Py.strip (Py.strip s) = Py.strip s.
Proof.
  unfold Py.strip.
  rewrite (lstrip_id (Py.rstrip (Py.lstrip s))).
  - apply rstrip_idem.
  - apply rstrip_no_leading_space, lstrip_no_leading_space.
Qed.

(** ** The physics suite: [ccpp_phys_set] *)

Section PhysSet.

Variable self : ConfigCAM.
Variable obj : conf_obj.
Variable suites : string.
Variable a : dict string.
Variable p : dict (dict string).
Variable entry : dict string.
Variable values : string.

Hypothesis Hobj : dict_get (config_dict self) "physics_suites" = Some obj.
Hypothesis Hsuites : value obj = VStr suites.
Hypothesis Hentry : dict_get p "physics_suite" = Some entry.
Hypothesis Hvalues : dict_get entry "values" = Some values.

Let written (suite : string) : dict string := dict_set a "phys_suite" suite.

(** The branches of [ccpp_phys_set], one by one. *)
Lemma ccpp_phys_set_one_unset suite0 :
  Py.split ";" suites = [suite0] -> Py.strip values = "UNSET" ->
  ccpp_phys_set self a p
  = (Ok tt, written (Py.strip suite0),
     dict_set p "physics_suite" (dict_set entry "values" (Py.strip suite0))).
Proof.
  intros Hs Hv. unfold ccpp_phys_set, get_value, ret.
  rewrite Hobj. simpl. rewrite Hsuites, Hentry, Hvalues, Hs, Hv. reflexivity.
Qed.

Lemma ccpp_phys_set_one_match suite0 :
  Py.split ";" suites = [suite0] -> Py.strip values <> "UNSET" ->
  Py.strip values = Py.strip suite0 ->
  ccpp_phys_set self a p = (Ok tt, written (Py.strip suite0), p).
Proof.
  intros Hs Hv Hm. unfold ccpp_phys_set, get_value, ret.
  rewrite Hobj. simpl. rewrite Hsuites, Hentry, Hvalues, Hs. simpl.
  apply String.eqb_neq in Hv. rewrite Hv. simpl.
  rewrite Hm, String.eqb_refl. reflexivity.
Qed.

Lemma ccpp_phys_set_one_mismatch suite0 :
  Py.split ";" suites = [suite0] -> Py.strip values <> "UNSET" ->
  Py.strip values <> Py.strip suite0 ->
  ccpp_phys_set self a p = (Raise (NameError "user_nl_pg_dict"), a, p).
Proof.
  intros Hs Hv Hm. unfold ccpp_phys_set, get_value, ret.
  rewrite Hobj. simpl. rewrite Hsuites, Hentry, Hvalues, Hs. simpl.
  apply String.eqb_neq in Hv. rewrite Hv. simpl.
  apply String.eqb_neq in Hm. rewrite Hm. reflexivity.
Qed.

Lemma ccpp_phys_set_many_unset :
  (2 <= List.length (Py.split ";" suites))%nat -> Py.strip values = "UNSET" ->
  ccpp_phys_set self a p
  = (Raise (CamConfigValError (SuiteRequired (VStr suites))), a, p).
Proof.
  intros Hs Hv. unfold ccpp_phys_set, get_value, ret.
  rewrite Hobj. simpl. rewrite Hsuites, Hentry, Hvalues, Hv.
  destruct (Z.of_nat (List.length (Py.split ";" suites)) =? 1) eqn:E;
    [apply Z.eqb_eq in E; lia|reflexivity].
Qed.

Lemma ccpp_phys_set_many_not_found :
  (2 <= List.length (Py.split ";" suites))%nat -> Py.strip values <> "UNSET" ->
  (forall suite, In suite (Py.split ";" suites) ->
                 Py.strip values <> Py.strip suite) ->
  ccpp_phys_set self a p
  = (Raise (CamConfigValError (SuiteNotFound (Py.strip values) (VStr suites))),
     a, p).
Proof.
  intros Hs Hv Hn. unfold ccpp_phys_set, get_value, ret.
  rewrite Hobj. simpl. rewrite Hsuites, Hentry, Hvalues.
  destruct (Z.of_nat (List.length (Py.split ";" suites)) =? 1) eqn:E;
    [apply Z.eqb_eq in E; lia|].
  apply String.eqb_neq in Hv. rewrite Hv. simpl.
  destruct (List.find _ _) as [suite|] eqn:F; [|reflexivity].
  apply find_some in F. destruct F as [Hin Heq].
  apply String.eqb_eq in Heq. now apply Hn in Hin.
Qed.

Lemma ccpp_phys_set_many_match suite :
  (2 <= List.length (Py.split ";" suites))%nat -> Py.strip values <> "UNSET" ->
  In suite (Py.split ";" suites) -> Py.strip values = Py.strip suite ->
  ccpp_phys_set self a p = (Ok tt, written (Py.strip suite), p).
Proof.
  intros Hs Hv Hin Hm. unfold ccpp_phys_set, get_value, ret.
  rewrite Hobj. simpl. rewrite Hsuites, Hentry, Hvalues.
  destruct (Z.of_nat (List.length (Py.split ";" suites)) =? 1) eqn:E;
    [apply Z.eqb_eq in E; lia|].
  apply String.eqb_neq in Hv. rewrite Hv. simpl.
  destruct (List.find _ _) as [found|] eqn:F.
  - apply find_some in F. destruct F as [_ Heq].
    apply String.eqb_eq in Heq. unfold written. now rewrite <- Hm, Heq.
  - apply (find_none _ _ F) in Hin. rewrite Hm, String.eqb_refl in Hin.
    discriminate.
Qed.

Lemma split_nonempty sep s : Py.split sep s <> [].
Proof.
  destruct s as [|c t]; simpl; [discriminate|].
  destruct (Ascii.eqb c sep); [discriminate|].
  destruct (Py.split sep t); discriminate.
Qed.

(** Every successful resolution, described by what it leaves in the two
    dictionaries. *)
Lemma ccpp_phys_set_success a' p' :
  ccpp_phys_set self a p = (Ok tt, a', p') ->
  exists suite,
    In suite (Py.split ";" suites) /\
    a' = written (Py.strip suite) /\
    (Py.strip values <> "UNSET" ->
     Py.strip values = Py.strip suite /\ p' = p) /\
    (Py.strip values = "UNSET" ->
     p' = dict_set p "physics_suite" (dict_set entry "values" (Py.strip suite))).
Proof.
  destruct (String.eqb (Py.strip values) "UNSET") eqn:Hu;
    [apply String.eqb_eq in Hu|apply String.eqb_neq in Hu].
  - destruct (Py.split ";" suites) as [|s0 [|s1 rest]] eqn:Hs.
    + now apply split_nonempty in Hs.
    + rewrite (ccpp_phys_set_one_unset s0 Hs Hu). intros [= <- <-].
      exists s0. split; [now left|]. split; [reflexivity|].
      split; [intros Hn; contradiction|reflexivity].
    + rewrite ccpp_phys_set_many_unset; [discriminate| |assumption].
      rewrite Hs. simpl. lia.
  - destruct (Py.split ";" suites) as [|s0 [|s1 rest]] eqn:Hs.
    + now apply split_nonempty in Hs.
    + destruct (String.eqb (Py.strip values) (Py.strip s0)) eqn:Hm;
        [apply String.eqb_eq in Hm|apply String.eqb_neq in Hm].
      * rewrite (ccpp_phys_set_one_match s0 Hs Hu Hm). intros [= <- <-].
        exists s0. split; [now left|]. split; [reflexivity|].
        split; [now split|intros He; contradiction].
      * rewrite (ccpp_phys_set_one_mismatch s0 Hs Hu Hm). discriminate.
    + assert (Hlen : (2 <= List.length (Py.split ";" suites))%nat)
        by (rewrite Hs; simpl; lia).
      rewrite <- Hs.
      destruct (List.find (fun suite => String.eqb (Py.strip values) (Py.strip suite))
                          (Py.split ";" suites)) as [suite|] eqn:F.
      * apply find_some in F. destruct F as [Hin Heq].
        apply String.eqb_eq in Heq.
        rewrite (ccpp_phys_set_many_match suite Hlen Hu Hin Heq).
        intros [= <- <-]. exists suite. split; [assumption|].
        split; [reflexivity|]. split; [now split|intros He; contradiction].
      * rewrite ccpp_phys_set_many_not_found; [discriminate|assumption..|].
        intros suite Hin Heq. apply (find_none _ _ F) in Hin.
        rewrite Heq, String.eqb_refl in Hin. discriminate.
Qed.

End PhysSet.

Lemma ccpp_phys_set_ok_inv self a p a' p' :
  ccpp_phys_set self a p = (Ok tt, a', p') ->
  exists obj suites entry values,
    dict_get (config_dict self) "physics_suites" = Some obj /\
    value obj = VStr suites /\
    dict_get p "physics_suite" = Some entry /\
    dict_get entry "values" = Some values.
Proof.
  unfold ccpp_phys_set, get_value, ret, raise.
  destruct (dict_get (config_dict self) "physics_suites") as [obj|] eqn:Ho;
    [simpl|discriminate].
  destruct (value obj) as [| |suites| | |] eqn:Hv; try discriminate.
  destruct (dict_get p "physics_suite") as [entry|] eqn:He; [|discriminate].
  destruct (dict_get entry "values") as [values|] eqn:Hvs; [|discriminate].
  intros _. now exists obj, suites, entry, values.
Qed.

(** C1, the defect: with one declared suite (["kessler"]) and an explicit
    selection that differs from it (["musica"]), [ccpp_phys_set] does not
    fail with the error of the suite mismatch. While the arguments of that
    message are evaluated, the name [user_nl_pg_dict], bound nowhere, raises
    [NameError]; the two dictionaries are left as they were. *)
Theorem ccpp_phys_set_mismatch_raises_NameError :
  Py.split ";" "kessler" = ["kessler"] /\
  ccpp_phys_set (registry_with_suites "kessler") [] (nl_dict "musica")
  = (Raise (NameError "user_nl_pg_dict"), [], nl_dict "musica") /\
  forall msg,
    fst (fst (ccpp_phys_set (registry_with_suites "kessler") [] (nl_dict "musica")))
    <> Raise (CamConfigValError msg).
Proof. repeat split. intros msg. discriminate. Qed.

(** C2, as stated, fails: with the declared suite ["kessler"] and the
    explicit selection [" kessler"], the resolution succeeds with the suite
    ["kessler"], written to the attribute dictionary, while the namelist
    dictionary keeps the text of the user, which is another string. *)
Lemma ccpp_phys_set_explicit_keeps_namelist_value :
  ccpp_phys_set (registry_with_suites "kessler") [] (nl_dict " kessler")
  = (Ok tt, [("phys_suite", "kessler")], nl_dict " kessler") /\
  nl_value (nl_dict " kessler") <> Some "kessler".
Proof. split; [reflexivity|discriminate]. Qed.

(** C2, amended: whenever [ccpp_phys_set] succeeds, the resolved suite, which
    is a declared suite with its surrounding white space removed, is written
    to the ['phys_suite'] entry of the attribute dictionary. The
    ['physics_suite'] value of the namelist dictionary is overwritten with it
    only when the selection was the sentinel; after an explicit selection the
    namelist dictionary is left untouched, and its value is the resolved suite
    up to surrounding white space. *)
Theorem ccpp_phys_set_writes_resolved_suite self a p a' p' :
  ccpp_phys_set self a p = (Ok tt, a', p') ->
  exists suites declared selection,
    get_value "physics_suites" self = (Ok (VStr suites), self) /\
    nl_value p = Some selection /\
    In declared (Py.split ";" suites) /\
    dict_get a' "phys_suite" = Some (Py.strip declared) /\
    (forall k, k <> "phys_suite" -> dict_get a' k = dict_get a k) /\
    (Py.strip selection = "UNSET" -> nl_value p' = Some (Py.strip declared)) /\
    (Py.strip selection <> "UNSET" ->
     p' = p /\ Py.strip selection = Py.strip declared).
Proof.
  intros Hok.
  destruct (ccpp_phys_set_ok_inv _ _ _ _ _ Hok)
    as (obj & suites & entry & values & Hobj & Hsuites & Hentry & Hvalues).
  destruct (ccpp_phys_set_success self obj suites a p entry values
              Hobj Hsuites Hentry Hvalues a' p' Hok)
    as (declared & Hin & Ha & Hset & Hunset).
  exists suites, declared, values. repeat split.
  - unfold get_value, ret. now rewrite Hobj, Hsuites.
  - unfold nl_value. now rewrite Hentry.
  - assumption.
  - subst a'. apply dict_get_set_same.
  - intros k Hk. subst a'. now apply dict_get_set_other.
  - intros Hu. rewrite (Hunset Hu). unfold nl_value.
    rewrite dict_get_set_same. apply dict_get_set_same.
  - now apply Hset.
  - now apply Hset.
Qed.

(** The amended C2 on the declared suite ["kessler"] and the sentinel. *)
Lemma ccpp_phys_set_writes_resolved_suite_witness :
  exists suites declared selection,
    get_value "physics_suites" (registry_with_suites "kessler")
    = (Ok (VStr suites), registry_with_suites "kessler") /\
    nl_value (nl_dict "UNSET") = Some selection /\
    In declared (Py.split ";" suites) /\
    dict_get [("phys_suite", "kessler")] "phys_suite" = Some (Py.strip declared) /\
    (forall k, k <> "phys_suite" ->
               dict_get [("phys_suite", "kessler")] k = dict_get [] k) /\
    (Py.strip selection = "UNSET" ->
     nl_value (nl_dict "kessler") = Some (Py.strip declared)) /\
    (Py.strip selection <> "UNSET" ->
     nl_dict "kessler" = nl_dict "UNSET" /\
     Py.strip selection = Py.strip declared).
Proof.
  apply (ccpp_phys_set_writes_resolved_suite
           (registry_with_suites "kessler") [] (nl_dict "UNSET")).
  reflexivity.
Defined.

(** ** Regular expressions: what [rems] and [matches] compute *)

Lemma matches_true r s : Re.matches r s = true <-> exists x, In x (Re.rems r s).
Proof.
  unfold Re.matches. destruct (Re.rems r s) as [|x l]; split.
  - discriminate.
  - intros [x []].
  - intros _. exists x. now left.
  - reflexivity.
Qed.

Lemma matches_false r s : Re.matches r s = false <-> Re.rems r s = [].
Proof.
  unfold Re.matches. destruct (Re.rems r s); split; try reflexivity; discriminate.
Qed.

Lemma in_rems_seq a b s x :
  In x (Re.rems (Re.Seq a b) s) <->
  exists y, In y (Re.rems a s) /\ In x (Re.rems b y).
Proof. simpl. apply in_flat_map. Qed.

Lemma one_char_lit c : one_char (Re.rems (Re.Lit c)) (fun d => Ascii.eqb d c).
Proof. intros [|d t]; reflexivity. Qed.

Lemma one_char_cls rs :
  one_char (Re.rems (Re.Cls rs)) (fun d => existsb (Re.in_range d) rs).
Proof. intros [|d t]; reflexivity. Qed.

Lemma one_char_any :
  one_char (Re.rems Re.Any) (fun d => negb (Ascii.eqb d Re.newline)).
Proof. intros [|d t]; simpl; [reflexivity|]. now destruct (Ascii.eqb d Re.newline). Qed.

Lemma in_one_char f p (H : one_char f p) s x :
  In x (f s) <-> exists d, s = String d x /\ p d = true.
Proof.
  rewrite H. destruct s as [|d t].
  - split; [intros []|intros (d & Hd & _); discriminate].
  - destruct (p d) eqn:E; split.
    + intros [<-|[]]. now exists d.
    + intros (d' & [= -> ->] & _). now left.
    + intros [].
    + intros (d' & [= <- <-] & Hp). congruence.
Qed.

Lemma length_append (s t : string) :
  String.length (s ++ t) = (String.length s + String.length t)%nat.
Proof. induction s as [|c s IH]; simpl; [reflexivity|now rewrite IH]. Qed.

Lemma append_assoc (s t u : string) : (s ++ t) ++ u = s ++ (t ++ u).
Proof. induction s as [|c s IH]; simpl; [reflexivity|now rewrite IH]. Qed.

Lemma append_nil_r (s : string) : s ++ "" = s.
Proof. induction s as [|c s IH]; simpl; [reflexivity|now rewrite IH]. Qed.

Lemma all_chars_app p s t :
  all_chars p (s ++ t) = all_chars p s && all_chars p t.
Proof.
  induction s as [|c s IH]; simpl; [reflexivity|].
  now rewrite IH, andb_assoc.
Qed.

Section StarOneChar.

Variable f : string -> list string.
Variable p : ascii -> bool.
Hypothesis Hf : one_char f p.

Lemma star_rems_sound n : forall s x,
  In x (Re.star_rems f n s) ->
  exists pre, s = pre ++ x /\ all_chars p pre = true.
Proof.
  induction n as [|n IH]; intros s x; simpl.
  - intros [<-|[]]. now exists "".
  - rewrite in_app_iff, in_flat_map. intros [(y & Hy & Hx)|[<-|[]]].
    + apply filter_In in Hy. destruct Hy as [Hy _].
      apply (in_one_char f p Hf) in Hy. destruct Hy as (d & -> & Hd).
      destruct (IH _ _ Hx) as (pre & -> & Hpre).
      exists (String d pre). simpl. now rewrite Hd, Hpre.
    + now exists "".
Qed.

Lemma star_rems_complete pre : forall n x,
  all_chars p pre = true -> (String.length pre <= n)%nat ->
  In x (Re.star_rems f n (pre ++ x)).
Proof.
  induction pre as [|d pre IH]; intros n x Hall Hlen.
  - destruct n; simpl; [now left|]. apply in_or_app. right. now left.
  - simpl in Hall. apply andb_prop in Hall. destruct Hall as [Hd Hall].
    destruct n as [|n]; [simpl in Hlen; lia|].
    simpl. apply in_or_app. left. apply in_flat_map.
    exists (pre ++ x). split.
    + apply filter_In. split.
      * apply (in_one_char f p Hf). now exists d.
      * unfold Re.shorter. simpl. apply Nat.ltb_lt. lia.
    + apply IH; [assumption|simpl in Hlen; lia].
Qed.

Lemma star_rems_self n s : In s (Re.star_rems f n s).
Proof.
  destruct n; simpl; [now left|]. apply in_or_app. right. now left.
Qed.

End StarOneChar.

(** The remainders of [c+] for a one-character pattern [c]: a non-empty run
    of characters of [c] has been read. *)
Lemma in_rems_plus_one_char a p (H : one_char (Re.rems a) p) s x :
  In x (Re.rems (Re.Plus a) s) <->
  exists d pre, s = String d (pre ++ x) /\ p d = true /\ all_chars p pre = true.
Proof.
  simpl. rewrite in_flat_map. split.
  - intros (y & Hy & Hx). apply (in_one_char _ p H) in Hy.
    destruct Hy as (d & -> & Hd).
    destruct (star_rems_sound _ p H _ _ _ Hx) as (pre & -> & Hpre).
    now exists d, pre.
  - intros (d & pre & -> & Hd & Hpre). exists (pre ++ x). split.
    + apply (in_one_char _ p H). now exists d.
    + apply (star_rems_complete _ p H); [assumption|].
      rewrite length_append. lia.
Qed.

(** What follows a non-failing [x*] or [x?] never makes a match fail. *)
Lemma matches_seq_star a b s :
  Re.matches (Re.Seq a (Re.Star b)) s = Re.matches a s.
Proof.
  destruct (Re.matches a s) eqn:E.
  - apply matches_true in E. destruct E as [y Hy].
    apply matches_true. exists y. apply in_rems_seq. exists y. split; [assumption|].
    simpl. destruct (String.length y); simpl; [now left|].
    apply in_or_app. right. now left.
  - apply matches_false in E. apply matches_false. simpl. now rewrite E.
Qed.

Lemma matches_seq_opt a b s :
  Re.matches (Re.Seq a (Re.Opt b)) s = Re.matches a s.
Proof.
  destruct (Re.matches a s) eqn:E.
  - apply matches_true in E. destruct E as [y Hy].
    apply matches_true. exists y. apply in_rems_seq. exists y. split; [assumption|].
    simpl. apply in_or_app. right. now left.
  - apply matches_false in E. apply matches_false. simpl. now rewrite E.
Qed.

(** ** Strings: prefixes, [find], slices *)

Lemma prefix_app p s : prefix p s = true <-> exists r, s = p ++ r.
Proof.
  revert s. induction p as [|c p IH]; intros s.
  - split; [intros _; now exists s|intros _; now destruct s].
  - destruct s as [|d s]; simpl.
    + split; [discriminate|intros [r Hr]; discriminate].
    + destruct (Ascii.ascii_dec c d) as [<-|Hne].
      * rewrite IH. split; intros [r Hr]; exists r; congruence.
      * split; [discriminate|intros [r [= Hd _]]; congruence].
Qed.

Lemma find_from_hit sub s i : prefix sub s = true -> Py.find_from sub s i = i.
Proof. intros H. destruct s; cbn [Py.find_from]; now rewrite H. Qed.

Lemma find_from_step sub c t i :
  prefix sub (String c t) = false ->
  Py.find_from sub (String c t) i = Py.find_from sub t (i + 1).
Proof. intros H. cbn [Py.find_from]. now rewrite H. Qed.

(** [find] passes over characters that cannot start the text it looks for. *)
Lemma find_from_skip c0 sub pre s i :
  all_chars (fun c => negb (Ascii.eqb c c0)) pre = true ->
  Py.find_from (String c0 sub) (pre ++ s) i
  = Py.find_from (String c0 sub) s (i + Py.len pre).
Proof.
  revert i. induction pre as [|c pre IH]; intros i Hall.
  - unfold Py.len. simpl. now rewrite Z.add_0_r.
  - simpl in Hall. apply andb_prop in Hall. destruct Hall as [Hc Hall].
    change (String c pre ++ s) with (String c (pre ++ s)).
    rewrite find_from_step.
    + rewrite IH by assumption. f_equal. unfold Py.len. simpl String.length. lia.
    + simpl. destruct (Ascii.ascii_dec c0 c) as [<-|Hne]; [|reflexivity].
      now rewrite Ascii.eqb_refl in Hc.
Qed.

(** [find] gives the place of the first occurrence. *)
Lemma find_from_first sub a : forall b i,
  (forall a' b', a ++ sub ++ b = a' ++ sub ++ b' ->
                 (String.length a <= String.length a')%nat) ->
  Py.find_from sub (a ++ sub ++ b) i = i + Py.len a.
Proof.
  induction a as [|c a IH]; intros b i Hmin.
  - simpl. unfold Py.len. simpl. rewrite Z.add_0_r. apply find_from_hit.
    apply prefix_app. now exists b.
  - change (String c a ++ sub ++ b) with (String c (a ++ sub ++ b)).
    rewrite find_from_step.
    + rewrite IH.
      * unfold Py.len. simpl String.length. lia.
      * intros a' b' H. specialize (Hmin (String c a') b'). simpl in Hmin.
        rewrite H in Hmin. specialize (Hmin eq_refl). lia.
    + destruct (prefix sub (String c (a ++ sub ++ b))) eqn:E; [|reflexivity].
      apply prefix_app in E. destruct E as [r Hr].
      specialize (Hmin "" r). simpl in Hmin. specialize (Hmin Hr). lia.
Qed.

(** ... and -1 when there is none. *)
Lemma find_from_absent sub : forall s i,
  (forall a b, s <> a ++ sub ++ b) -> Py.find_from sub s i = -1.
Proof.
  induction s as [|c s IH]; intros i Habs.
  - cbn [Py.find_from]. destruct (prefix sub "") eqn:E; [|reflexivity].
    apply prefix_app in E. destruct E as [r Hr]. now apply (Habs "" r) in Hr.
  - rewrite find_from_step.
    + apply IH. intros a b ->. now apply (Habs (String c a) b).
    + destruct (prefix sub (String c s)) eqn:E; [|reflexivity].
      apply prefix_app in E. destruct E as [r Hr]. now apply (Habs "" r) in Hr.
Qed.

Lemma substring_skip a : forall m s,
  substring (String.length a) m (a ++ s) = substring 0 m s.
Proof. induction a as [|c a IH]; intros m s; simpl; [reflexivity|apply IH]. Qed.

Lemma substring_take b : forall s, substring 0 (String.length b) (b ++ s) = b.
Proof.
  induction b as [|c b IH]; intros s; simpl.
  - now destruct s.
  - now rewrite IH.
Qed.

Lemma substring_all s : substring 0 (String.length s) s = s.
Proof. rewrite <- (append_nil_r s) at 2. apply substring_take. Qed.

Lemma clamp_id s i : 0 <= i <= Py.len s -> Py.clamp s i = i.
Proof.
  intros H. unfold Py.clamp. destruct (i <? 0) eqn:E; [apply Z.ltb_lt in E; lia|].
  lia.
Qed.

Lemma len_append s t : Py.len (s ++ t) = Py.len s + Py.len t.
Proof. unfold Py.len. rewrite length_append. lia. Qed.

Lemma len_nonneg s : 0 <= Py.len s.
Proof. unfold Py.len. lia. Qed.

(** [(a ++ b ++ c)[len a : len a + len b]] is [b]. *)
Lemma slice_middle a b c :
  Py.slice (a ++ b ++ c) (Py.len a) (Py.len a + Py.len b) = b.
Proof.
  pose proof (len_nonneg a). pose proof (len_nonneg b). pose proof (len_nonneg c).
  unfold Py.slice. rewrite !clamp_id by (rewrite !len_append; lia).
  unfold Py.len at 1. rewrite Nat2Z.id, substring_skip.
  replace (Z.to_nat (Py.len a + Py.len b - Py.len a)) with (String.length b)
    by (unfold Py.len; lia).
  apply substring_take.
Qed.

(** [(a ++ b)[len a :]] is [b]. *)
Lemma slice_from_tail a b : Py.slice_from (a ++ b) (Py.len a) = b.
Proof.
  unfold Py.slice_from.
  replace (a ++ b) with (a ++ b ++ "") by now rewrite append_nil_r.
  replace (Py.len (a ++ b ++ "")) with (Py.len a + Py.len b)
    by (rewrite !len_append; unfold Py.len at 5; simpl; lia).
  apply slice_middle.
Qed.

(** ** [int] *)

Lemma all_chars_impl (p q : ascii -> bool) s :
  (forall c, p c = true -> q c = true) ->
  all_chars p s = true -> all_chars q s = true.
Proof.
  intros Hpq. induction s as [|c s IH]; simpl; [reflexivity|].
  intros H. apply andb_prop in H. destruct H as [Hc Hs].
  now rewrite (Hpq _ Hc), IH.
Qed.

Lemma differs_from (p : ascii -> bool) c x :
  p c = true -> p x = false -> Ascii.eqb c x = false.
Proof.
  intros Hc Hx. destruct (Ascii.eqb_spec c x) as [->|]; [congruence|reflexivity].
Qed.

Lemma digit_not_space c : Py.is_digit c = true -> Py.isspace c = false.
Proof.
  unfold Py.is_digit, Py.isspace. intros H.
  apply andb_prop in H. destruct H as [H1 H2].
  apply N.leb_le in H1. apply N.leb_le in H2.
  repeat (apply orb_false_intro); try apply andb_false_iff;
    try (apply N.eqb_neq; lia).
  - right. apply N.leb_gt. lia.
  - right. apply N.leb_gt. lia.
Qed.

Lemma rstrip_no_space s :
  all_chars (fun c => negb (Py.isspace c)) s = true -> Py.rstrip s = s.
Proof.
  induction s as [|c s IH]; [reflexivity|]. simpl all_chars. intros H.
  apply andb_prop in H. destruct H as [Hc Hs].
  apply negb_true_iff in Hc. now rewrite (rstrip_cons _ _ Hc), IH.
Qed.

Lemma strip_no_space s :
  all_chars (fun c => negb (Py.isspace c)) s = true -> Py.strip s = s.
Proof.
  intros H. unfold Py.strip. rewrite lstrip_id.
  - now apply rstrip_no_space.
  - destruct s as [|c s]; [exact I|]. simpl in *.
    apply andb_prop in H. now apply negb_true_iff.
Qed.

Lemma int_digits_all_digits s : forall acc,
  all_chars Py.is_digit s = true ->
  Py.int_digits s acc true = Some (dec_val s acc).
Proof.
  induction s as [|c s IH]; intros acc H; simpl; [reflexivity|].
  simpl in H. apply andb_prop in H. destruct H as [Hc Hs].
  rewrite Hc. now apply IH.
Qed.

(** The white space [int] ignores is white space for [strip] too. *)
Lemma int_space_isspace c : Py.isspace c = false -> Py.int_space c = false.
Proof.
  unfold Py.isspace, Py.int_space. cbv zeta. intros H.
  apply orb_false_elim in H. destruct H as [H H160].
  apply orb_false_elim in H. destruct H as [H H133].
  apply orb_false_elim in H. destruct H as [H913 H2832].
  rewrite H913, H133, H160. cbn [orb]. rewrite !orb_false_r.
  apply N.eqb_neq. intros E. rewrite E in H2832. discriminate H2832.
Qed.

Lemma int_rstrip_cons c t :
  Py.int_space c = false ->
  Py.int_rstrip (String c t) = String c (Py.int_rstrip t).
Proof. intros H. simpl. rewrite H. now destruct (Py.int_rstrip t). Qed.

Lemma int_rstrip_no_space s :
  all_chars (fun c => negb (Py.int_space c)) s = true -> Py.int_rstrip s = s.
Proof.
  induction s as [|c s IH]; [reflexivity|]. simpl all_chars. intros H.
  apply andb_prop in H. destruct H as [Hc Hs].
  apply negb_true_iff in Hc. now rewrite (int_rstrip_cons _ _ Hc), IH.
Qed.

(** [int] reads a non-empty string of digits as the number it writes. *)
Lemma py_int_digits s :
  s <> "" -> all_chars Py.is_digit s = true -> py_int s = Ok (dec_val s 0).
Proof.
  intros Hne H. unfold py_int, Py.int.
  assert (Hns : all_chars (fun c => negb (Py.int_space c)) s = true).
  { apply (all_chars_impl Py.is_digit); [|assumption].
    intros c Hc. now rewrite (int_space_isspace c (digit_not_space c Hc)). }
  destruct s as [|c s]; [contradiction|].
  simpl in H. apply andb_prop in H. destruct H as [Hc Hs].
  cbn [Py.int_lstrip].
  rewrite (int_space_isspace c (digit_not_space c Hc)).
  rewrite (int_rstrip_no_space _ Hns).
  rewrite (differs_from Py.is_digit c "-" Hc eq_refl).
  rewrite (differs_from Py.is_digit c "+" Hc eq_refl).
  simpl. rewrite Hc. now rewrite int_digits_all_digits.
Qed.

(** [int] refuses a digit followed by a character that is neither a digit,
    nor an underscore, nor white space. *)
Lemma py_int_digit_then_other d c t :
  Py.is_digit d = true -> Py.is_digit c = false -> c <> "_"%char ->
  Py.isspace c = false ->
  py_int (String d (String c t)) = Raise (ValueError (String d (String c t))).
Proof.
  intros Hd Hc Hu Hs. unfold py_int, Py.int.
  pose proof (int_space_isspace d (digit_not_space d Hd)) as Hds.
  cbn [Py.int_lstrip]. rewrite Hds.
  rewrite (int_rstrip_cons d _ Hds), (int_rstrip_cons c _ (int_space_isspace c Hs)).
  rewrite (differs_from Py.is_digit d "-" Hd eq_refl).
  rewrite (differs_from Py.is_digit d "+" Hd eq_refl).
  simpl. rewrite Hd, Hc.
  destruct (Ascii.eqb_spec c "_") as [->|_]; [contradiction|reflexivity].
Qed.

(** ** The spectral-element grid names *)

Lemma is_digit_set_eq d : is_digit_set d = Py.is_digit d.
Proof.
  unfold is_digit_set, Re.in_range, Py.is_digit. simpl. now rewrite orb_false_r.
Qed.

Lemma is_1_to_8_digit d : is_1_to_8 d = true -> Py.is_digit d = true.
Proof.
  unfold is_1_to_8, Re.in_range, Py.is_digit. simpl. rewrite orb_false_r.
  intros H. apply andb_prop in H. destruct H as [H1 H2].
  apply N.leb_le in H1. apply N.leb_le in H2.
  apply andb_true_intro. split; apply N.leb_le; lia.
Qed.

(** The names the pattern of the spectral-element grids accepts: [ne], one
    digit or more, [np], a digit from 1 to 8, then anything. *)
Lemma se_grid_re_shape g :
  Re.matches se_grid_re g = true <->
  exists d0 ds d rest,
    g = "ne" ++ String d0 ds ++ "np" ++ String d rest /\
    Py.is_digit d0 = true /\ all_chars Py.is_digit ds = true /\
    is_1_to_8 d = true.
Proof.
  unfold se_grid_re. rewrite matches_seq_opt, matches_seq_star, matches_true.
  split.
  - intros [x H].
    apply in_rems_seq in H. destruct H as (y1 & H1 & Hx).
    apply (in_one_char _ _ (one_char_cls _)) in Hx. destruct Hx as (d & -> & Hd).
    apply in_rems_seq in H1. destruct H1 as (y2 & H2 & Hp).
    apply (in_one_char _ _ (one_char_lit _)) in Hp. destruct Hp as (cp & -> & Hcp).
    apply Ascii.eqb_eq in Hcp. subst cp.
    apply in_rems_seq in H2. destruct H2 as (y3 & H3 & Hn).
    apply (in_one_char _ _ (one_char_lit _)) in Hn. destruct Hn as (cn & -> & Hcn).
    apply Ascii.eqb_eq in Hcn. subst cn.
    apply in_rems_seq in H3. destruct H3 as (y4 & H4 & Hds).
    apply (in_rems_plus_one_char _ _ (one_char_cls _)) in Hds.
    destruct Hds as (d0 & ds & -> & Hd0 & Hall).
    apply in_rems_seq in H4. destruct H4 as (y5 & H5 & He).
    apply (in_one_char _ _ (one_char_lit _)) in He. destruct He as (ce & -> & Hce).
    apply Ascii.eqb_eq in Hce. subst ce.
    apply (in_one_char _ _ (one_char_lit _)) in H5. destruct H5 as (c1 & -> & Hc1).
    apply Ascii.eqb_eq in Hc1. subst c1.
    exists d0, ds, d, x. repeat split.
    + now rewrite <- is_digit_set_eq.
    + apply (all_chars_impl (fun d => existsb (Re.in_range d) [("0", "9")]%char));
        [|assumption].
      intros c Hc. now rewrite <- is_digit_set_eq.
    + assumption.
  - intros (d0 & ds & d & rest & -> & Hd0 & Hall & Hd).
    exists rest.
    apply in_rems_seq. exists (String d rest). split.
    2:{ apply (in_one_char _ _ (one_char_cls _)). now exists d. }
    apply in_rems_seq. exists ("p" ++ String d rest). split.
    2:{ apply (in_one_char _ _ (one_char_lit _)). now exists "p"%char. }
    apply in_rems_seq. exists ("np" ++ String d rest). split.
    2:{ apply (in_one_char _ _ (one_char_lit _)). now exists "n"%char. }
    apply in_rems_seq. exists (String d0 ds ++ "np" ++ String d rest). split.
    2:{ apply (in_rems_plus_one_char _ _ (one_char_cls _)).
        exists d0, ds. repeat split.
        - now rewrite <- is_digit_set_eq in Hd0.
        - apply (all_chars_impl Py.is_digit); [|assumption].
          intros c Hc. now rewrite <- is_digit_set_eq in Hc. }
    apply in_rems_seq. exists ("e" ++ String d0 ds ++ "np" ++ String d rest). split.
    2:{ apply (in_one_char _ _ (one_char_lit _)). now exists "e"%char. }
    apply (in_one_char _ _ (one_char_lit _)). now exists "n"%char.
Qed.

Lemma digits_not_n ds :
  all_chars Py.is_digit ds = true -> all_chars not_n ds = true.
Proof.
  apply all_chars_impl. intros c Hc. unfold not_n.
  now rewrite (differs_from Py.is_digit c "n" Hc eq_refl).
Qed.

Lemma digits_not_dot ds :
  all_chars Py.is_digit ds = true -> all_chars not_dot ds = true.
Proof.
  apply all_chars_impl. intros c Hc. unfold not_dot.
  now rewrite (differs_from Py.is_digit c "." Hc eq_refl).
Qed.

Lemma len_cons c s : Py.len (String c s) = 1 + Py.len s.
Proof. unfold Py.len. simpl String.length. lia. Qed.

Lemma len_ne_np ds : Py.len ("ne" ++ ds ++ "np") = 4 + Py.len ds.
Proof.
  change ("ne" ++ ds ++ "np") with (String "n" (String "e" (ds ++ "np"))).
  rewrite !len_cons, len_append. change (Py.len "np") with 2. lia.
Qed.

Section SeDecode.

Variable ds : string.
Hypothesis Hne : ds <> "".
Hypothesis Hds : all_chars Py.is_digit ds = true.

(** The first ["np"] of the name is the one that follows the digits. *)
Lemma find_np rest : Py.find ("ne" ++ ds ++ "np" ++ rest) "np" = 2 + Py.len ds.
Proof.
  unfold Py.find.
  change ("ne" ++ ds ++ "np" ++ rest)
    with (String "n" (String "e" (ds ++ "np" ++ rest))).
  rewrite find_from_step by reflexivity.
  rewrite find_from_step by reflexivity.
  rewrite (find_from_skip "n" "p" ds) by now apply digits_not_n.
  rewrite find_from_hit by (apply prefix_app; now exists rest). lia.
Qed.

(** [".pg"] is looked for in what follows ["np"]. *)
Lemma find_pg rest :
  Py.find ("ne" ++ ds ++ "np" ++ rest) ".pg"
  = Py.find_from ".pg" rest (4 + Py.len ds).
Proof.
  unfold Py.find.
  replace ("ne" ++ ds ++ "np" ++ rest) with (("ne" ++ ds ++ "np") ++ rest)
    by (simpl; now rewrite append_assoc).
  rewrite (find_from_skip "." "pg").
  - f_equal. rewrite len_ne_np. lia.
  - change ("ne" ++ ds ++ "np") with (String "n" (String "e" (ds ++ "np"))).
    cbn [all_chars]. rewrite all_chars_app. simpl.
    rewrite andb_true_r. now apply digits_not_dot.
Qed.

Lemma slice_csne rest :
  Py.slice ("ne" ++ ds ++ "np" ++ rest) 2 (2 + Py.len ds) = ds.
Proof. apply (slice_middle "ne" ds ("np" ++ rest)). Qed.

(** Without [".pg"]: the points are read from all that follows ["np"]. *)
Lemma se_decode_no_pg rest :
  (forall mid tail, rest <> mid ++ ".pg" ++ tail) ->
  se_decode ("ne" ++ ds ++ "np" ++ rest)
  = match py_int rest with
    | Raise e => Raise e
    | Ok csnp_val => Ok (dec_val ds 0, csnp_val, 0)
    end.
Proof.
  intros Habs. unfold se_decode.
  rewrite find_np, find_pg, slice_csne, (py_int_digits ds Hne Hds).
  rewrite (find_from_absent ".pg" rest _ Habs). simpl (-1 <? -1).
  replace ("ne" ++ ds ++ "np" ++ rest) with (("ne" ++ ds ++ "np") ++ rest)
    by (simpl; now rewrite append_assoc).
  replace (2 + Py.len ds + 2) with (Py.len ("ne" ++ ds ++ "np")).
  - now rewrite slice_from_tail.
  - rewrite len_ne_np. lia.
Qed.

(** With [".pg"]: the points are read from what stands between ["np"] and
    the first [".pg"], the physics grid from what follows it. *)
Lemma se_decode_pg mid tail :
  (forall mid' tail', mid ++ ".pg" ++ tail = mid' ++ ".pg" ++ tail' ->
                      (String.length mid <= String.length mid')%nat) ->
  se_decode ("ne" ++ ds ++ "np" ++ mid ++ ".pg" ++ tail)
  = match py_int mid with
    | Raise e => Raise e
    | Ok csnp_val =>
        match py_int tail with
        | Raise e => Raise e
        | Ok npg_val => Ok (dec_val ds 0, csnp_val, npg_val)
        end
    end.
Proof.
  intros Hfirst. unfold se_decode.
  rewrite find_np, find_pg, slice_csne, (py_int_digits ds Hne Hds).
  rewrite (find_from_first ".pg" mid tail _ Hfirst).
  pose proof (len_nonneg ds). pose proof (len_nonneg mid).
  destruct (-1 <? 4 + Py.len ds + Py.len mid) eqn:E;
    [|apply Z.ltb_ge in E; lia].
  assert (Hlen : Py.len ("ne" ++ ds ++ "np") = 2 + Py.len ds + 2).
  { rewrite len_ne_np. lia. }
  replace ("ne" ++ ds ++ "np" ++ mid ++ ".pg" ++ tail)
    with (("ne" ++ ds ++ "np") ++ mid ++ (".pg" ++ tail)) at 1
    by (simpl; now rewrite !append_assoc).
  rewrite <- Hlen.
  replace (4 + Py.len ds + Py.len mid) with (Py.len ("ne" ++ ds ++ "np") + Py.len mid)
    by lia.
  rewrite slice_middle.
  replace ("ne" ++ ds ++ "np" ++ mid ++ ".pg" ++ tail)
    with (("ne" ++ ds ++ "np" ++ mid ++ ".pg") ++ tail).
  - replace (Py.len ("ne" ++ ds ++ "np") + Py.len mid + 3)
      with (Py.len ("ne" ++ ds ++ "np" ++ mid ++ ".pg")).
    + now rewrite slice_from_tail.
    + rewrite Hlen.
      change ("ne" ++ ds ++ "np" ++ mid ++ ".pg")
        with (String "n" (String "e" (ds ++ "np" ++ mid ++ ".pg"))).
      rewrite !len_cons, !len_append.
      change (Py.len "np") with 2. change (Py.len ".pg") with 3. lia.
  - simpl. rewrite append_assoc. simpl. now rewrite append_assoc.
Qed.

End SeDecode.

(** ** The pattern of [add_cppdef] for a plain symbol *)

Lemma strip_prefix_spec p : forall s r, strip_prefix p s = Some r <-> s = p ++ r.
Proof.
  induction p as [|c p IH]; intros s r; simpl.
  - split; [now intros [= ->]|now intros ->].
  - destruct s as [|d s]; [split; discriminate|].
    destruct (Ascii.eqb_spec d c) as [->|Hne].
    + rewrite IH. split; [now intros ->|now intros [= ->]].
    + split; [discriminate|intros [= Hd _]; contradiction].
Qed.

Lemma metachar_false c :
  metachar c = false ->
  Ascii.eqb c "(" = false /\ Ascii.eqb c ")" = false /\ Ascii.eqb c "|" = false /\
  Ascii.eqb c "." = false /\ Ascii.eqb c "$" = false /\ Ascii.eqb c "*" = false /\
  Ascii.eqb c "+" = false /\ Ascii.eqb c "?" = false /\ Ascii.eqb c "\" = false /\
  Ascii.eqb c "[" = false /\ Ascii.eqb c "^" = false /\ Ascii.eqb c "{" = false.
Proof.
  unfold metachar. simpl. intros H.
  repeat (apply orb_false_elim in H; destruct H as [? H]).
  repeat split; assumption.
Qed.

(** Reading a plain text followed by [($|=)]: the atoms of the text, then
    the alternative. *)
Lemma parse_plain sym : forall f b,
  plain sym = true ->
  Re.parse (sym ++ check_suffix) [] f (Re.Normal b)
  = Some (Re.alt_of (Re.mk_frame (Re.alts f)
                       (end_or_equals :: rev (lits sym) ++ Re.cur f)%list)).
Proof.
  induction sym as [|c sym IH]; intros f b Hp.
  - reflexivity.
  - simpl in Hp. apply andb_prop in Hp. destruct Hp as [Hc Hp].
    apply negb_true_iff in Hc.
    destruct (metachar_false c Hc)
      as (H1 & H2 & H3 & H4 & H5 & H6 & H7 & H8 & H9 & H10 & H11 & H12).
    change (String c sym ++ check_suffix) with (String c (sym ++ check_suffix)).
    cbn [Re.parse].
    rewrite H1, H2, H3, H4, H5, H6, H7, H8, H9, H10, H11, H12. cbn [orb].
    rewrite (IH _ _ Hp). cbn [Re.push Re.alts Re.cur lits rev].
    now rewrite <- app_assoc.
Qed.

Lemma plain_app s t : plain (s ++ t) = plain s && plain t.
Proof.
  induction s as [|c s IH]; simpl; [reflexivity|].
  now rewrite IH, andb_assoc.
Qed.

Lemma compile_check_str sym :
  plain sym = true ->
  Re.compile (("-D" ++ sym) ++ check_suffix)
  = Some (Re.seq_of (end_or_equals :: rev (lits ("-D" ++ sym)))).
Proof.
  intros Hp. unfold Re.compile. rewrite parse_plain.
  - cbn [Re.alts Re.cur Re.alt_of fold_left]. now rewrite app_nil_r.
  - now rewrite plain_app, Hp.
Qed.

Lemma rems_seq_step acc a s :
  Re.rems (seq_step acc a) s = rems_step (Re.rems acc s) a.
Proof.
  unfold rems_step. destruct acc; try reflexivity.
  simpl. now rewrite app_nil_r.
Qed.

Lemma rems_fold_seq l : forall acc s,
  Re.rems (fold_left seq_step l acc) s = fold_left rems_step l (Re.rems acc s).
Proof.
  induction l as [|a l IH]; intros acc s; simpl; [reflexivity|].
  now rewrite IH, rems_seq_step.
Qed.

Lemma rems_seq_of atoms s :
  Re.rems (Re.seq_of atoms) s = fold_left rems_step (rev atoms) [s].
Proof. unfold Re.seq_of. apply rems_fold_seq. Qed.

Lemma fold_rems_nil l : fold_left rems_step l [] = [].
Proof. induction l as [|a l IH]; simpl; [reflexivity|exact IH]. Qed.

Lemma fold_rems_lits p : forall s,
  fold_left rems_step (lits p) [s]
  = match strip_prefix p s with
    | Some r => [r]
    | None => []
    end.
Proof.
  induction p as [|c p IH]; intros s; simpl; [reflexivity|].
  destruct s as [|d s]; simpl; [apply fold_rems_nil|].
  destruct (Ascii.eqb d c); simpl; [apply IH|apply fold_rems_nil].
Qed.

(** The compiled check matches a text that is the given one followed by the
    end, by a final newline, or by [=]. *)
Lemma rems_check p t :
  Re.rems (Re.seq_of (end_or_equals :: rev (lits p))) t
  = match strip_prefix p t with
    | Some r => (Re.rems end_or_equals r ++ [])%list
    | None => []
    end.
Proof.
  rewrite rems_seq_of. cbn [rev]. rewrite rev_involutive, fold_left_app.
  rewrite fold_rems_lits. now destruct (strip_prefix p t).
Qed.

Lemma rstrip_last s : forall x c,
  Py.rstrip s = x ++ String c "" -> Py.isspace c = false.
Proof.
  induction s as [|d s IH]; intros x c; simpl.
  - destruct x; discriminate.
  - destruct (Py.rstrip s) as [|e t'] eqn:E.
    + destruct (Py.isspace d) eqn:Hd.
      * destruct x; discriminate.
      * destruct x as [|x0 x]; simpl; [now intros [= <-]|].
        intros [= _ H]. destruct x; discriminate.
    + destruct x as [|x0 x]; simpl; [discriminate|].
      intros [= _ H]. now apply (IH x c).
Qed.

Lemma append_inv_nil p r : p = p ++ r -> r = "".
Proof.
  induction p as [|c p IH]; simpl; [now intros <-|]. intros [= H]. now apply IH.
Qed.

Lemma prefix_equals p t :
  prefix (p ++ "=") t = true <-> exists r, t = p ++ String "=" r.
Proof.
  rewrite prefix_app. split; intros [r Hr]; exists r;
    rewrite Hr; now rewrite append_assoc.
Qed.

(** On a stored definition the compiled check answers as [defines]. *)
Lemma matches_check sym cppdef :
  Re.matches (Re.seq_of (end_or_equals :: rev (lits ("-D" ++ sym))))
             (Py.strip cppdef)
  = defines sym cppdef.
Proof.
  unfold Re.matches, defines. rewrite rems_check.
  set (t := Py.strip cppdef). set (p := "-D" ++ sym).
  change (prefix ("-D" ++ sym ++ "=") t) with (prefix (p ++ "=") t).
  destruct (strip_prefix p t) as [r|] eqn:E.
  - apply strip_prefix_spec in E.
    destruct r as [|c r].
    + rewrite append_nil_r in E. rewrite E, String.eqb_refl. reflexivity.
    + assert (Hneq : String.eqb t p = false).
      { apply String.eqb_neq. intros H. rewrite H in E.
        now apply append_inv_nil in E. }
      rewrite Hneq. cbn [orb].
      destruct (Ascii.eqb_spec c "=") as [->|Hc].
      * transitivity true.
        -- simpl. destruct r; reflexivity.
        -- symmetry. apply prefix_equals. now exists r.
      * transitivity false.
        -- cbn [end_or_equals Re.rems]. 
           destruct (Ascii.eqb_spec c "=") as [->|_]; [contradiction|].
           destruct (String.eqb (String c r) "" || String.eqb (String c r) (String Re.newline ""))
             eqn:N; [|reflexivity].
           simpl in N. destruct (Ascii.eqb_spec c Re.newline) as [->|]; [|discriminate].
           destruct r; [|discriminate].
           unfold t, Py.strip in E. now apply rstrip_last in E.
        -- symmetry. destruct (prefix (p ++ "=") t) eqn:P; [|reflexivity].
           apply prefix_equals in P. destruct P as [r' Hr']. rewrite Hr' in E.
           apply strip_prefix_spec in E.
           rewrite (proj2 (strip_prefix_spec p _ (String "=" r')) eq_refl) in E.
           injection E as E1 _. now symmetry in E1.
  - destruct (String.eqb_spec t p) as [Heq|_].
    + rewrite Heq in E. rewrite (proj2 (strip_prefix_spec p p "")) in E;
        [discriminate|now rewrite append_nil_r].
    + destruct (prefix (p ++ "=") t) eqn:P; [|reflexivity].
      apply prefix_equals in P. destruct P as [r' Hr']. rewrite Hr' in E.
      rewrite (proj2 (strip_prefix_spec p _ (String "=" r')) eq_refl) in E.
      discriminate.
Qed.

Lemma existsb_eq {A} (f g : A -> bool) l :
  (forall x, f x = g x) -> existsb f l = existsb g l.
Proof. intros H. induction l as [|x l IH]; simpl; [reflexivity|now rewrite H, IH]. Qed.

(** [add_cppdef] for a symbol without special characters. *)
Lemma add_cppdef_plain sym val self :
  plain sym = true ->
  add_cppdef sym val self
  = if defined sym (cppdefs self)
    then (Raise (CamConfigValError (CppdefAlreadySet sym)), self)
    else (Ok tt,
          mk_config (atm_root self) (caseroot self) (bldroot self) (atm_name self)
            (cppdefs self ++ [cpp_str sym val])%list
            (config_dict self) (nml_groups self)).
Proof.
  intros Hp. unfold add_cppdef, defined.
  destruct (cppdefs self) as [|d l] eqn:El; [reflexivity|].
  change (("-D" ++ sym) ++ "($|=)") with (("-D" ++ sym) ++ check_suffix).
  rewrite (compile_check_str sym Hp).
  rewrite (existsb_eq _ (defines sym)) by (intros x; apply matches_check).
  destruct (existsb (defines sym) (d :: l)); reflexivity.
Qed.

(** ** The CPP definitions: [add_cppdef] *)

Lemma defined_spec sym l :
  defined sym l = true <->
  exists cppdef, In cppdef l /\
    (Py.strip cppdef = "-D" ++ sym \/
     exists v, Py.strip cppdef = "-D" ++ sym ++ "=" ++ v).
Proof.
  unfold defined. rewrite existsb_exists. unfold defines.
  split; intros (cppdef & Hin & H); exists cppdef; (split; [assumption|]).
  - apply orb_prop in H. destruct H as [H|H].
    + left. now apply String.eqb_eq.
    + right. apply prefix_app in H. destruct H as [v Hv]. exists v.
      rewrite Hv. simpl. now rewrite append_assoc.
  - apply orb_true_intro. destruct H as [H|[v H]].
    + left. now apply String.eqb_eq.
    + right. apply prefix_app. exists v. rewrite H. simpl.
      now rewrite append_assoc.
Qed.

Lemma defined_app sym l1 l2 :
  defined sym (l1 ++ l2)%list = defined sym l1 || defined sym l2.
Proof. apply existsb_app. Qed.

(** C5: [add_cppdef] is to reject a symbol exactly when a stored definition
    is [-D] and the symbol followed by the end of the text or by [=], as its
    docstring promises ("an error is thrown if the CPP macro has already been
    defined"). The code does not: the entry stored for the symbol [A+] is
    [-DA+], that is [-D] and the symbol followed by the end of the text, and
    yet a second [add_cppdef] of [A+] is accepted and stores the definition
    twice. Line 685 puts the symbol into the pattern without escaping it, so
    the [+] repeats the [A] instead of standing for itself. *)
Lemma add_cppdef_symbol_with_plus_added_twice :
  add_cppdef "A+" None (with_cppdefs []) = (Ok tt, with_cppdefs ["-DA+"]) /\
  In ("-D" ++ "A+") (cppdefs (with_cppdefs ["-DA+"])) /\
  add_cppdef "A+" None (with_cppdefs ["-DA+"])
  = (Ok tt, with_cppdefs ["-DA+"; "-DA+"]).
Proof. repeat split. now left. Qed.

(** Where the symbol has no special character of [re], the check of
    [add_cppdef] does what is asked of it: the symbol is rejected exactly
    when some stored definition, surrounding white space apart, is [-D] and
    the symbol, alone or followed by [=]. A rejected call changes nothing; an
    accepted one appends [-D{symbol}] or [-D{symbol}={value}] after the stored
    definitions, which keep their order and their text. *)
Theorem add_cppdef_rejects_defined_symbol sym val self :
  plain sym = true ->
  ((exists cppdef, In cppdef (cppdefs self) /\
      (Py.strip cppdef = "-D" ++ sym \/
       exists v, Py.strip cppdef = "-D" ++ sym ++ "=" ++ v)) ->
   add_cppdef sym val self
   = (Raise (CamConfigValError (CppdefAlreadySet sym)), self)) /\
  (~ (exists cppdef, In cppdef (cppdefs self) /\
        (Py.strip cppdef = "-D" ++ sym \/
         exists v, Py.strip cppdef = "-D" ++ sym ++ "=" ++ v)) ->
   exists self',
     add_cppdef sym val self = (Ok tt, self') /\
     cppdefs self' = (cppdefs self ++ [cpp_str sym val])%list /\
     config_dict self' = config_dict self /\
     nml_groups self' = nml_groups self).
Proof.
  intros Hp. rewrite (add_cppdef_plain sym val self Hp). split.
  - intros H. apply defined_spec in H. now rewrite H.
  - intros H. destruct (defined sym (cppdefs self)) eqn:E.
    + apply defined_spec in E. contradiction.
    + eexists. split; [reflexivity|]. now repeat split.
Qed.

(** The examples of the specification, whose symbols have no special
    character: [X] after [X] and [X] after [X=1] are rejected, [XY] after [X]
    and [X] after [XY] are added. *)
Lemma add_cppdef_rejects_defined_symbol_witness :
  add_cppdef "X" None (with_cppdefs ["-DX"])
  = (Raise (CamConfigValError (CppdefAlreadySet "X")), with_cppdefs ["-DX"]) /\
  add_cppdef "X" None (with_cppdefs ["-DX=1"])
  = (Raise (CamConfigValError (CppdefAlreadySet "X")), with_cppdefs ["-DX=1"]) /\
  (exists self',
     add_cppdef "XY" None (with_cppdefs ["-DX"]) = (Ok tt, self') /\
     cppdefs self' = ["-DX"; "-DXY"]) /\
  (exists self',
     add_cppdef "X" (Some (CppInt 1)) (with_cppdefs ["-DXY"]) = (Ok tt, self') /\
     cppdefs self' = ["-DXY"; "-DX=1"]).
Proof.
  split; [|split; [|split]].
  - apply (add_cppdef_rejects_defined_symbol "X" None (with_cppdefs ["-DX"]) eq_refl).
    exists "-DX". split; [now left|now left].
  - apply (add_cppdef_rejects_defined_symbol "X" None (with_cppdefs ["-DX=1"]) eq_refl).
    exists "-DX=1". split; [now left|]. right. now exists "1".
  - destruct (proj2 (add_cppdef_rejects_defined_symbol "XY" None
                       (with_cppdefs ["-DX"]) eq_refl)) as (self' & H & Hc & _).
    + intros (cppdef & [<-|[]] & [H|[v H]]); discriminate.
    + exists self'. now split.
  - destruct (proj2 (add_cppdef_rejects_defined_symbol "X" (Some (CppInt 1))
                       (with_cppdefs ["-DXY"]) eq_refl)) as (self' & H & Hc & _).
    + intros (cppdef & [<-|[]] & [H|[v H]]); discriminate.
    + exists self'. now split.
Defined.

(** C8: the symbol is read as a regular expression. After [AXB] has been
    defined, the different symbol [A.B] is rejected as already set, although
    no stored definition is [-DA.B], alone or followed by [=]: in the pattern
    [-DA.B($|=)] the dot stands for any character. *)
Theorem add_cppdef_reads_symbol_as_pattern :
  "AXB" <> "A.B" /\
  add_cppdef "AXB" None (with_cppdefs []) = (Ok tt, with_cppdefs ["-DAXB"]) /\
  add_cppdef "A.B" None (with_cppdefs ["-DAXB"])
  = (Raise (CamConfigValError (CppdefAlreadySet "A.B")), with_cppdefs ["-DAXB"]) /\
  defined "A.B" (cppdefs (with_cppdefs ["-DAXB"])) = false /\
  Re.compile "-DA.B($|=)"
  = Some (Re.Seq (Re.Seq (Re.Seq (Re.Seq (Re.Seq (Re.Lit "-") (Re.Lit "D"))
                                         (Re.Lit "A"))
                                 Re.Any)
                         (Re.Lit "B"))
                 (Re.Alt Re.Eol (Re.Lit "="))).
Proof. repeat split. discriminate. Qed.

(** ** Running [__init__] *)

Lemma bind_ok {A B} (m : M A) (k : A -> M B) self a self' :
  m self = (Ok a, self') -> bind m k self = k a self'.
Proof. intros H. unfold bind. now rewrite H. Qed.

Lemma bind_raise {A B} (m : M A) (k : A -> M B) self e self' :
  m self = (Raise e, self') -> bind m k self = (Raise e, self').
Proof. intros H. unfold bind. now rewrite H. Qed.

Lemma create_config_ok nm ds val spec ty nml obj self :
  new_conf_obj nm ds val spec ty nml = Ok obj ->
  dict_mem (config_dict self) nm = false ->
  create_config nm ds val spec ty nml self = (Ok tt, store nm obj self).
Proof.
  intros Hobj Hm. rewrite create_config_unfold, Hobj, Hm.
  unfold store. now rewrite (dict_set_fresh _ _ _ Hm).
Qed.

Lemma add_cppdef_ok sym val self :
  plain sym = true -> defined sym (cppdefs self) = false ->
  add_cppdef sym val self = (Ok tt, define (cpp_str sym val) self).
Proof. intros Hp Hd. now rewrite (add_cppdef_plain sym val self Hp), Hd. Qed.

Lemma add_cppdef_dup sym val self :
  plain sym = true -> defined sym (cppdefs self) = true ->
  add_cppdef sym val self
  = (Raise (CamConfigValError (CppdefAlreadySet sym)), self).
Proof. intros Hp Hd. now rewrite (add_cppdef_plain sym val self Hp), Hd. Qed.

Lemma py_in_strs s l : py_in (VStr s) (strs l) = existsb (String.eqb s) l.
Proof.
  unfold py_in, strs. induction l as [|x l IH]; [reflexivity|].
  cbn [map existsb]. rewrite IH. reflexivity.
Qed.

Lemma new_str_one_of nm ds s l ty nml :
  In s l ->
  new_conf_obj nm ds (VStr s) (OneOf (strs l)) ty nml
  = Ok (mk_conf String_ nm ds (VStr s) (OneOf (strs l)) None nml).
Proof.
  intros H. unfold new_conf_obj, ConfigString, check_str.
  rewrite py_in_strs.
  replace (existsb (String.eqb s) l) with true; [reflexivity|].
  symmetry. apply existsb_exists. exists s. split; [assumption|apply String.eqb_refl].
Qed.

Lemma new_str_not_one_of nm ds s l ty nml :
  ~ In s l ->
  new_conf_obj nm ds (VStr s) (OneOf (strs l)) ty nml
  = Raise (CamConfigValError (InvalidValue nm (VStr s))).
Proof.
  intros H. unfold new_conf_obj, ConfigString, check_str.
  rewrite py_in_strs.
  replace (existsb (String.eqb s) l) with false; [reflexivity|].
  symmetry. destruct (existsb (String.eqb s) l) eqn:E; [|reflexivity].
  apply existsb_exists in E. destruct E as (x & Hx & Heq).
  apply String.eqb_eq in Heq. now subst x.
Qed.

Lemma new_str_pattern nm ds s r ty nml :
  Re.matches r s = true ->
  new_conf_obj nm ds (VStr s) (Pattern r) ty nml
  = Ok (mk_conf String_ nm ds (VStr s) (Pattern r) None nml).
Proof.
  intros H. unfold new_conf_obj, ConfigString, check_str. now rewrite H.
Qed.

Create HintDb conf.
#[local] Hint Resolve new_str_one_of new_str_pattern : conf.

(** One successful step of a run: the step is replaced by its result. *)
Ltac ok_create :=
  erewrite create_config_ok;
  [ cbv beta iota
  | first [reflexivity | solve [eauto with conf]]
  | reflexivity ].

Ltac ok_define :=
  rewrite add_cppdef_ok;
  [ cbv beta iota
  | reflexivity
  | first [assumption | reflexivity] ].

Lemma classify_cases g :
  classify g =
  if Re.matches fv_grid_re g then Some "fv"
  else if Re.matches se_grid_re g then Some "se"
  else if Re.matches fv3_grid_re g then Some "fv3"
  else if Re.matches mpas_grid_re g then Some "mpas"
  else if Re.matches eul_grid_re g then Some "eul"
  else None.
Proof.
  unfold classify, grid_rules. cbn [List.find fst snd].
  repeat match goal with |- context [if ?b then _ else _] => destruct b end;
    reflexivity.
Qed.

Ltac unfold_run :=
  unfold init_classify, set_fixed, set_dycore, create_dyn, create_hgrid.

Lemma init_classify_ok case g c :
  classify g = Some c ->
  (c = "se" -> collides (init_cppdefs (CAM_CPPDEFS case)) (NTHRDS_ATM case) = false) ->
  exists self',
    init_classify case g (new_self case) = (Ok tt, self') /\
    classified case g c self' /\
    cppdefs self'
    = (init_cppdefs (CAM_CPPDEFS case)
       ++ (if String.eqb c "se"
           then map (fun sym => cpp_str sym None) (se_symbols (NTHRDS_ATM case))
           else []))%list.
Proof.
  rewrite classify_cases. intros Hc Hcol. unfold_run.
  destruct (Re.matches fv_grid_re g) eqn:Hfv.
  { injection Hc as <-. unfold bind. do 6 ok_create.
    eexists. split; [reflexivity|]. split; [now repeat split|].
    simpl. now rewrite app_nil_r. }
  destruct (Re.matches se_grid_re g) eqn:Hse.
  { injection Hc as <-. specialize (Hcol eq_refl).
    unfold collides, se_symbols in Hcol. unfold bind. do 7 ok_create.
    unfold nml_groups_append. cbv beta iota.
    destruct (1 <? NTHRDS_ATM case) eqn:Hn.
    - simpl in Hcol. apply orb_false_elim in Hcol. destruct Hcol as [H1 Hcol].
      apply orb_false_elim in Hcol. destruct Hcol as [H2 Hcol].
      apply orb_false_elim in Hcol. destruct Hcol as [H3 _].
      rewrite add_cppdef_ok; [cbv beta iota|reflexivity|exact H1].
      rewrite add_cppdef_ok; [cbv beta iota|reflexivity|].
      2:{ cbn [cppdefs define store new_self]. now rewrite defined_app, H2. }
      rewrite add_cppdef_ok; [cbv beta iota|reflexivity|].
      2:{ cbn [cppdefs define store new_self]. now rewrite !defined_app, H3. }
      eexists. split; [reflexivity|]. split; [now repeat split|].
      cbn [cppdefs define store new_self cpp_str]. simpl. unfold se_symbols. rewrite Hn.
      now rewrite <- !app_assoc.
    - simpl in Hcol. apply orb_false_elim in Hcol. destruct Hcol as [H1 Hcol].
      apply orb_false_elim in Hcol. destruct Hcol as [H2 _].
      rewrite add_cppdef_ok; [cbv beta iota|reflexivity|exact H1].
      rewrite add_cppdef_ok; [cbv beta iota|reflexivity|].
      2:{ cbn [cppdefs define store new_self]. now rewrite defined_app, H2. }
      eexists. split; [reflexivity|]. split; [now repeat split|].
      cbn [cppdefs define store new_self cpp_str]. simpl. unfold se_symbols. rewrite Hn.
      now rewrite <- !app_assoc. }
  destruct (Re.matches fv3_grid_re g) eqn:Hfv3.
  { injection Hc as <-. unfold bind. do 6 ok_create.
    eexists. split; [reflexivity|]. split; [now repeat split|].
    simpl. now rewrite app_nil_r. }
  destruct (Re.matches mpas_grid_re g) eqn:Hmpas.
  { injection Hc as <-. unfold bind. do 6 ok_create.
    eexists. split; [reflexivity|]. split; [now repeat split|].
    simpl. now rewrite app_nil_r. }
  destruct (Re.matches eul_grid_re g) eqn:Heul; [|discriminate].
  injection Hc as <-. unfold bind. do 9 ok_create.
  eexists. split; [reflexivity|]. split; [now repeat split|].
  simpl. now rewrite app_nil_r.
Qed.

Lemma set_dycore_null nthrds :
  set_dycore "null" nthrds
  = (create_dyn "none" ;;
     create_hgrid "null" NoSpec ;;
     create_config "dyn_src_dirs" dyn_dirs_desc (VList (strs ["none"]))
                   NoSpec (Some "str") false).
Proof. reflexivity. Qed.

(** The sentinel grid gives the dycore [none]. *)
Lemma init_classify_null case :
  exists self',
    init_classify case "null" (new_self case) = (Ok tt, self') /\
    classified case "null" "none" self' /\
    entry_value self' "dyn_src_dirs" = Some (VList [VStr "none"]) /\
    cppdefs self' = init_cppdefs (CAM_CPPDEFS case).
Proof.
  unfold init_classify. rewrite set_dycore_null.
  unfold set_fixed, create_dyn, create_hgrid, bind. do 7 ok_create.
  eexists. split; [reflexivity|]. now repeat split.
Qed.

(** A grid no pattern accepts, other than the sentinel, is refused. *)
Lemma init_classify_unknown case g :
  classify g = None -> g <> "null" ->
  exists self',
    init_classify case g (new_self case)
    = (Raise (CamConfigValError (UnknownGrid g)), self').
Proof.
  rewrite classify_cases. intros Hc Hnull. unfold_run.
  destruct (Re.matches fv_grid_re g); [discriminate|].
  destruct (Re.matches se_grid_re g); [discriminate|].
  destruct (Re.matches fv3_grid_re g); [discriminate|].
  destruct (Re.matches mpas_grid_re g); [discriminate|].
  destruct (Re.matches eul_grid_re g); [discriminate|].
  apply String.eqb_neq in Hnull. rewrite Hnull.
  unfold bind. do 4 ok_create. eexists. reflexivity.
Qed.

Lemma collides_true l nthrds :
  collides l nthrds = true ->
  exists sym, In sym (se_symbols nthrds) /\ defined sym l = true.
Proof. unfold collides. intros H. now apply existsb_exists in H. Qed.

(** A spectral-element grid in a case that already defines one of the
    symbols of the dycore: the dycore and the grid are stored, then the
    definition of the symbol is refused. *)
Lemma init_classify_se_collision case g :
  classify g = Some "se" ->
  collides (init_cppdefs (CAM_CPPDEFS case)) (NTHRDS_ATM case) = true ->
  exists sym self',
    init_classify case g (new_self case)
    = (Raise (CamConfigValError (CppdefAlreadySet sym)), self') /\
    In sym (se_symbols (NTHRDS_ATM case)) /\
    entry_value self' "dyn" = Some (VStr "se") /\
    entry_value self' "hgrid" = Some (VStr g).
Proof.
  rewrite classify_cases. intros Hc Hcol. unfold_run.
  destruct (Re.matches fv_grid_re g) eqn:Hfv; [discriminate|].
  destruct (Re.matches se_grid_re g) eqn:Hse.
  2:{ repeat match type of Hc with
             | (if ?b then _ else _) = _ => destruct b; try discriminate
             end. }
  unfold bind. do 7 ok_create. unfold nml_groups_append. cbv beta iota.
  unfold collides, se_symbols in *.
  destruct (defined "_MPI" (init_cppdefs (CAM_CPPDEFS case))) eqn:H1.
  { rewrite add_cppdef_dup; [|reflexivity|exact H1].
    exists "_MPI". eexists. split; [reflexivity|].
    split; [destruct (1 <? NTHRDS_ATM case); now left|now split]. }
  rewrite add_cppdef_ok; [cbv beta iota|reflexivity|exact H1].
  destruct (defined "SPMD" (init_cppdefs (CAM_CPPDEFS case))) eqn:H2.
  { rewrite add_cppdef_dup; [|reflexivity|].
    2:{ cbn [cppdefs define store new_self]. now rewrite defined_app, H2. }
    exists "SPMD". eexists. split; [reflexivity|].
    split; [destruct (1 <? NTHRDS_ATM case); right; now left|now split]. }
  rewrite add_cppdef_ok; [cbv beta iota|reflexivity|].
  2:{ cbn [cppdefs define store new_self]. now rewrite defined_app, H2. }
  destruct (1 <? NTHRDS_ATM case) eqn:Hn.
  - simpl in Hcol. rewrite H1, H2 in Hcol. simpl in Hcol.
    rewrite orb_false_r in Hcol.
    rewrite add_cppdef_dup; [|reflexivity|].
    2:{ cbn [cppdefs define store new_self]. now rewrite !defined_app, Hcol. }
    exists "_OPENMP". eexists. split; [reflexivity|].
    split; [right; right; now left|now split].
  - simpl in Hcol. rewrite H1, H2 in Hcol. discriminate.
Qed.

Lemma check_dyn_opt_ok user g nx ny :
  user <> "none" -> user = "" \/ In user dyn_valid_vals ->
  check_dyn_opt user g nx ny
  = Ok (if String.eqb user "" then None else Some user, g, VInt nx, VInt ny).
Proof.
  intros Hn Hv. unfold check_dyn_opt.
  apply String.eqb_neq in Hn. rewrite Hn.
  destruct (String.eqb user "") eqn:E; [reflexivity|].
  destruct Hv as [->|Hv]; [discriminate|].
  replace (existsb (String.eqb user) dyn_valid_vals) with true; [reflexivity|].
  symmetry. apply existsb_exists. exists user. split; [assumption|apply String.eqb_refl].
Qed.

Lemma init_raise case opts user g nx ny e self' :
  check_dyn_opt (dyn opts) (grid_token (ATM_GRID case)) (ATM_NX case) (ATM_NY case)
  = Ok (user, g, nx, ny) ->
  init_dycore case user g (new_self case) = (Raise e, self') ->
  __init__ case opts = Raise e.
Proof.
  intros Hc Hd. unfold __init__. rewrite Hc.
  now rewrite (bind_raise _ _ _ _ _ Hd).
Qed.

(** ** Entries are never lost *)

Lemma keeps_ret {A} (a : A) : keeps (ret a).
Proof. intros self r self' [= _ <-]. auto. Qed.

Lemma keeps_raise {A} e : keeps (@raise A e).
Proof. intros self r self' [= _ <-]. auto. Qed.

Lemma keeps_lift {A} (x : result A) : keeps (lift x).
Proof. intros self r self' [= _ <-]. auto. Qed.

Lemma keeps_bind {A B} (m : M A) (k : A -> M B) :
  keeps m -> (forall a, keeps (k a)) -> keeps (bind m k).
Proof.
  intros Hm Hk self r self'. unfold bind.
  destruct (m self) as [[a|e] s1] eqn:E.
  - intros H key obj Hget. apply (Hk a _ _ _ H). now apply (Hm _ _ _ E).
  - intros [= _ <-] key obj Hget. now apply (Hm _ _ _ E).
Qed.

Lemma keeps_create_config nm ds val spec ty nml :
  keeps (create_config nm ds val spec ty nml).
Proof.
  intros self r self'. rewrite create_config_unfold.
  destruct (new_conf_obj nm ds val spec ty nml) as [obj|e].
  - destruct (dict_mem (config_dict self) nm) eqn:Hm.
    + intros [= _ <-]. auto.
    + intros [= _ <-] k o Hk. simpl. rewrite dict_get_set_other; [assumption|].
      intros ->. unfold dict_mem in Hm. now rewrite Hk in Hm.
  - intros [= _ <-]. auto.
Qed.

Lemma add_cppdef_config_dict cppname val self r self' :
  add_cppdef cppname val self = (r, self') -> config_dict self' = config_dict self.
Proof.
  unfold add_cppdef, raise, set_cppdefs.
  destruct (cppdefs self) as [|d l].
  - now intros [= _ <-].
  - destruct (Re.compile _) as [re|]; [|now intros [= _ <-]].
    destruct (existsb _ _); now intros [= _ <-].
Qed.

Lemma keeps_add_cppdef cppname val : keeps (add_cppdef cppname val).
Proof.
  intros self r self' H k obj Hk. now rewrite (add_cppdef_config_dict _ _ _ _ _ H).
Qed.

Lemma keeps_nml_groups_append g : keeps (nml_groups_append g).
Proof. intros self r self' [= _ <-]. auto. Qed.

Create HintDb keeps.
#[local] Hint Resolve keeps_ret keeps_raise keeps_lift keeps_create_config
  keeps_add_cppdef keeps_nml_groups_append : keeps.

Ltac keeps_tac :=
  repeat first
    [ solve [auto with keeps]
    | progress cbv beta zeta
    | match goal with |- keeps (if ?b then _ else _) => destruct b end
    | apply keeps_bind; [|intros ?] ].

Lemma keeps_set_grid_vars dyn g nx ny : keeps (set_grid_vars dyn g nx ny).
Proof. unfold set_grid_vars. keeps_tac. Qed.

Lemma keeps_set_analytic_ic b : keeps (set_analytic_ic b).
Proof. unfold set_analytic_ic. keeps_tac. Qed.

Lemma keeps_set_ocn_phys_kinds ocn opts : keeps (set_ocn_phys_kinds ocn opts).
Proof. unfold set_ocn_phys_kinds. keeps_tac. Qed.

#[local] Hint Resolve keeps_set_grid_vars keeps_set_analytic_ic
  keeps_set_ocn_phys_kinds : keeps.

Lemma keeps_init_rest case opts g nx ny dyn :
  keeps (init_rest case opts g nx ny dyn).
Proof. unfold init_rest. keeps_tac. Qed.

Lemma keeps_entry_value {A} (m : M A) self r self' nm v :
  keeps m -> m self = (r, self') ->
  entry_value self nm = Some v -> entry_value self' nm = Some v.
Proof.
  intros Hk Hm. unfold entry_value.
  destruct (dict_get (config_dict self) nm) as [obj|] eqn:E; [|discriminate].
  now rewrite (Hk _ _ _ Hm _ _ E).
Qed.

(** The check of lines 312-320 on an object whose dycore is [c]. *)
Lemma check_dycore_spec user c self :
  entry_value self "dyn" = Some (VStr c) ->
  check_dycore user self
  = match user with
    | Some opt =>
        if String.eqb opt c then (Ok (VStr c), self)
        else (Raise (CamConfigValError (DycoreMismatch opt (VStr c))), self)
    | None => (Ok (VStr c), self)
    end.
Proof.
  unfold entry_value, check_dycore, bind, get_value, ret, raise.
  destruct (dict_get (config_dict self) "dyn") as [obj|]; [|discriminate].
  simpl. intros [= ->]. destruct user as [opt|]; [|reflexivity].
  simpl. now destruct (String.eqb opt c).
Qed.

(** ** The grid and the dycore *)

Lemma init_dycore_checked case user g c self1 :
  init_classify case g (new_self case) = (Ok tt, self1) ->
  entry_value self1 "dyn" = Some (VStr c) ->
  init_dycore case user g (new_self case)
  = match user with
    | Some opt =>
        if String.eqb opt c then (Ok (VStr c), self1)
        else (Raise (CamConfigValError (DycoreMismatch opt (VStr c))), self1)
    | None => (Ok (VStr c), self1)
    end.
Proof.
  intros Hrun Hdyn. unfold init_dycore. rewrite (bind_ok _ _ _ _ _ Hrun).
  now apply check_dycore_spec.
Qed.

Lemma init_ok_inv case opts self :
  __init__ case opts = Ok self ->
  exists user g nx ny dynv self1,
    check_dyn_opt (dyn opts) (grid_token (ATM_GRID case)) (ATM_NX case) (ATM_NY case)
    = Ok (user, g, nx, ny) /\
    init_dycore case user g (new_self case) = (Ok dynv, self1) /\
    init_rest case opts g nx ny dynv self1 = (Ok tt, self).
Proof.
  unfold __init__.
  destruct (check_dyn_opt _ _ _ _) as [[[[user g] nx] ny]|e] eqn:Hc;
    [|discriminate].
  unfold bind.
  destruct (init_dycore case user g (new_self case)) as [[dynv|e] self1] eqn:Hd;
    [|discriminate].
  destruct (init_rest case opts g nx ny dynv self1) as [[[]|e] self2] eqn:E;
    [|discriminate].
  intros [= <-]. now exists user, g, nx, ny, dynv, self1.
Qed.

Lemma classify_core g c :
  classify g = Some c -> In c ["fv"; "se"; "fv3"; "mpas"; "eul"].
Proof.
  rewrite classify_cases.
  repeat match goal with
         | |- (if ?b then _ else _) = _ -> _ => destruct b
         end; intros [= <-]; simpl; tauto.
Qed.

(** C4: the grid token is tried against the five patterns in the order
    finite volume, spectral element, FV3, MPAS, Eulerian ([classify] takes
    the first rule of [grid_rules] that matches a prefix), and the dycore of
    the first match is the one [__init__] stores under ["dyn"], with the token
    under ["hgrid"]. The step returns, except for a spectral-element grid
    in a case that already defines one of the CPP symbols this dycore adds.
    A token no pattern accepts, other than the sentinel ["null"], is refused
    with the error of the unknown grid, which carries the token. *)
Theorem grid_classification_first_match case g :
  (forall c, classify g = Some c ->
     exists r self',
       init_classify case g (new_self case) = (r, self') /\
       entry_value self' "dyn" = Some (VStr c) /\
       entry_value self' "hgrid" = Some (VStr g) /\
       ((c = "se" ->
         collides (init_cppdefs (CAM_CPPDEFS case)) (NTHRDS_ATM case) = false) ->
        r = Ok tt) /\
       (r = Ok tt \/
        exists sym, c = "se" /\ In sym (se_symbols (NTHRDS_ATM case)) /\
                    r = Raise (CamConfigValError (CppdefAlreadySet sym)))) /\
  (classify g = None -> g <> "null" ->
     fst (init_classify case g (new_self case))
     = Raise (CamConfigValError (UnknownGrid g)) /\
     forall opts,
       grid_token (ATM_GRID case) = g ->
       dyn opts <> "none" -> dyn opts = "" \/ In (dyn opts) dyn_valid_vals ->
       __init__ case opts = Raise (CamConfigValError (UnknownGrid g))).
Proof.
  split.
  - intros c Hc.
    destruct (String.eqb c "se"
              && collides (init_cppdefs (CAM_CPPDEFS case)) (NTHRDS_ATM case))
      eqn:E.
    + apply andb_prop in E. destruct E as [Ec Hcol].
      apply String.eqb_eq in Ec. subst c.
      destruct (init_classify_se_collision case g Hc Hcol)
        as (sym & self' & Hrun & Hin & Hd & Hg).
      exists (Raise (CamConfigValError (CppdefAlreadySet sym))), self'.
      repeat split; try assumption.
      * intros H. rewrite (H eq_refl) in Hcol. discriminate.
      * right. now exists sym.
    + assert (H : c = "se" ->
                  collides (init_cppdefs (CAM_CPPDEFS case)) (NTHRDS_ATM case) = false).
      { intros ->. exact E. }
      destruct (init_classify_ok case g c Hc H)
        as (self' & Hrun & (Hd & Hg & _) & _).
      exists (Ok tt), self'. repeat split; try assumption. now left.
  - intros Hc Hnull.
    destruct (init_classify_unknown case g Hc Hnull) as [self' Hrun].
    split; [now rewrite Hrun|].
    intros opts Hg Hnone Hvalid.
    apply (init_raise case opts
             (if String.eqb (dyn opts) "" then None else Some (dyn opts))
             g (VInt (ATM_NX case)) (VInt (ATM_NY case)) _ self').
    + rewrite Hg. now apply check_dyn_opt_ok.
    + unfold init_dycore. now rewrite (bind_raise _ _ _ _ _ Hrun).
Qed.

(** C4 on the grids of the specification: each is given its dycore, and
    the grid of the self-test, which no pattern accepts, is refused. *)
Lemma grid_classification_first_match_witness :
  (exists r self',
     init_classify (with_grid FakeCase "ne30np4") "ne30np4"
                   (new_self (with_grid FakeCase "ne30np4")) = (r, self') /\
     entry_value self' "dyn" = Some (VStr "se") /\
     entry_value self' "hgrid" = Some (VStr "ne30np4") /\
     ((("se" = "se") ->
       collides (init_cppdefs (CAM_CPPDEFS (with_grid FakeCase "ne30np4")))
                (NTHRDS_ATM (with_grid FakeCase "ne30np4")) = false) ->
      r = Ok tt) /\
     (r = Ok tt \/
      exists sym, "se" = "se" /\
                  In sym (se_symbols (NTHRDS_ATM (with_grid FakeCase "ne30np4"))) /\
                  r = Raise (CamConfigValError (CppdefAlreadySet sym)))) /\
  __init__ FakeCase (fake_opts "")
  = Raise (CamConfigValError (UnknownGrid "f19_f19_mg17")) /\
  map classify ["1.9x2.5"; "ne30np4"; "C96"; "mpasa120"; "T42"; "f19_f19_mg17"]
  = [Some "fv"; Some "se"; Some "fv3"; Some "mpas"; Some "eul"; None].
Proof.
  split; [|split].
  - apply (proj1 (grid_classification_first_match
                    (with_grid FakeCase "ne30np4") "ne30np4") "se").
    reflexivity.
  - apply (proj2 (grid_classification_first_match FakeCase "f19_f19_mg17")).
    + reflexivity.
    + discriminate.
    + reflexivity.
    + discriminate.
    + now left.
  - reflexivity.
Defined.

(** ** The [--dyn] option *)

Lemma no_mismatch_ret {A} (a : A) : no_mismatch (ret a).
Proof. intros self e self'. discriminate. Qed.

Lemma no_mismatch_bind {A B} (m : M A) (k : A -> M B) :
  no_mismatch m -> (forall a, no_mismatch (k a)) -> no_mismatch (bind m k).
Proof.
  intros Hm Hk self e self'. unfold bind.
  destruct (m self) as [[a|e0] s1] eqn:E.
  - apply Hk.
  - intros [= <- <-]. now apply (Hm _ _ _ E).
Qed.

Lemma no_mismatch_create_config nm ds val spec ty nml :
  no_mismatch (create_config nm ds val spec ty nml).
Proof.
  intros self e self'. rewrite create_config_unfold.
  destruct (new_conf_obj nm ds val spec ty nml) as [obj|e0] eqn:E.
  - destruct (dict_mem (config_dict self) nm); [|discriminate].
    intros [= <- _] (u & d & H). discriminate.
  - intros [= <- _] (u & d & ->). revert E.
    unfold new_conf_obj, ConfigInteger, ConfigString, ConfigList.
    destruct val; simpl; try discriminate.
    + destruct (check_int _ _ _); discriminate.
    + destruct (check_int _ _ _); discriminate.
    + destruct (check_str _ _) as [[|]|]; discriminate.
    + destruct spec; try discriminate;
        match goal with |- context [if ?b then _ else _] => destruct b end;
        discriminate.
Qed.

Lemma no_mismatch_add_cppdef cppname val : no_mismatch (add_cppdef cppname val).
Proof.
  intros self e self'. unfold add_cppdef, raise, set_cppdefs.
  destruct (cppdefs self) as [|d l]; [discriminate|].
  destruct (Re.compile _) as [re|].
  - destruct (existsb _ _); [|discriminate].
    intros [= <- _] (u & c & H). discriminate.
  - intros [= <- _] (u & c & H). discriminate.
Qed.

Lemma no_mismatch_nml_groups_append g : no_mismatch (nml_groups_append g).
Proof. intros self e self'. discriminate. Qed.

Lemma no_mismatch_se_decode g : no_mismatch (lift (se_decode g)).
Proof.
  intros self e self'. unfold lift, se_decode, py_int.
  repeat match goal with
         | |- context [match Py.int ?s with _ => _ end] => destruct (Py.int s)
         | |- context [if ?b then _ else _] => destruct b
         end; try discriminate; intros [= <- _] (u & c & H); discriminate.
Qed.

Create HintDb no_mismatch.
#[local] Hint Resolve no_mismatch_ret no_mismatch_create_config
  no_mismatch_add_cppdef no_mismatch_nml_groups_append no_mismatch_se_decode
  : no_mismatch.

Ltac no_mismatch_tac :=
  repeat first
    [ solve [auto with no_mismatch]
    | progress cbv beta zeta
    | match goal with |- no_mismatch (if ?b then _ else _) => destruct b end
    | apply no_mismatch_bind; [|intros ?] ].

Lemma no_mismatch_init_rest case opts g nx ny dyn :
  no_mismatch (init_rest case opts g nx ny dyn).
Proof.
  unfold init_rest, set_grid_vars, set_analytic_ic, set_ocn_phys_kinds.
  no_mismatch_tac.
Qed.

(** C7, as stated, fails: the grid ["1.9x2.5"] gives the dycore ["fv"], the
    user asks for [--dyn none], which differs from it, and the construction
    succeeds, with the dycore ["none"]: the option [none] replaces the grid by
    the sentinel before the grid is looked at. *)
Lemma dyn_none_differs_from_grid_without_mismatch :
  classify (grid_token "1.9x2.5") = Some "fv" /\
  "none" <> "fv" /\
  exists self,
    __init__ (with_grid FakeCase "1.9x2.5") (fake_opts "none") = Ok self /\
    entry_value self "dyn" = Some (VStr "none").
Proof.
  split; [reflexivity|]. split; [discriminate|].
  eexists. split; [vm_compute; reflexivity|reflexivity].
Qed.

Lemma init_unfold case opts user g nx ny dynv self1 :
  check_dyn_opt (dyn opts) (grid_token (ATM_GRID case)) (ATM_NX case) (ATM_NY case)
  = Ok (user, g, nx, ny) ->
  init_dycore case user g (new_self case) = (Ok dynv, self1) ->
  __init__ case opts
  = match init_rest case opts g nx ny dynv self1 with
    | (Ok _, self) => Ok self
    | (Raise e, _) => Raise e
    end.
Proof.
  intros Hc Hd. unfold __init__. rewrite Hc.
  now rewrite (bind_ok _ _ _ _ _ Hd).
Qed.

(** Once the dycore check has passed, the construction does not fail with
    the mismatch error, and what is stored stays stored. *)
Lemma init_after_dycore case opts user g nx ny dynv self1 :
  check_dyn_opt (dyn opts) (grid_token (ATM_GRID case)) (ATM_NX case) (ATM_NY case)
  = Ok (user, g, nx, ny) ->
  init_dycore case user g (new_self case) = (Ok dynv, self1) ->
  (forall e, __init__ case opts = Raise e -> ~ is_mismatch e) /\
  (forall self nm v, __init__ case opts = Ok self ->
                     entry_value self1 nm = Some v -> entry_value self nm = Some v).
Proof.
  intros Hc Hd. rewrite (init_unfold _ _ _ _ _ _ _ _ Hc Hd).
  destruct (init_rest case opts g nx ny dynv self1) as [[[]|e0] self2] eqn:E.
  - split; [discriminate|]. intros self nm v [= <-].
    apply (keeps_entry_value _ _ _ _ _ _ (keeps_init_rest _ _ _ _ _ _) E).
  - split; [|discriminate]. intros e [= <-].
    apply (no_mismatch_init_rest _ _ _ _ _ _ _ _ _ E).
Qed.

Lemma check_dyn_opt_none g nx ny :
  check_dyn_opt "none" g nx ny = Ok (Some "none", "null", VStr "null", VStr "null").
Proof. reflexivity. Qed.

(** ** The rest of the construction *)

Lemma dict_mem_snoc {V} (d : dict V) k v k' :
  dict_mem (d ++ [(k, v)])%list k' = dict_mem d k' || String.eqb k' k.
Proof.
  unfold dict_mem. induction d as [|[k0 v0] d IH]; simpl.
  - now destruct (String.eqb k' k).
  - destruct (String.eqb k' k0); [reflexivity|exact IH].
Qed.

Lemma dict_get_snoc_old {V} (d : dict V) k v k' :
  k' <> k -> dict_get (d ++ [(k, v)])%list k' = dict_get d k'.
Proof.
  intros Hne. induction d as [|[k0 v0] d IH]; simpl.
  - apply String.eqb_neq in Hne. now rewrite Hne.
  - destruct (String.eqb k' k0); [reflexivity|exact IH].
Qed.

Lemma dict_get_snoc_new {V} (d : dict V) k v :
  dict_mem d k = false -> dict_get (d ++ [(k, v)])%list k = Some v.
Proof.
  unfold dict_mem. induction d as [|[k0 v0] d IH]; simpl.
  - now rewrite String.eqb_refl.
  - destruct (String.eqb k k0); [discriminate|exact IH].
Qed.

(** A successful step from an object of which only the free names are
    known. *)
Ltac ok_create_fresh :=
  erewrite create_config_ok;
  [ cbv beta iota
  | first [reflexivity | eassumption | solve [eauto with conf]]
  | cbn [config_dict store define cppdefs]; rewrite ?dict_mem_snoc;
    repeat match goal with H : dict_mem _ _ = false |- _ => rewrite H end;
    reflexivity ].

Ltac split_fresh H :=
  unfold fresh, later_names in H; cbn [forallb] in H;
  repeat (let F := fresh "F" in
          apply andb_prop in H; destruct H as [F H];
          apply negb_true_iff in F);
  clear H.

Lemma set_analytic_ic_ok analytic self :
  dict_mem (config_dict self) "analytic_ic" = false ->
  (analytic = true -> defined "ANALYTIC_IC" (cppdefs self) = false) ->
  exists self',
    set_analytic_ic analytic self = (Ok tt, self') /\
    config_dict self'
    = (config_dict self
       ++ [("analytic_ic",
            mk_conf Integer "analytic_ic"
              (VList (strs ["Switch to turn on analytic initial conditions for the dynamics state: ";
                            "0 => no ";
                            "1 => yes."]))
              (VInt (Z.b2z analytic)) (OneOf [VInt 0; VInt 1]) None true)])%list.
Proof.
  intros Hf Hd. unfold set_analytic_ic, bind, nml_groups_append, ret.
  destruct analytic.
  - rewrite add_cppdef_ok; [cbv beta iota|reflexivity|now apply Hd].
    erewrite create_config_ok; [|reflexivity|exact Hf].
    eexists. split; reflexivity.
  - erewrite create_config_ok; [|reflexivity|exact Hf].
    eexists. split; reflexivity.
Qed.

Lemma set_ocn_phys_kinds_ok ocn opts self :
  dict_mem (config_dict self) "ocn" = false ->
  dict_mem (config_dict self) "physics_suites" = false ->
  dict_mem (config_dict self) "dyn_kind" = false ->
  dict_mem (config_dict self) "phys_kind" = false ->
  In ocn ocn_valid_vals ->
  In (dyn_kind opts) kind_valid_vals -> In (phys_kind opts) kind_valid_vals ->
  exists self',
    set_ocn_phys_kinds ocn opts self = (Ok tt, self') /\
    entry_value self' "ocn" = Some (VStr ocn) /\
    entry_value self' "physics_suites" = Some (VStr (physics_suites opts)) /\
    entry_value self' "dyn_kind" = Some (VStr (dyn_kind opts)) /\
    entry_value self' "phys_kind" = Some (VStr (phys_kind opts)).
Proof.
  intros F1 F2 F3 F4 Hocn Hdk Hpk. unfold set_ocn_phys_kinds, bind.
  do 4 ok_create_fresh.
  eexists. split; [reflexivity|].
  unfold entry_value. cbn [config_dict store].
  repeat split.
  - rewrite !dict_get_snoc_old by discriminate.
    now rewrite (dict_get_snoc_new _ _ _ F1).
  - rewrite !dict_get_snoc_old by discriminate.
    rewrite dict_get_snoc_new; [reflexivity|].
    rewrite ?dict_mem_snoc, F2. reflexivity.
  - rewrite !dict_get_snoc_old by discriminate.
    rewrite dict_get_snoc_new; [reflexivity|].
    rewrite ?dict_mem_snoc, F3. reflexivity.
  - rewrite dict_get_snoc_new; [reflexivity|].
    rewrite ?dict_mem_snoc, F4. reflexivity.
Qed.

(** From the dycore on, for a dycore other than the spectral-element one:
    the construction succeeds when the ocean component and the two kinds are
    valid and [ANALYTIC_IC], when asked for, is not yet defined; [nlat] and
    [nlon] hold what the case gave. *)
Lemma init_rest_latlon_ok case opts g nx ny olat olon dynv self :
  py_eqb dynv (VStr "se") = false ->
  fresh self later_names ->
  new_conf_obj "nlat"
    (VList (strs ["Number of unique latitude points in rectangular lat/lon grid.";
                  "Set to 1 (one) for unstructured grids."]))
    ny NoSpec None false = Ok olat ->
  new_conf_obj "nlon"
    (VList (strs ["Number of unique longitude points in rectangular lat/lon grid.";
                  "Total number of columns for unstructured grids."]))
    nx NoSpec None false = Ok olon ->
  In (COMP_OCN case) ocn_valid_vals ->
  In (dyn_kind opts) kind_valid_vals -> In (phys_kind opts) kind_valid_vals ->
  (analytic_ic opts = true -> defined "ANALYTIC_IC" (cppdefs self) = false) ->
  exists self',
    init_rest case opts g nx ny dynv self = (Ok tt, self') /\
    dict_get (config_dict self') "nlat" = Some olat /\
    dict_get (config_dict self') "nlon" = Some olon.
Proof.
  intros Hse Hfresh Hlat Hlon Hocn Hdk Hpk Hic. split_fresh Hfresh.
  unfold init_rest, set_grid_vars. rewrite Hse. unfold bind at 1 2.
  do 2 ok_create_fresh.
  destruct (set_analytic_ic_ok (analytic_ic opts)
              (store "nlon" olon (store "nlat" olat self)))
    as (s3 & Hrun3 & Hd3).
  { cbn [config_dict store]. rewrite ?dict_mem_snoc, F4. reflexivity. }
  { exact Hic. }
  rewrite (bind_ok _ _ _ _ _ Hrun3).
  destruct (set_ocn_phys_kinds_ok (COMP_OCN case) opts s3)
    as (s4 & Hrun4 & _); try assumption;
    try (rewrite Hd3; cbn [config_dict store]; rewrite ?dict_mem_snoc;
         repeat match goal with H : dict_mem _ _ = false |- _ => rewrite H end;
         reflexivity).
  exists s4. split; [exact Hrun4|].
  pose proof (keeps_set_ocn_phys_kinds _ _ _ _ _ Hrun4) as Hk.
  split; apply Hk; rewrite Hd3; cbn [config_dict store].
  - rewrite !dict_get_snoc_old by discriminate.
    now rewrite (dict_get_snoc_new _ _ _ F2).
  - rewrite dict_get_snoc_old by discriminate.
    rewrite dict_get_snoc_new; [reflexivity|].
    rewrite ?dict_mem_snoc, F3. reflexivity.
Qed.

Lemma set_grid_vars_latlon g nx ny olat olon dynv self :
  py_eqb dynv (VStr "se") = false ->
  dict_mem (config_dict self) "nlat" = false ->
  dict_mem (config_dict self) "nlon" = false ->
  new_conf_obj "nlat" nlat_desc ny NoSpec None false = Ok olat ->
  new_conf_obj "nlon" nlon_desc nx NoSpec None false = Ok olon ->
  set_grid_vars dynv g nx ny self
  = (Ok tt, store "nlon" olon (store "nlat" olat self)).
Proof.
  intros Hse F1 F2 Hlat Hlon. unfold set_grid_vars. rewrite Hse. unfold bind.
  fold nlat_desc nlon_desc. do 2 ok_create_fresh. reflexivity.
Qed.

(** Every object built with a dycore other than the spectral-element one
    holds under [nlat] and [nlon] the objects made of the case dimensions. *)
Lemma init_rest_latlon_inv case opts g nx ny olat olon dynv self self' :
  py_eqb dynv (VStr "se") = false ->
  fresh self later_names ->
  new_conf_obj "nlat" nlat_desc ny NoSpec None false = Ok olat ->
  new_conf_obj "nlon" nlon_desc nx NoSpec None false = Ok olon ->
  init_rest case opts g nx ny dynv self = (Ok tt, self') ->
  dict_get (config_dict self') "nlat" = Some olat /\
  dict_get (config_dict self') "nlon" = Some olon.
Proof.
  intros Hse Hfresh Hlat Hlon. split_fresh Hfresh. unfold init_rest.
  rewrite (bind_ok _ _ _ _ _
             (set_grid_vars_latlon g nx ny olat olon dynv self Hse F2 F3 Hlat Hlon)).
  intros Hrun.
  assert (Hk : keeps (set_analytic_ic (analytic_ic opts) ;;
                      set_ocn_phys_kinds (COMP_OCN case) opts)) by keeps_tac.
  split; apply (Hk _ _ _ Hrun); cbn [config_dict store].
  - rewrite dict_get_snoc_old by discriminate.
    now rewrite (dict_get_snoc_new _ _ _ F2).
  - rewrite dict_get_snoc_new; [reflexivity|].
    rewrite dict_mem_snoc, F3. reflexivity.
Qed.

Lemma check_dyn_opt_inv user g nx ny r :
  user <> "none" ->
  check_dyn_opt user g nx ny = Ok r ->
  r = (if String.eqb user "" then None else Some user, g, VInt nx, VInt ny).
Proof.
  intros Hn. unfold check_dyn_opt. apply String.eqb_neq in Hn. rewrite Hn.
  destruct (String.eqb user ""); [now intros [= <-]|].
  destruct (negb _); [discriminate|now intros [= <-]].
Qed.

(** C10: with [--dyn none], every object [__init__] builds holds under
    ["nlat"] and ["nlon"] string objects whose value is the text ["null"],
    whatever integers the case gives as [ATM_NX] and [ATM_NY]; and the object
    is built as soon as the ocean component and the two kinds are valid and
    [ANALYTIC_IC], when asked for, is not defined by the case. With another
    accepted [--dyn] on a grid of a dycore other than the spectral-element
    one, the two entries are integer objects holding [ATM_NY] and [ATM_NX]. *)
Theorem dyn_none_stores_null_dimensions case opts :
  (dyn opts = "none" ->
   (forall self, __init__ case opts = Ok self ->
      exists olat olon,
        dict_get (config_dict self) "nlat" = Some olat /\
        value olat = VStr "null" /\ kind olat = String_ /\
        dict_get (config_dict self) "nlon" = Some olon /\
        value olon = VStr "null" /\ kind olon = String_) /\
   (In (COMP_OCN case) ocn_valid_vals ->
    In (dyn_kind opts) kind_valid_vals -> In (phys_kind opts) kind_valid_vals ->
    (analytic_ic opts = true ->
     defined "ANALYTIC_IC" (init_cppdefs (CAM_CPPDEFS case)) = false) ->
    exists self, __init__ case opts = Ok self)) /\
  (dyn opts <> "none" ->
   forall c, classify (grid_token (ATM_GRID case)) = Some c -> c <> "se" ->
   forall self, __init__ case opts = Ok self ->
     exists olat olon,
       dict_get (config_dict self) "nlat" = Some olat /\
       value olat = VInt (ATM_NY case) /\ kind olat = Integer /\
       dict_get (config_dict self) "nlon" = Some olon /\
       value olon = VInt (ATM_NX case) /\ kind olon = Integer).
Proof.
  split.
  - intros Hnone.
    destruct (init_classify_null case) as (self0 & Hrun0 & (Hd0 & Hg0 & Hf0) & _ & Hc0).
    assert (Hdy : init_dycore case (Some "none") "null" (new_self case)
                  = (Ok (VStr "none"), self0)).
    { now rewrite (init_dycore_checked _ _ _ _ _ Hrun0 Hd0). }
    assert (Hcheck :
              check_dyn_opt (dyn opts) (grid_token (ATM_GRID case))
                            (ATM_NX case) (ATM_NY case)
              = Ok (Some "none", "null", VStr "null", VStr "null")).
    { rewrite Hnone. apply check_dyn_opt_none. }
    rewrite (init_unfold _ _ _ _ _ _ _ _ Hcheck Hdy).
    split.
    + intros self Hok.
      destruct (init_rest case opts "null" (VStr "null") (VStr "null")
                          (VStr "none") self0) as [[[]|e] s] eqn:E;
        [|discriminate].
      injection Hok as <-.
      destruct (init_rest_latlon_inv case opts "null" (VStr "null") (VStr "null")
                  _ _ (VStr "none") self0 s eq_refl Hf0 eq_refl eq_refl E)
        as [Hlat Hlon].
      eexists. eexists. split; [exact Hlat|].
      split; [reflexivity|]. split; [reflexivity|]. split; [exact Hlon|].
      split; reflexivity.
    + intros Hocn Hdk Hpk Hic.
      destruct (init_rest_latlon_ok case opts "null" (VStr "null") (VStr "null")
                  _ _ (VStr "none") self0 eq_refl Hf0 eq_refl eq_refl
                  Hocn Hdk Hpk) as (self & Hrun & _).
      { now rewrite Hc0. }
      exists self. now rewrite Hrun.
  - intros Hnone c Hc Hse self Hok.
    destruct (init_ok_inv _ _ _ Hok)
      as (user & g & nx & ny & dynv & self1 & Hcheck & Hdy & Hrest).
    apply (check_dyn_opt_inv _ _ _ _ _ Hnone) in Hcheck.
    injection Hcheck as -> -> -> ->.
    destruct (init_classify_ok case _ c Hc) as (s1 & Hrun & (Hd & Hg & Hf) & _).
    { intros ->. contradiction. }
    rewrite (init_dycore_checked _ _ _ _ _ Hrun Hd) in Hdy.
    assert (Hres : dynv = VStr c /\ self1 = s1).
    { destruct (String.eqb (dyn opts) ""); [now injection Hdy as <- <-|].
      destruct (String.eqb (dyn opts) c); [now injection Hdy as <- <-|discriminate]. }
    destruct Hres as [-> ->].
    assert (Hne : py_eqb (VStr c) (VStr "se") = false).
    { simpl. now apply String.eqb_neq. }
    destruct (init_rest_latlon_inv case opts _ (VInt (ATM_NX case))
                (VInt (ATM_NY case)) _ _ (VStr c) s1 self
                Hne Hf eq_refl eq_refl Hrest) as [Hlat Hlon].
    eexists. eexists. split; [exact Hlat|].
      split; [reflexivity|]. split; [reflexivity|]. split; [exact Hlon|].
      split; reflexivity.
Qed.

(** C10 on the case of the self-test, which asks for [--dyn none] and
    gives the dimensions 180 and 90. *)
Lemma dyn_none_stores_null_dimensions_witness :
  ATM_NX FakeCase = 180 /\ ATM_NY FakeCase = 90 /\
  exists self,
    __init__ FakeCase (fake_opts "none") = Ok self /\
    exists olat olon,
      dict_get (config_dict self) "nlat" = Some olat /\
      value olat = VStr "null" /\ kind olat = String_ /\
      dict_get (config_dict self) "nlon" = Some olon /\
      value olon = VStr "null" /\ kind olon = String_.
Proof.
  split; [reflexivity|]. split; [reflexivity|].
  destruct (proj1 (dyn_none_stores_null_dimensions FakeCase (fake_opts "none"))
                  eq_refl) as [Hinv Hok].
  destruct Hok as [self Hself].
  - simpl. tauto.
  - simpl. tauto.
  - simpl. tauto.
  - discriminate.
  - exists self. split; [exact Hself|]. now apply Hinv.
Defined.

(** ** The fields of a spectral-element grid *)

Lemma set_grid_vars_se_raise g nx ny e self :
  se_decode g = Raise e ->
  set_grid_vars (VStr "se") g nx ny self = (Raise e, self).
Proof.
  intros H. unfold set_grid_vars. cbn [py_eqb String.eqb Ascii.eqb Bool.eqb].
  unfold bind, lift. now rewrite H.
Qed.

Lemma set_grid_vars_se g nx ny csne_val csnp_val npg_val self :
  se_decode g = Ok (csne_val, csnp_val, npg_val) ->
  fresh self ["csne"; "csnp"; "npg"] ->
  defined "NP" (cppdefs self) = false ->
  exists self',
    set_grid_vars (VStr "se") g nx ny self = (Ok tt, self') /\
    entry_value self' "csne" = Some (VInt csne_val) /\
    entry_value self' "csnp" = Some (VInt csnp_val) /\
    entry_value self' "npg" = Some (VInt npg_val) /\
    cppdefs self' = (cppdefs self ++ [cpp_str "NP" (Some (CppInt csnp_val))])%list.
Proof.
  intros Hdec Hfresh Hnp. unfold fresh in Hfresh. cbn [forallb] in Hfresh.
  apply andb_prop in Hfresh. destruct Hfresh as [F1 Hfresh].
  apply andb_prop in Hfresh. destruct Hfresh as [F2 Hfresh].
  apply andb_prop in Hfresh. destruct Hfresh as [F3 _].
  apply negb_true_iff in F1, F2, F3.
  unfold set_grid_vars. cbn [py_eqb String.eqb Ascii.eqb Bool.eqb].
  unfold bind, lift. rewrite Hdec. cbv beta iota zeta. cbn [fst snd].
  do 3 ok_create_fresh.
  rewrite add_cppdef_ok; [|reflexivity|exact Hnp].
  eexists. split; [reflexivity|].
  unfold entry_value. cbn [config_dict store define cppdefs].
  repeat split.
  - rewrite !dict_get_snoc_old by discriminate.
    now rewrite (dict_get_snoc_new _ _ _ F1).
  - rewrite dict_get_snoc_old by discriminate.
    rewrite dict_get_snoc_new; [reflexivity|].
    rewrite dict_mem_snoc, F2. reflexivity.
  - rewrite dict_get_snoc_new; [reflexivity|].
    rewrite !dict_mem_snoc, F3. reflexivity.
Qed.

(** C3: a grid token the spectral-element pattern accepts is [ne], a
    non-empty run of digits, [np] and a rest. The first ["np"] of the token
    is the one after the digits, and the fields are read at fixed places: the
    elements along an edge are the number the digits write; the points per
    element are [int] of the rest up to its first [".pg"], or of the whole
    rest when it has none; the physics grid is [int] of what follows that
    [".pg"], or 0. A failing [int] is the failure of the decoding. The
    decoded fields are stored under ["csne"], ["csnp"] and ["npg"].
    ["ne30np4"] gives (30, 4, 0), ["ne30np4.pg2"] gives (30, 4, 2), and
    ["ne30pg3"], first rewritten to ["ne30np4.pg3"], gives (30, 4, 3). *)
Theorem se_grid_fields_decoded_by_offsets :
  (forall g, Re.matches se_grid_re g = true ->
     exists ds rest,
       g = "ne" ++ ds ++ "np" ++ rest /\
       ds <> "" /\ all_chars Py.is_digit ds = true /\
       Py.find g "np" = 2 + Py.len ds /\
       py_int ds = Ok (dec_val ds 0) /\
       ((forall mid tail, rest <> mid ++ ".pg" ++ tail) ->
        se_decode g
        = match py_int rest with
          | Raise e => Raise e
          | Ok csnp_val => Ok (dec_val ds 0, csnp_val, 0)
          end) /\
       (forall mid tail,
          rest = mid ++ ".pg" ++ tail ->
          (forall mid' tail', rest = mid' ++ ".pg" ++ tail' ->
                              (String.length mid <= String.length mid')%nat) ->
          se_decode g
          = match py_int mid with
            | Raise e => Raise e
            | Ok csnp_val =>
                match py_int tail with
                | Raise e => Raise e
                | Ok npg_val => Ok (dec_val ds 0, csnp_val, npg_val)
                end
            end)) /\
  (forall g nx ny self csne_val csnp_val npg_val,
     se_decode g = Ok (csne_val, csnp_val, npg_val) ->
     fresh self ["csne"; "csnp"; "npg"] ->
     defined "NP" (cppdefs self) = false ->
     exists self',
       set_grid_vars (VStr "se") g nx ny self = (Ok tt, self') /\
       se_fields self'
       = (Some (VInt csne_val), Some (VInt csnp_val), Some (VInt npg_val))) /\
  built_with_fields "ne30np4" 30 4 0 /\
  built_with_fields "ne30np4.pg2" 30 4 2 /\
  grid_token "ne30pg3" = "ne30np4.pg3" /\
  built_with_fields "ne30pg3" 30 4 3.
Proof.
  split; [|split; [|repeat split]].
  - intros g Hm. apply se_grid_re_shape in Hm.
    destruct Hm as (d0 & ds & d & rest & -> & Hd0 & Hds & Hd).
    exists (String d0 ds), (String d rest).
    assert (Hne : String d0 ds <> "") by discriminate.
    assert (Hall : all_chars Py.is_digit (String d0 ds) = true)
      by (simpl; now rewrite Hd0, Hds).
    split; [reflexivity|]. split; [exact Hne|]. split; [exact Hall|].
    split; [now apply find_np|]. split; [now apply py_int_digits|].
    split.
    + intros Habs. now apply se_decode_no_pg.
    + intros mid tail Hrest Hfirst. rewrite Hrest. apply se_decode_pg; try assumption.
      intros mid' tail' H. apply (Hfirst mid' tail'). now rewrite Hrest.
  - intros g nx ny self a b c Hdec Hfresh Hnp.
    destruct (set_grid_vars_se g nx ny a b c self Hdec Hfresh Hnp)
      as (self' & Hrun & H1 & H2 & H3 & _).
    exists self'. split; [exact Hrun|]. unfold se_fields. now rewrite H1, H2, H3.
  - eexists. split; [vm_compute; reflexivity|reflexivity].
  - eexists. split; [vm_compute; reflexivity|reflexivity].
  - eexists. split; [vm_compute; reflexivity|reflexivity].
Qed.

(** C3 on the token ["ne30np4.pg2"]. *)
Lemma se_grid_fields_decoded_by_offsets_witness :
  exists ds rest,
    "ne30np4.pg2" = "ne" ++ ds ++ "np" ++ rest /\
    ds <> "" /\ all_chars Py.is_digit ds = true /\
    Py.find "ne30np4.pg2" "np" = 2 + Py.len ds /\
    py_int ds = Ok (dec_val ds 0) /\
    ((forall mid tail, rest <> mid ++ ".pg" ++ tail) ->
     se_decode "ne30np4.pg2"
     = match py_int rest with
       | Raise e => Raise e
       | Ok csnp_val => Ok (dec_val ds 0, csnp_val, 0)
       end) /\
    (forall mid tail,
       rest = mid ++ ".pg" ++ tail ->
       (forall mid' tail', rest = mid' ++ ".pg" ++ tail' ->
                           (String.length mid <= String.length mid')%nat) ->
       se_decode "ne30np4.pg2"
       = match py_int mid with
         | Raise e => Raise e
         | Ok csnp_val =>
             match py_int tail with
             | Raise e => Raise e
             | Ok npg_val => Ok (dec_val ds 0, csnp_val, npg_val)
             end
         end).
Proof.
  apply (proj1 se_grid_fields_decoded_by_offsets "ne30np4.pg2"). reflexivity.
Defined.

(** ** Grid names the pattern accepts and the decoding refuses *)

Lemma find_from_range sub : forall s i,
  Py.find_from sub s i = -1 \/
  (i <= Py.find_from sub s i <= i + Py.len s).
Proof.
  induction s as [|c s IH]; intros i; cbn [Py.find_from].
  - destruct (prefix sub ""); [right|left; reflexivity].
    unfold Py.len. simpl. lia.
  - destruct (prefix sub (String c s)).
    + right. pose proof (len_nonneg (String c s)). lia.
    + destruct (IH (i + 1)) as [H|H]; [now left|right].
      rewrite len_cons. lia.
Qed.

(** [(a ++ s)[len a : len a + k]] is the first [k] characters of [s]. *)
Lemma slice_after a s k :
  0 <= k <= Py.len s ->
  Py.slice (a ++ s) (Py.len a) (Py.len a + k) = substring 0 (Z.to_nat k) s.
Proof.
  intros Hk. pose proof (len_nonneg a).
  unfold Py.slice. rewrite !clamp_id by (rewrite len_append; lia).
  unfold Py.len at 1. rewrite Nat2Z.id, substring_skip.
  f_equal. lia.
Qed.

Lemma prefix_head_ne c0 p c s :
  c0 <> c -> prefix (String c0 p) (String c s) = false.
Proof.
  intros H. cbn [prefix].
  destruct (Ascii.ascii_dec c0 c); [contradiction|reflexivity].
Qed.

Lemma fv_rejects_n s : Re.matches fv_grid_re (String "n" s) = false.
Proof. reflexivity. Qed.

(** C9, as stated, fails: the token ["ne30np45"] is [ne30np4] followed by
    the suffix ["5"], which is not empty and does not begin with [".pg"];
    the pattern accepts it and the decoding succeeds, with 45 points per
    element. *)
Lemma se_grid_digit_suffix_is_decoded :
  "ne30np45" = "ne30np4" ++ "5" /\
  prefix ".pg" "5" = false /\
  Re.matches se_grid_re "ne30np45" = true /\
  se_decode "ne30np45" = Ok (30, 45, 0) /\
  built_with_fields "ne30np45" 30 45 0.
Proof.
  repeat split. eexists. split; [vm_compute; reflexivity|reflexivity].
Qed.

Section SeRefused.

Variables (ds suf : string) (d c : ascii).
Hypothesis Hne : ds <> "".
Hypothesis Hds : all_chars Py.is_digit ds = true.
Hypothesis Hd : is_1_to_8 d = true.
Hypothesis Hc : Py.is_digit c = false.
Hypothesis Hu : c <> "_"%char.
Hypothesis Hs : Py.isspace c = false.
Hypothesis Hpg : prefix ".pg" (String c suf) = false.

Let g : string := "ne" ++ ds ++ "np" ++ String d (String c suf).

Lemma se_refused_matches : Re.matches se_grid_re g = true.
Proof.
  apply se_grid_re_shape. destruct ds as [|d0 ds'] eqn:E; [contradiction|].
  simpl in Hds. apply andb_prop in Hds. destruct Hds as [Hd0 Hds'].
  now exists d0, ds', d, (String c suf).
Qed.

Lemma se_refused_classify : classify g = Some "se".
Proof.
  rewrite classify_cases. unfold g at 1.
  change ("ne" ++ ds ++ "np" ++ String d (String c suf))
    with (String "n" (String "e" (ds ++ "np" ++ String d (String c suf)))).
  rewrite fv_rejects_n. now rewrite se_refused_matches.
Qed.

Lemma se_refused_decode :
  exists x,
    se_decode g = Raise (ValueError (String d (String c x))).
Proof.
  unfold g, se_decode.
  rewrite (find_np ds Hds), (find_pg ds Hds), (slice_csne ds),
    (py_int_digits ds Hne Hds).
  pose proof (is_1_to_8_digit d Hd) as Hdd.
  rewrite find_from_step.
  2:{ apply prefix_head_ne. intros E. subst d. discriminate Hdd. }
  rewrite (find_from_step _ _ _ _ Hpg).
  pose proof (len_nonneg ds) as Hl.
  replace ("ne" ++ ds ++ "np" ++ String d (String c suf))
    with (("ne" ++ ds ++ "np") ++ String d (String c suf))
    by (simpl; now rewrite append_assoc).
  replace (2 + Py.len ds + 2) with (Py.len ("ne" ++ ds ++ "np"))
    by (rewrite len_ne_np; lia).
  destruct (find_from_range ".pg" suf (4 + Py.len ds + 1 + 1)) as [H|H].
  - rewrite H. simpl (-1 <? -1). rewrite slice_from_tail.
    rewrite (py_int_digit_then_other d c suf Hdd Hc Hu Hs). now exists suf.
  - set (k := Py.find_from ".pg" suf (4 + Py.len ds + 1 + 1)) in *.
    destruct (-1 <? k) eqn:E; [|apply Z.ltb_ge in E; lia].
    replace k with (Py.len ("ne" ++ ds ++ "np") + (k - (4 + Py.len ds)))
      by (rewrite len_ne_np; lia).
    rewrite slice_after by (rewrite !len_cons; lia).
    replace (Z.to_nat (k - (4 + Py.len ds)))
      with (S (S (Z.to_nat (k - (4 + Py.len ds) - 2)))) by lia.
    cbn [substring].
    rewrite (py_int_digit_then_other d c _ Hdd Hc Hu Hs). eexists. reflexivity.
Qed.

End SeRefused.

(** C9, amended: take a token [ne], digits, [np], a digit from 1 to 8 and
    a suffix whose first character is neither a digit, nor an underscore,
    nor white space, and which does not begin with [".pg"] (as in
    ["ne30np4x"] and ["ne30np4pg3"]). The spectral-element pattern accepts
    the token, the grid is classified to the spectral-element dycore, and the
    conversion of the points per element raises [ValueError] on a text that
    starts with the digit and that character: the horizontal dimensions fail
    with it, and so does the construction of the object when [--dyn] is
    absent or [se] and the case defines none of the CPP symbols of the
    dycore. The error is the plain one of [int], not one of the configuration
    errors. *)
Theorem se_grid_accepted_but_not_decodable ds suf d c :
  ds <> "" -> all_chars Py.is_digit ds = true -> is_1_to_8 d = true ->
  Py.is_digit c = false -> c <> "_"%char -> Py.isspace c = false ->
  prefix ".pg" (String c suf) = false ->
  Re.matches se_grid_re ("ne" ++ ds ++ "np" ++ String d (String c suf)) = true /\
  classify ("ne" ++ ds ++ "np" ++ String d (String c suf)) = Some "se" /\
  exists x,
    se_decode ("ne" ++ ds ++ "np" ++ String d (String c suf))
    = Raise (ValueError (String d (String c x))) /\
    (forall nx ny self,
       set_grid_vars (VStr "se") ("ne" ++ ds ++ "np" ++ String d (String c suf))
                     nx ny self
       = (Raise (ValueError (String d (String c x))), self)) /\
    (forall case opts,
       grid_token (ATM_GRID case) = "ne" ++ ds ++ "np" ++ String d (String c suf) ->
       dyn opts = "" \/ dyn opts = "se" ->
       collides (init_cppdefs (CAM_CPPDEFS case)) (NTHRDS_ATM case) = false ->
       __init__ case opts = Raise (ValueError (String d (String c x)))).
Proof.
  intros Hne Hds Hd Hc Hu Hs Hpg.
  pose proof (se_refused_matches ds suf d c Hne Hds Hd) as Hm.
  pose proof (se_refused_classify ds suf d c Hne Hds Hd) as Hcl.
  destruct (se_refused_decode ds suf d c Hne Hds Hd Hc Hu Hs Hpg) as [x Hx].
  split; [exact Hm|]. split; [exact Hcl|]. exists x. split; [exact Hx|].
  split.
  - intros nx ny self. now apply set_grid_vars_se_raise.
  - intros case opts Hg Hdyn Hcol.
    destruct (init_classify_ok case _ "se" Hcl (fun _ => Hcol))
      as (s1 & Hrun & (Hdy & _) & _).
    assert (Hcheck :
              check_dyn_opt (dyn opts) (grid_token (ATM_GRID case))
                            (ATM_NX case) (ATM_NY case)
              = Ok (if String.eqb (dyn opts) "" then None else Some (dyn opts),
                    grid_token (ATM_GRID case),
                    VInt (ATM_NX case), VInt (ATM_NY case))).
    { apply check_dyn_opt_ok.
      - destruct Hdyn as [->| ->]; discriminate.
      - destruct Hdyn as [->| ->]; [now left|right; simpl; tauto]. }
    assert (Hdycore :
              init_dycore case
                (if String.eqb (dyn opts) "" then None else Some (dyn opts))
                (grid_token (ATM_GRID case)) (new_self case)
              = (Ok (VStr "se"), s1)).
    { rewrite Hg. rewrite (init_dycore_checked _ _ _ _ _ Hrun Hdy).
      destruct Hdyn as [->| ->]; reflexivity. }
    rewrite (init_unfold _ _ _ _ _ _ _ _ Hcheck Hdycore).
    unfold init_rest. rewrite Hg.
    now rewrite (bind_raise _ _ _ _ _
                   (set_grid_vars_se_raise _ _ _ _ s1 Hx)).
Qed.

(** The amended C9 on ["ne30np4x"] and ["ne30np4pg3"]. *)
Lemma se_grid_accepted_but_not_decodable_witness :
  (Re.matches se_grid_re "ne30np4x" = true /\
   exists x, se_decode "ne30np4x" = Raise (ValueError (String "4" (String "x" x))) /\
             __init__ (with_grid FakeCase "ne30np4x") (fake_opts "")
             = Raise (ValueError (String "4" (String "x" x)))) /\
  (Re.matches se_grid_re "ne30np4pg3" = true /\
   exists x, se_decode "ne30np4pg3" = Raise (ValueError (String "4" (String "p" x))) /\
             __init__ (with_grid FakeCase "ne30np4pg3") (fake_opts "se")
             = Raise (ValueError (String "4" (String "p" x)))).
Proof.
  split.
  - destruct (se_grid_accepted_but_not_decodable "30" "" "4" "x")
      as (Hm & _ & x & Hx & _ & Hinit); try reflexivity; try discriminate.
    split; [exact Hm|]. exists x. split; [exact Hx|].
    apply Hinit; [reflexivity|now left|reflexivity].
  - destruct (se_grid_accepted_but_not_decodable "30" "g3" "4" "p")
      as (Hm & _ & x & Hx & _ & Hinit); try reflexivity; try discriminate.
    split; [exact Hm|]. exists x. split; [exact Hx|].
    apply Hinit; [reflexivity|now right|reflexivity].
Defined.

(** ** The [--dyn] option against the grid *)

(** C7, amended: let the grid token of the case be classified to the core
    [c] (for the spectral-element core, in a case that does not already
    define a CPP symbol of this dycore). A [--dyn] value that is a valid
    dycore other than [none] and differs from [c] makes the construction
    fail with the mismatch error. With [--dyn c], or without [--dyn], the
    check of the dycore passes with [c]: the construction never fails with
    the mismatch error, every object it builds has the dycore [c], and for a
    core other than the spectral-element one the object is built as soon as
    the ocean component and the two kinds are valid and [ANALYTIC_IC], when
    asked for, is not defined by the case.
    [--dyn none] replaces the grid by the sentinel: no mismatch error, and
    every object built has the dycore [none] and the grid [null]. Any other
    value of [--dyn] is refused as not a valid dycore. *)
Theorem dyn_option_checked_against_grid case opts c :
  classify (grid_token (ATM_GRID case)) = Some c ->
  (c = "se" ->
   collides (init_cppdefs (CAM_CPPDEFS case)) (NTHRDS_ATM case) = false) ->
  (In (dyn opts) dyn_valid_vals -> dyn opts <> "none" -> dyn opts <> c ->
   __init__ case opts
   = Raise (CamConfigValError (DycoreMismatch (dyn opts) (VStr c)))) /\
  (dyn opts = c \/ dyn opts = "" ->
   (exists self1,
      init_dycore case (if String.eqb (dyn opts) "" then None else Some (dyn opts))
                  (grid_token (ATM_GRID case)) (new_self case)
      = (Ok (VStr c), self1)) /\
   (forall e, __init__ case opts = Raise e -> ~ is_mismatch e) /\
   (forall self, __init__ case opts = Ok self ->
                 entry_value self "dyn" = Some (VStr c)) /\
   (c <> "se" ->
    In (COMP_OCN case) ocn_valid_vals ->
    In (dyn_kind opts) kind_valid_vals -> In (phys_kind opts) kind_valid_vals ->
    (analytic_ic opts = true ->
     defined "ANALYTIC_IC" (init_cppdefs (CAM_CPPDEFS case)) = false) ->
    exists self, __init__ case opts = Ok self)) /\
  (dyn opts = "none" ->
   (forall e, __init__ case opts = Raise e -> ~ is_mismatch e) /\
   (forall self, __init__ case opts = Ok self ->
                 entry_value self "dyn" = Some (VStr "none") /\
                 entry_value self "hgrid" = Some (VStr "null"))) /\
  (dyn opts <> "" -> ~ In (dyn opts) dyn_valid_vals ->
   __init__ case opts = Raise (CamConfigValError (InvalidDycore (dyn opts)))).
Proof.
  intros Hc Hcol.
  destruct (init_classify_ok case _ c Hc Hcol)
    as (self1 & Hrun & (Hd & Hg & Hf) & Hcp).
  pose proof (classify_core _ _ Hc) as Hcore.
  split; [|split; [|split]].
  - intros Hvalid Hnone Hne.
    assert (Hempty : String.eqb (dyn opts) "" = false).
    { apply String.eqb_neq. intros H. rewrite H in Hvalid. simpl in Hvalid.
      intuition discriminate. }
    apply (init_raise case opts (Some (dyn opts)) (grid_token (ATM_GRID case))
                      (VInt (ATM_NX case)) (VInt (ATM_NY case)) _ self1).
    + rewrite check_dyn_opt_ok by (auto). now rewrite Hempty.
    + rewrite (init_dycore_checked _ _ _ _ _ Hrun Hd).
      apply String.eqb_neq in Hne. now rewrite Hne.
  - intros Hagree.
    assert (Hcheck :
              check_dyn_opt (dyn opts) (grid_token (ATM_GRID case))
                            (ATM_NX case) (ATM_NY case)
              = Ok (if String.eqb (dyn opts) "" then None else Some (dyn opts),
                    grid_token (ATM_GRID case),
                    VInt (ATM_NX case), VInt (ATM_NY case))).
    { apply check_dyn_opt_ok.
      - destruct Hagree as [->| ->]; [|discriminate].
        intros ->. simpl in Hcore. intuition discriminate.
      - destruct Hagree as [->| ->]; [|now left]. right.
        simpl in Hcore. simpl. intuition. }
    assert (Hdy :
              init_dycore case
                (if String.eqb (dyn opts) "" then None else Some (dyn opts))
                (grid_token (ATM_GRID case)) (new_self case)
              = (Ok (VStr c), self1)).
    { rewrite (init_dycore_checked _ _ _ _ _ Hrun Hd).
      destruct (String.eqb (dyn opts) "") eqn:E; [reflexivity|].
      destruct Hagree as [Ha|Ha].
      - rewrite Ha. now rewrite String.eqb_refl.
      - rewrite Ha in E. discriminate E. }
    split; [now exists self1|].
    destruct (init_after_dycore _ _ _ _ _ _ _ _ Hcheck Hdy) as [Hno Hkeep].
    split; [exact Hno|]. split; [intros self Hok; now apply (Hkeep self)|].
    intros Hse Hocn Hdk Hpk Hic.
    assert (Hne : py_eqb (VStr c) (VStr "se") = false).
    { simpl. now apply String.eqb_neq. }
    destruct (init_rest_latlon_ok case opts (grid_token (ATM_GRID case))
                (VInt (ATM_NX case)) (VInt (ATM_NY case)) _ _ (VStr c) self1
                Hne Hf eq_refl eq_refl Hocn Hdk Hpk) as (self & Hr & _).
    { rewrite Hcp. apply String.eqb_neq in Hse. rewrite Hse.
      now rewrite app_nil_r. }
    exists self. now rewrite (init_unfold _ _ _ _ _ _ _ _ Hcheck Hdy), Hr.
  - intros Hnone.
    destruct (init_classify_null case) as (self0 & Hrun0 & (Hd0 & Hg0 & _) & _).
    assert (Hdy : init_dycore case (Some "none") "null" (new_self case)
                  = (Ok (VStr "none"), self0)).
    { now rewrite (init_dycore_checked _ _ _ _ _ Hrun0 Hd0). }
    assert (Hcheck :
              check_dyn_opt (dyn opts) (grid_token (ATM_GRID case))
                            (ATM_NX case) (ATM_NY case)
              = Ok (Some "none", "null", VStr "null", VStr "null")).
    { rewrite Hnone. apply check_dyn_opt_none. }
    destruct (init_after_dycore _ _ _ _ _ _ _ _ Hcheck Hdy) as [Hno Hkeep].
    split; [exact Hno|]. intros self Hok. split; now apply (Hkeep self).
  - intros Hne Hinv. unfold __init__, check_dyn_opt.
    destruct (String.eqb (dyn opts) "none") eqn:E1.
    { apply String.eqb_eq in E1. exfalso. apply Hinv. rewrite E1. simpl. tauto. }
    apply String.eqb_neq in Hne. rewrite Hne.
    replace (existsb (String.eqb (dyn opts)) dyn_valid_vals) with false;
      [reflexivity|].
    symmetry. destruct (existsb _ _) eqn:E; [|reflexivity].
    apply existsb_exists in E. destruct E as (x & Hx & Heq).
    apply String.eqb_eq in Heq. now subst x.
Qed.

(** The amended C7 on the finite-volume grid ["1.9x2.5"]: [--dyn se] is a
    mismatch, [--dyn fv] is accepted, and the object is built. *)
Lemma dyn_option_checked_against_grid_witness :
  __init__ (with_grid FakeCase "1.9x2.5") (fake_opts "se")
  = Raise (CamConfigValError (DycoreMismatch "se" (VStr "fv"))) /\
  (exists self,
     __init__ (with_grid FakeCase "1.9x2.5") (fake_opts "fv") = Ok self /\
     entry_value self "dyn" = Some (VStr "fv")).
Proof.
  pose proof (dyn_option_checked_against_grid
                (with_grid FakeCase "1.9x2.5") (fake_opts "se") "fv"
                eq_refl (fun H => ltac:(discriminate H))) as (H1 & _).
  pose proof (dyn_option_checked_against_grid
                (with_grid FakeCase "1.9x2.5") (fake_opts "fv") "fv"
                eq_refl (fun H => ltac:(discriminate H))) as (_ & H2 & _).
  split.
  - apply H1; [simpl; tauto|discriminate|discriminate].
  - destruct (H2 (or_introl eq_refl)) as (_ & _ & Hdyn & Hbuilt).
    destruct Hbuilt as [self Hself].
    + discriminate.
    + simpl. tauto.
    + simpl. tauto.
    + simpl. tauto.
    + discriminate.
    + exists self. split; [exact Hself|]. now apply Hdyn.
Defined.


(** ** The model on the examples of the source *)

Ltac conj_compute :=
  repeat match goal with |- _ /\ _ => split end; vm_compute; reflexivity.

(** The patterns of lines 124 and 216-220, read by [Re.compile], are the
    expressions the model uses. *)
Lemma grid_patterns_compile :
  Re.compile "T[0-9]+" = Some eul_grid_re /\
  Re.compile "[0-9][0-9.]*x[0-9][0-9.]*" = Some fv_grid_re /\
  Re.compile "ne[0-9]+np[1-8](.*)(pg[1-9])?" = Some se_grid_re /\
  Re.compile "C[0-9]+" = Some fv3_grid_re /\
  Re.compile "mpasa[0-9]+" = Some mpas_grid_re /\
  Re.compile "(.+)z(\d+)"
  = Some (Re.Seq (Re.Seq level_prefix_re (Re.Lit "z")) (Re.Plus digit)).
Proof. conj_compute. Qed.

Example grid_token_levels :
  grid_token "1.9x2.5z32" = "1.9x2.5" /\ grid_token "ne30pg3" = "ne30np4.pg3" /\
  grid_token "zz1z2" = "zz1" /\ grid_token "T42" = "T42".
Proof. conj_compute. Qed.

Example strip_split :
  Py.strip "  kessler " = "kessler" /\
  Py.split ";" "kessler;held_suarez_1994" = ["kessler"; "held_suarez_1994"] /\
  Py.split_ws "-DTEST_CPPDEF  -DNEW_TEST=5 " = ["-DTEST_CPPDEF"; "-DNEW_TEST=5"].
Proof. conj_compute. Qed.

Example find_slice :
  Py.find "ne30np4.pg3" ".pg" = 7 /\ Py.find "ne30np4" ".pg" = -1 /\
  Py.slice "ne30np4.pg3" 2 4 = "30" /\ Py.slice_from "ne30np4.pg3" 10 = "3".
Proof. conj_compute. Qed.

Example int_literals :
  Py.int " 1_0 " = Some 10 /\ Py.int "4x" = None /\ Py.int "" = None /\
  Py.int "-07" = Some (-7) /\ Py.int "1__0" = None /\ Py.int "+5" = Some 5 /\
  Py.int (String "4" (String "028" "")) = None /\
  Py.strip (String "4" (String "028" "")) = "4" /\
  Py.int (String "4" (String "160" "")) = Some 4.
Proof. conj_compute. Qed.

(** The doctests of [add_cppdef] (lines 656-675). *)
Example add_cppdef_doctests :
  __init__ FakeCase (fake_opts "none") = Ok FCONFIG /\
  cppdefs FCONFIG = ["-DTEST_CPPDEF"; "-DNEW_TEST=5"] /\
  let self1 := snd (add_cppdef "TEST" None FCONFIG) in
  let self2 := snd (add_cppdef "COOL_VAR" (Some (CppInt 100)) self1) in
  fst (add_cppdef "TEST" None FCONFIG) = Ok tt /\
  cppdefs self1 = ["-DTEST_CPPDEF"; "-DNEW_TEST=5"; "-DTEST"] /\
  fst (add_cppdef "COOL_VAR" (Some (CppInt 100)) self1) = Ok tt /\
  cppdefs self2 = ["-DTEST_CPPDEF"; "-DNEW_TEST=5"; "-DTEST"; "-DCOOL_VAR=100"] /\
  fst (add_cppdef "TEST_CPPDEF" None self2)
  = Raise (CamConfigValError (CppdefAlreadySet "TEST_CPPDEF")) /\
  fst (add_cppdef "NEW_TEST" None self2)
  = Raise (CamConfigValError (CppdefAlreadySet "NEW_TEST")).
Proof. cbv zeta. conj_compute. Qed.

(** The doctests of the class (lines 48-77). *)
Example create_config_doctests :
  let desc := VStr "test object description" in
  let self1 := snd (create_config "test_int" desc (VInt 5) NoSpec None false FCONFIG) in
  let self2 := snd (create_config "test_str" desc (VStr "test_val") NoSpec None false self1) in
  let self3 := snd (create_config "test_list" desc (VList [VInt 1; VInt 2])
                                  NoSpec None false self2) in
  fst (get_value "test_int" self1) = Ok (VInt 5) /\
  fst (get_value "test_str" self2) = Ok (VStr "test_val") /\
  fst (get_value "test_list" self3) = Ok (VList [VInt 1; VInt 2]) /\
  fst (create_config "test_int" desc (VInt 5) NoSpec None false self3)
  = Raise (CamConfigValError (ConfigExists "test_int")) /\
  fst (create_config "test_dict" (VStr "test_object_description")
                     (VDict [(VStr "x", VStr "y")]) NoSpec None false self3)
  = Raise (CamConfigTypeError
             (NotIntStrList "test_dict" (VDict [(VStr "x", VStr "y")]))).
Proof. cbv zeta. conj_compute. Qed.

(** * Further properties of the code *)

(** ** Inverting a successful run *)

Lemma bind_ok_inv {A B} (m : M A) (k : A -> M B) self b self' :
  bind m k self = (Ok b, self') ->
  exists a self1, m self = (Ok a, self1) /\ k a self1 = (Ok b, self').
Proof.
  unfold bind. destruct (m self) as [[a|e] self1]; [|discriminate].
  intros H. now exists a, self1.
Qed.

Lemma new_conf_obj_fields nm ds val spec ty nml obj :
  new_conf_obj nm ds val spec ty nml = Ok obj ->
  name obj = nm /\ desc obj = ds /\ value obj = val /\ valid_vals obj = spec.
Proof.
  unfold new_conf_obj, ConfigInteger, ConfigString, ConfigList.
  destruct val as [n|b|s|l|d|]; simpl; try discriminate.
  - destruct (check_int _ _ _); [|discriminate]. intros [= <-]. now simpl.
  - destruct (check_int _ _ _); [|discriminate]. intros [= <-]. now simpl.
  - destruct (check_str s spec) as [[|]|]; try discriminate.
    intros [= <-]. now simpl.
  - destruct spec; try discriminate.
    + destruct (match ty with Some t => forallb (has_type t) l | None => true end);
        [|discriminate].
      intros [= <-]. now simpl.
    + destruct (_ && _); [|discriminate]. intros [= <-]. now simpl.
Qed.

Lemma create_config_ok_inv nm ds val spec ty nml self self' :
  create_config nm ds val spec ty nml self = (Ok tt, self') ->
  exists obj,
    new_conf_obj nm ds val spec ty nml = Ok obj /\
    dict_mem (config_dict self) nm = false /\
    self' = store nm obj self.
Proof.
  rewrite create_config_unfold.
  destruct (new_conf_obj nm ds val spec ty nml) as [obj|e] eqn:Hobj; [|discriminate].
  destruct (dict_mem (config_dict self) nm) eqn:Hm; [discriminate|].
  intros [= <-]. exists obj. split; [reflexivity|]. split; [reflexivity|].
  unfold store. now rewrite (dict_set_fresh _ _ _ Hm).
Qed.

Lemma create_config_raise_inv nm ds val spec ty nml self e self' :
  create_config nm ds val spec ty nml self = (Raise e, self') -> self' = self.
Proof.
  rewrite create_config_unfold.
  destruct (new_conf_obj nm ds val spec ty nml) as [obj|e'].
  - destruct (dict_mem (config_dict self) nm); [|discriminate]. now intros [= _ <-].
  - now intros [= _ <-].
Qed.

(** ** A new entry is read back *)

(** X1: when [create_config] succeeds, [get_value] of the new name returns
    the value given, the name was unknown to [get_value] before, and
    [get_value] answers for every other name as it did before. *)
Theorem create_config_then_get_value nm ds val spec ty nml self self' :
  create_config nm ds val spec ty nml self = (Ok tt, self') ->
  get_value nm self' = (Ok val, self') /\
  get_value nm self = (Raise (CamConfigValError (InvalidConfigName nm)), self) /\
  (forall k, k <> nm -> fst (get_value k self') = fst (get_value k self)).
Proof.
  intros H. apply create_config_ok_inv in H. destruct H as (obj & Hobj & Hm & ->).
  apply new_conf_obj_fields in Hobj. destruct Hobj as (_ & _ & Hv & _).
  unfold get_value, store; cbn [config_dict].
  split; [|split].
  - rewrite (dict_get_snoc_new _ _ _ Hm). unfold ret. now rewrite Hv.
  - unfold dict_mem in Hm. now destruct (dict_get (config_dict self) nm).
  - intros k Hk. rewrite (dict_get_snoc_old _ _ _ _ Hk).
    now destruct (dict_get (config_dict self) k).
Qed.

Lemma create_config_then_get_value_witness :
  get_value "test_int"
    (snd (create_config "test_int" (VStr "test object description") (VInt 5)
            NoSpec None false FCONFIG))
  = (Ok (VInt 5),
     snd (create_config "test_int" (VStr "test object description") (VInt 5)
            NoSpec None false FCONFIG)) /\
  get_value "test_int" FCONFIG
  = (Raise (CamConfigValError (InvalidConfigName "test_int")), FCONFIG).
Proof.
  destruct (create_config_then_get_value "test_int"
              (VStr "test object description") (VInt 5) NoSpec None false FCONFIG
              (snd (create_config "test_int" (VStr "test object description")
                      (VInt 5) NoSpec None false FCONFIG)))
    as (H1 & H2 & _).
  - vm_compute. reflexivity.
  - split; [exact H1|exact H2].
Defined.

(** ** A symbol is defined once *)

Lemma rstrip_app_no_space a b :
  all_chars not_space a = true -> Py.rstrip (a ++ b) = a ++ Py.rstrip b.
Proof.
  induction a as [|c a IH]; intros H; [reflexivity|].
  simpl in H. apply andb_prop in H. destruct H as [Hc Ha].
  apply negb_true_iff in Hc.
  change (String c a ++ b) with (String c (a ++ b)).
  rewrite (rstrip_cons _ _ Hc), (IH Ha). reflexivity.
Qed.

Lemma strip_app_no_space c a b :
  all_chars not_space (String c a) = true ->
  Py.strip (String c a ++ b) = String c a ++ Py.rstrip b.
Proof.
  intros H. unfold Py.strip.
  assert (Hc : Py.isspace c = false).
  { simpl in H. apply andb_prop in H. now apply negb_true_iff. }
  change (String c a ++ b) with (String c (a ++ b)).
  cbn [Py.lstrip]. rewrite Hc.
  change (String c (a ++ b)) with (String c a ++ b).
  now apply rstrip_app_no_space.
Qed.

Lemma defines_stored sym val :
  all_chars not_space sym = true -> defines sym (cpp_str sym val) = true.
Proof.
  intros H. unfold defines, cpp_str.
  assert (Hd : all_chars not_space ("-D" ++ sym) = true).
  { rewrite all_chars_app, H. reflexivity. }
  destruct val as [v|].
  - apply orb_true_iff. right.
    assert (E : ("-D" ++ sym) ++ "=" ++ format_value v
                = String "-" (String "D" (sym ++ "=")) ++ format_value v).
    { simpl. now rewrite append_assoc. }
    rewrite E, strip_app_no_space.
    + apply prefix_app. now exists (Py.rstrip (format_value v)).
    + change (String "-" (String "D" (sym ++ "="))) with ("-D" ++ sym ++ "=").
      rewrite !all_chars_app, H. reflexivity.
  - apply orb_true_iff. left.
    unfold not_space in Hd. rewrite (strip_no_space _ Hd). apply String.eqb_refl.
Qed.

(** X2: a symbol without pattern characters and without white space is
    defined at most once: after [add_cppdef] has stored it, with a value or
    without, every further [add_cppdef] of the same symbol raises the
    already-set error and leaves the object as it is. *)
Theorem add_cppdef_twice_is_rejected sym val val' self self' :
  plain sym = true -> all_chars not_space sym = true ->
  add_cppdef sym val self = (Ok tt, self') ->
  add_cppdef sym val' self'
  = (Raise (CamConfigValError (CppdefAlreadySet sym)), self').
Proof.
  intros Hp Hs H. rewrite (add_cppdef_plain sym val self Hp) in H.
  destruct (defined sym (cppdefs self)) eqn:Hd; [discriminate|].
  injection H as <-. apply add_cppdef_dup; [exact Hp|].
  cbn [cppdefs]. rewrite defined_app. apply orb_true_iff. right.
  unfold defined. cbn [existsb]. now rewrite (defines_stored sym val Hs).
Qed.

Lemma add_cppdef_twice_is_rejected_witness :
  add_cppdef "COOL_VAR" None
    (snd (add_cppdef "COOL_VAR" (Some (CppInt 100)) FCONFIG))
  = (Raise (CamConfigValError (CppdefAlreadySet "COOL_VAR")),
     snd (add_cppdef "COOL_VAR" (Some (CppInt 100)) FCONFIG)).
Proof.
  apply (add_cppdef_twice_is_rejected "COOL_VAR" (Some (CppInt 100)) None FCONFIG).
  - reflexivity.
  - reflexivity.
  - vm_compute. reflexivity.
Defined.

(** ** The physics suite: failures and repeated calls *)

Lemma dict_set_set {V} (d : dict V) k v v' :
  dict_set (dict_set d k v) k v' = dict_set d k v'.
Proof.
  induction d as [|[k0 v0] d IH]; simpl.
  - now rewrite String.eqb_refl.
  - destruct (String.eqb k k0) eqn:E; simpl.
    + now rewrite String.eqb_refl.
    + now rewrite E, IH.
Qed.

Lemma ccpp_phys_set_raise_inv self a p e a' p' :
  ccpp_phys_set self a p = (Raise e, a', p') -> a' = a /\ p' = p.
Proof.
  unfold ccpp_phys_set.
  repeat match goal with
         | |- context [match ?x with _ => _ end] => destruct x
         end;
    intros H; inversion H; now split.
Qed.

(** X3: [ccpp_phys_set] either fails and leaves the two dictionaries as
    they were, or succeeds and settles them: a second call on the
    dictionaries it returned succeeds and returns them unchanged. *)
Theorem ccpp_phys_set_keeps_or_settles self a p r a' p' :
  ccpp_phys_set self a p = (r, a', p') ->
  (forall e, r = Raise e -> a' = a /\ p' = p) /\
  (r = Ok tt -> ccpp_phys_set self a' p' = (Ok tt, a', p')).
Proof.
  intros H. split.
  { intros e ->. now apply ccpp_phys_set_raise_inv in H. }
  intros ->. destruct (ccpp_phys_set_ok_inv _ _ _ _ _ H)
    as (obj & suites & entry & values & Hobj & Hsuites & Hentry & Hvalues).
  destruct (Py.split ";" suites) as [|s0 [|s1 rest]] eqn:Hs.
  - now apply split_nonempty in Hs.
  - destruct (String.eqb (Py.strip values) "UNSET") eqn:Hu;
      [apply String.eqb_eq in Hu|apply String.eqb_neq in Hu].
    + rewrite (ccpp_phys_set_one_unset _ _ _ a p _ _ Hobj Hsuites Hentry Hvalues
                 s0 Hs Hu) in H.
      injection H as <- <-.
      assert (Hentry' : dict_get (dict_set p "physics_suite"
                                    (dict_set entry "values" (Py.strip s0)))
                                 "physics_suite"
                        = Some (dict_set entry "values" (Py.strip s0)))
        by apply dict_get_set_same.
      assert (Hvalues' : dict_get (dict_set entry "values" (Py.strip s0)) "values"
                         = Some (Py.strip s0))
        by apply dict_get_set_same.
      destruct (String.eqb (Py.strip s0) "UNSET") eqn:Hu0;
        [apply String.eqb_eq in Hu0|apply String.eqb_neq in Hu0].
      * rewrite (ccpp_phys_set_one_unset _ _ _ _ _ _ _ Hobj Hsuites Hentry' Hvalues'
                   s0 Hs); [|now rewrite strip_idem].
        now rewrite !dict_set_set.
      * rewrite (ccpp_phys_set_one_match _ _ _ _ _ _ _ Hobj Hsuites Hentry' Hvalues'
                   s0 Hs); [|now rewrite strip_idem|apply strip_idem].
        now rewrite dict_set_set.
    + destruct (String.eqb (Py.strip values) (Py.strip s0)) eqn:Hm;
        [apply String.eqb_eq in Hm|apply String.eqb_neq in Hm].
      * rewrite (ccpp_phys_set_one_match _ _ _ a p _ _ Hobj Hsuites Hentry Hvalues
                   s0 Hs Hu Hm) in H.
        injection H as <- <-.
        rewrite (ccpp_phys_set_one_match _ _ _ _ p _ _ Hobj Hsuites Hentry Hvalues
                   s0 Hs Hu Hm).
        now rewrite dict_set_set.
      * rewrite (ccpp_phys_set_one_mismatch _ _ _ a p _ _ Hobj Hsuites Hentry Hvalues
                   s0 Hs Hu Hm) in H.
        discriminate.
  - assert (Hlen : (2 <= List.length (Py.split ";" suites))%nat)
      by (rewrite Hs; simpl; lia).
    clear Hs.
    destruct (ccpp_phys_set_success _ _ _ _ _ _ _ Hobj Hsuites Hentry Hvalues _ _ H)
      as (suite & Hin & -> & Hset & Hunset).
    destruct (String.eqb (Py.strip values) "UNSET") eqn:Hu;
      [apply String.eqb_eq in Hu|apply String.eqb_neq in Hu].
    + rewrite (ccpp_phys_set_many_unset _ _ _ a p _ _ Hobj Hsuites Hentry Hvalues
                 Hlen Hu) in H.
      discriminate.
    + destruct (Hset Hu) as [Hm ->].
      rewrite (ccpp_phys_set_many_match _ _ _ _ p _ _ Hobj Hsuites Hentry Hvalues
                 suite Hlen Hu Hin Hm).
      now rewrite dict_set_set.
Qed.

Lemma ccpp_phys_set_keeps_or_settles_witness :
  ccpp_phys_set (registry_with_suites "kessler") [("phys_suite", "kessler")]
                (nl_dict "kessler")
  = (Ok tt, [("phys_suite", "kessler")], nl_dict "kessler").
Proof.
  apply (ccpp_phys_set_keeps_or_settles (registry_with_suites "kessler") []
           (nl_dict "UNSET") (Ok tt)).
  - vm_compute. reflexivity.
  - reflexivity.
Defined.

(** ** The physics suite: no selection *)

Lemma split_single sep s :
  all_chars (fun c => negb (Ascii.eqb c sep)) s = true -> Py.split sep s = [s].
Proof.
  induction s as [|c t IH]; intros H; [reflexivity|].
  simpl in H. apply andb_prop in H. destruct H as [Hc Ht].
  apply negb_true_iff in Hc. simpl. now rewrite Hc, (IH Ht).
Qed.

Lemma split_many sep s :
  all_chars (fun c => negb (Ascii.eqb c sep)) s = false ->
  (2 <= List.length (Py.split sep s))%nat.
Proof.
  induction s as [|c t IH]; intros H; [discriminate|].
  simpl in H. simpl. destruct (Ascii.eqb c sep) eqn:Hc.
  - pose proof (split_nonempty sep t) as Hn.
    destruct (Py.split sep t); [contradiction|simpl; lia].
  - simpl in H. specialize (IH H).
    destruct (Py.split sep t); simpl in *; lia.
Qed.

(** X4: when the namelist holds the sentinel [UNSET], the call succeeds
    exactly when the registered suites string has no semicolon; it then
    writes the whole string, trimmed, to both dictionaries (the empty string
    for an empty suites string). With a semicolon anywhere, a trailing one
    included, it raises the suite-required error and changes nothing. *)
Theorem ccpp_phys_set_unset_takes_the_only_suite
  self obj suites a p entry values :
  dict_get (config_dict self) "physics_suites" = Some obj ->
  value obj = VStr suites ->
  dict_get p "physics_suite" = Some entry ->
  dict_get entry "values" = Some values ->
  Py.strip values = "UNSET" ->
  (all_chars not_semicolon suites = true ->
   ccpp_phys_set self a p
   = (Ok tt, dict_set a "phys_suite" (Py.strip suites),
      dict_set p "physics_suite" (dict_set entry "values" (Py.strip suites)))) /\
  (all_chars not_semicolon suites = false ->
   ccpp_phys_set self a p
   = (Raise (CamConfigValError (SuiteRequired (VStr suites))), a, p)).
Proof.
  intros Hobj Hsuites Hentry Hvalues Hu. split; intros Hs.
  - apply (ccpp_phys_set_one_unset _ _ _ a p _ _ Hobj Hsuites Hentry Hvalues);
      [|exact Hu].
    now apply split_single.
  - apply (ccpp_phys_set_many_unset _ _ _ a p _ _ Hobj Hsuites Hentry Hvalues);
      [|exact Hu].
    now apply split_many.
Qed.

Lemma ccpp_phys_set_unset_takes_the_only_suite_witness :
  ccpp_phys_set (registry_with_suites "kessler;") [] (nl_dict " UNSET ")
  = (Raise (CamConfigValError (SuiteRequired (VStr "kessler;"))), [],
     nl_dict " UNSET ") /\
  ccpp_phys_set (registry_with_suites "") [] (nl_dict "UNSET")
  = (Ok tt, [("phys_suite", "")], nl_dict "").
Proof.
  split.
  - apply (ccpp_phys_set_unset_takes_the_only_suite
             (registry_with_suites "kessler;")
             (mk_conf String_ "physics_suites" (VStr "Physics suites.")
                      (VStr "kessler;") NoSpec None false)
             "kessler;" [] (nl_dict " UNSET ") [("values", " UNSET ")] " UNSET ");
      reflexivity.
  - apply (ccpp_phys_set_unset_takes_the_only_suite
             (registry_with_suites "")
             (mk_conf String_ "physics_suites" (VStr "Physics suites.")
                      (VStr "") NoSpec None false)
             "" [] (nl_dict "UNSET") [("values", "UNSET")] "UNSET");
      reflexivity.
Defined.

(** ** The CPP definitions of the case *)

Lemma split_ws_tokens s :
  Forall (fun x => x <> "" /\ all_chars not_space x = true) (Py.split_ws s).
Proof.
  induction s as [|c t IH]; [constructor|].
  cbn [Py.split_ws]. destruct (Py.isspace c) eqn:Hc; [exact IH|].
  assert (Hone : Forall (fun x => x <> "" /\ all_chars not_space x = true)
                        [String c ""]).
  { constructor; [|constructor]. split; [discriminate|].
    simpl. unfold not_space. now rewrite Hc. }
  destruct t as [|c' t']; [exact Hone|].
  destruct (Py.isspace c') eqn:Hc'.
  - constructor; [|exact IH]. split; [discriminate|].
    simpl. unfold not_space. now rewrite Hc.
  - destruct (Py.split_ws (String c' t')) as [|h r]; [exact Hone|].
    inversion IH as [|? ? [Hh1 Hh2] Hr]; subst.
    constructor; [|exact Hr]. split; [discriminate|].
    simpl. unfold not_space at 1. now rewrite Hc, Hh2.
Qed.

Lemma filter_all {A} (f : A -> bool) l :
  Forall (fun x => f x = true) l -> filter f l = l.
Proof.
  induction 1 as [|x l Hx _ IH]; [reflexivity|]. simpl. now rewrite Hx, IH.
Qed.

Lemma split_ws_filter s :
  filter (fun x => negb (String.eqb x "")) (Py.split_ws s) = Py.split_ws s.
Proof.
  apply filter_all. eapply Forall_impl; [|apply split_ws_tokens].
  intros x [Hx _]. apply negb_true_iff. now apply String.eqb_neq.
Qed.

(** X5: the list comprehension of line 107 removes nothing, since
    [split()] yields no empty token: the object starts with the
    white-space-separated tokens of [CAM_CPPDEFS], in their order, except
    that the single token [UNSET] gives the empty list. Every definition
    kept is non-empty, free of white space and unchanged by [strip]. *)
Theorem init_cppdefs_are_the_tokens cam_cppdefs :
  init_cppdefs cam_cppdefs
  = (match Py.split_ws cam_cppdefs with
     | [x] => if String.eqb x "UNSET" then [] else [x]
     | l => l
     end) /\
  (forall x, In x (init_cppdefs cam_cppdefs) ->
             In x (Py.split_ws cam_cppdefs) /\ x <> "" /\
             all_chars not_space x = true /\ Py.strip x = x).
Proof.
  assert (E : init_cppdefs cam_cppdefs
              = match Py.split_ws cam_cppdefs with
                | [x] => if String.eqb x "UNSET" then [] else [x]
                | l => l
                end).
  { unfold init_cppdefs. rewrite split_ws_filter.
    destruct (Py.split_ws cam_cppdefs) as [|x [|y l]]; [reflexivity| |].
    - cbn [List.length existsb]. change (Z.of_nat 1 =? 1) with true.
      cbn [andb]. rewrite orb_false_r, String.eqb_sym. reflexivity.
    - replace (Z.of_nat (List.length (x :: y :: l)) =? 1) with false;
        [reflexivity|].
      symmetry. apply Z.eqb_neq. simpl List.length. lia. }
  split; [exact E|].
  intros x Hx.
  assert (Hin : In x (Py.split_ws cam_cppdefs)).
  { rewrite E in Hx. destruct (Py.split_ws cam_cppdefs) as [|y [|z l]];
      [exact Hx| |exact Hx].
    destruct (String.eqb y "UNSET"); [contradiction|exact Hx]. }
  split; [exact Hin|].
  pose proof (split_ws_tokens cam_cppdefs) as Hall.
  rewrite Forall_forall in Hall. destruct (Hall x Hin) as [Hne Hns].
  split; [exact Hne|]. split; [exact Hns|].
  now apply strip_no_space.
Qed.

(** ** The level suffix of the grid name *)

Section RunTails.

Variable f : string -> list string.
Variable p : ascii -> bool.
Hypothesis Hf : one_char f p.

Lemma star_rems_run_tails n : forall s,
  (String.length s <= n)%nat -> Re.star_rems f n s = run_tails p s.
Proof.
  induction n as [|n IH]; intros s Hn.
  - destruct s; [reflexivity|simpl in Hn; lia].
  - cbn [Re.star_rems]. rewrite (Hf s). destruct s as [|d t].
    + reflexivity.
    + cbn [run_tails]. destruct (p d); [|reflexivity].
      cbn [filter]. unfold Re.shorter. cbn [String.length].
      rewrite (proj2 (Nat.ltb_lt _ _) (Nat.lt_succ_diag_r _)).
      cbn [flat_map]. rewrite app_nil_r, IH; [reflexivity|].
      simpl in Hn. lia.
Qed.

End RunTails.

Lemma rems_plus_any c t :
  Re.rems (Re.Plus Re.Any) (String c t)
  = if not_newline c then run_tails not_newline t else [].
Proof.
  cbn [Re.rems]. unfold not_newline at 1.
  destruct (Ascii.eqb c Re.newline); [reflexivity|].
  cbn [negb flat_map]. rewrite app_nil_r.
  apply (star_rems_run_tails (Re.rems Re.Any) not_newline one_char_any).
  apply Nat.le_refl.
Qed.

Lemma run_tails_suffix p s y :
  In y (run_tails p s) -> exists pre, s = pre ++ y.
Proof.
  induction s as [|d t IH]; cbn [run_tails].
  - intros [<-|[]]. now exists "".
  - destruct (p d).
    + intros H. apply in_app_or in H. destruct H as [H|[<-|[]]].
      * destruct (IH H) as [pre ->]. now exists (String d pre).
      * now exists "".
    + intros [<-|[]]. now exists "".
Qed.

Lemma run_tails_cons p d t :
  p d = true -> run_tails p (String d t) = (run_tails p t ++ [String d t])%list.
Proof. intros H. cbn [run_tails]. now rewrite H. Qed.

Lemma find_all_false {A} (f : A -> bool) l :
  (forall x, In x l -> f x = false) -> List.find f l = None.
Proof.
  induction l as [|x l IH]; intros H; [reflexivity|].
  simpl. rewrite (H x (or_introl eq_refl)). apply IH.
  intros y Hy. apply H. now right.
Qed.

Lemma find_app_some {A} (f : A -> bool) l1 l2 x :
  List.find f l1 = Some x -> List.find f (l1 ++ l2)%list = Some x.
Proof.
  induction l1 as [|y l1 IH]; [discriminate|].
  simpl. destruct (f y); [trivial|exact IH].
Qed.

Lemma find_app_none {A} (f : A -> bool) l1 l2 :
  List.find f l1 = None -> List.find f (l1 ++ l2)%list = List.find f l2.
Proof.
  induction l1 as [|y l1 IH]; [reflexivity|].
  simpl. destruct (f y); [discriminate|exact IH].
Qed.

Lemma find_run_tails (m : string -> bool) p pre x :
  all_chars p pre = true ->
  List.find m (run_tails p x) = Some x ->
  List.find m (run_tails p (pre ++ x)) = Some x.
Proof.
  induction pre as [|d pre IH]; intros Hp Hx; [exact Hx|].
  simpl in Hp. apply andb_prop in Hp. destruct Hp as [Hd Hp].
  change (String d pre ++ x) with (String d (pre ++ x)).
  cbn [run_tails]. rewrite Hd. apply find_app_some. now apply IH.
Qed.

Lemma level_suffix_needs_z s :
  all_chars not_z s = true -> Re.matches level_suffix_re s = false.
Proof.
  destruct s as [|c t]; [reflexivity|].
  intros H. simpl in H. apply andb_prop in H. destruct H as [Hc _].
  apply negb_true_iff in Hc.
  apply matches_false. unfold level_suffix_re. cbn [Re.rems]. now rewrite Hc.
Qed.

Lemma level_suffix_matches d t :
  Py.is_digit d = true ->
  Re.matches level_suffix_re (String "z" (String d t)) = true.
Proof.
  intros Hd. apply matches_true. exists t.
  unfold level_suffix_re. apply in_rems_seq. exists (String d t).
  split; [now left|].
  apply (in_rems_plus_one_char _ _ (one_char_cls [("0", "9")]%char)).
  exists d, "". split; [reflexivity|]. split; [|reflexivity].
  change (existsb (Re.in_range d) [("0", "9")]%char) with (is_digit_set d).
  now rewrite is_digit_set_eq.
Qed.

Lemma digit_not_z d : Py.is_digit d = true -> not_z d = true.
Proof.
  intros Hd. unfold not_z. apply negb_true_iff.
  apply (differs_from Py.is_digit); [exact Hd|reflexivity].
Qed.

Lemma match_group1_no_z s :
  all_chars not_z s = true ->
  Re.match_group1 level_prefix_re level_suffix_re s = None.
Proof.
  intros Hs. unfold Re.match_group1.
  rewrite find_all_false; [reflexivity|].
  intros x Hx. apply level_suffix_needs_z.
  unfold level_prefix_re in Hx.
  apply (in_rems_plus_one_char _ _ one_char_any) in Hx.
  destruct Hx as (d & pre & -> & _ & _).
  change (String d (pre ++ x)) with (String d pre ++ x) in Hs.
  rewrite all_chars_app in Hs. apply andb_prop in Hs. apply Hs.
Qed.

Lemma match_group1_level p d t :
  p <> "" -> all_chars not_newline p = true ->
  Py.is_digit d = true -> all_chars not_z t = true ->
  Re.match_group1 level_prefix_re level_suffix_re (p ++ String "z" (String d t))
  = Some p.
Proof.
  intros Hne Hp Hd Ht. destruct p as [|c p]; [contradiction|].
  simpl in Hp. apply andb_prop in Hp. destruct Hp as [Hc Hp].
  unfold Re.match_group1, level_prefix_re.
  change (String c p ++ String "z" (String d t))
    with (String c (p ++ String "z" (String d t))).
  rewrite rems_plus_any, Hc.
  rewrite (find_run_tails _ _ p (String "z" (String d t)) Hp).
  - change (String c (p ++ String "z" (String d t)))
      with (String c p ++ String "z" (String d t)).
    rewrite length_append.
    replace (String.length (String c p) + String.length (String "z" (String d t))
             - String.length (String "z" (String d t)))%nat
      with (String.length (String c p)) by lia.
    now rewrite substring_take.
  - rewrite run_tails_cons by reflexivity.
    rewrite find_app_none.
    + cbn [List.find]. now rewrite (level_suffix_matches d t Hd).
    + apply find_all_false. intros y Hy. apply level_suffix_needs_z.
      apply run_tails_suffix in Hy. destruct Hy as [pre E].
      assert (Hall : all_chars not_z (String d t) = true).
      { simpl. now rewrite (digit_not_z d Hd), Ht. }
      rewrite E, all_chars_app in Hall. apply andb_prop in Hall. apply Hall.
Qed.

(** X6: the level information is cut at the last [z] that a digit follows:
    a grid name made of a non-empty text without newline, a [z], a digit and
    a rest without [z] gives the text before that [z], whatever follows the
    digit; a grid name without [z] is left as it is, apart from the alias
    [ne30pg3]. *)
Theorem grid_token_strips_level :
  (forall p d t,
     p <> "" -> all_chars not_newline p = true ->
     Py.is_digit d = true -> all_chars not_z t = true ->
     grid_token (p ++ String "z" (String d t)) = p) /\
  (forall s,
     all_chars not_z s = true ->
     grid_token s = if String.eqb s "ne30pg3" then "ne30np4.pg3" else s).
Proof.
  split.
  - intros p d t Hne Hp Hd Ht. unfold grid_token.
    destruct (String.eqb (p ++ String "z" (String d t)) "ne30pg3") eqn:E.
    + apply String.eqb_eq in E.
      assert (H : all_chars not_z (p ++ String "z" (String d t)) = true)
        by now rewrite E.
      rewrite all_chars_app in H. apply andb_prop in H. destruct H as [_ H].
      discriminate H.
    + now rewrite match_group1_level.
  - intros s Hs. unfold grid_token.
    destruct (String.eqb s "ne30pg3").
    + now rewrite match_group1_no_z.
    + now rewrite match_group1_no_z.
Qed.

(** ** The grid patterns exclude one another *)

Lemma matches_seq_left a b s :
  Re.matches (Re.Seq a b) s = true -> Re.matches a s = true.
Proof.
  intros H. apply matches_true in H. destruct H as [x Hx].
  apply in_rems_seq in Hx. destruct Hx as (y & Hy & _).
  apply matches_true. now exists y.
Qed.

Lemma matches_lit_head c0 s :
  Re.matches (Re.Lit c0) s = true -> exists t, s = String c0 t.
Proof.
  intros H. apply matches_true in H. destruct H as [x Hx].
  apply (in_one_char _ _ (one_char_lit c0)) in Hx.
  destruct Hx as (d & -> & Hd). apply Ascii.eqb_eq in Hd. subst d. now exists x.
Qed.

Lemma matches_digit_head s :
  Re.matches digit s = true -> exists d t, s = String d t /\ Py.is_digit d = true.
Proof.
  intros H. apply matches_true in H. destruct H as [x Hx].
  apply (in_one_char _ _ (one_char_cls _)) in Hx.
  destruct Hx as (d & -> & Hd). exists d, x. split; [reflexivity|].
  change (is_digit_set d = true) in Hd. now rewrite is_digit_set_eq in Hd.
Qed.

Lemma fv_head g :
  Re.matches fv_grid_re g = true ->
  exists d t, g = String d t /\ Py.is_digit d = true.
Proof.
  intros H. unfold fv_grid_re in H.
  do 4 apply matches_seq_left in H. now apply matches_digit_head.
Qed.

Lemma se_head g : Re.matches se_grid_re g = true -> exists t, g = String "n" t.
Proof.
  intros H. unfold se_grid_re in H.
  do 7 apply matches_seq_left in H. now apply matches_lit_head.
Qed.

Lemma fv3_head g : Re.matches fv3_grid_re g = true -> exists t, g = String "C" t.
Proof.
  intros H. unfold fv3_grid_re in H.
  apply matches_seq_left in H. now apply matches_lit_head.
Qed.

Lemma mpas_head g : Re.matches mpas_grid_re g = true -> exists t, g = String "m" t.
Proof.
  intros H. unfold mpas_grid_re in H.
  do 5 apply matches_seq_left in H. now apply matches_lit_head.
Qed.

Lemma eul_head g : Re.matches eul_grid_re g = true -> exists t, g = String "T" t.
Proof.
  intros H. unfold eul_grid_re in H.
  apply matches_seq_left in H. now apply matches_lit_head.
Qed.

(** The first character each core asks of a grid name. *)
Lemma rule_head r c g :
  In (r, c) grid_rules -> Re.matches r g = true ->
  exists d t, g = String d t /\
    ((c = "fv" /\ Py.is_digit d = true) \/ (c = "se" /\ d = "n"%char) \/
     (c = "fv3" /\ d = "C"%char) \/ (c = "mpas" /\ d = "m"%char) \/
     (c = "eul" /\ d = "T"%char)).
Proof.
  unfold grid_rules. intros [E|[E|[E|[E|[E|[]]]]]] H;
    injection E as <- <-.
  - destruct (fv_head g H) as (d & t & -> & Hd). exists d, t. auto.
  - destruct (se_head g H) as (t & ->). exists "n"%char, t. auto 6.
  - destruct (fv3_head g H) as (t & ->). exists "C"%char, t. auto 6.
  - destruct (mpas_head g H) as (t & ->). exists "m"%char, t. auto 7.
  - destruct (eul_head g H) as (t & ->). exists "T"%char, t. auto 8.
Qed.

(** X7: the five grid patterns exclude one another, each asking another
    first character of the name, so the order of the [if]/[elif] chain
    decides nothing: a grid name is classified to a core exactly when the
    pattern of that core matches it, and the chain then stores that core
    under [dyn]. The sentinel [null] matches none of them. *)
Theorem grid_patterns_are_exclusive case g :
  (forall r1 c1 r2 c2,
     In (r1, c1) grid_rules -> In (r2, c2) grid_rules ->
     Re.matches r1 g = true -> Re.matches r2 g = true -> c1 = c2) /\
  (forall c, classify g = Some c <->
             exists r, In (r, c) grid_rules /\ Re.matches r g = true) /\
  (forall r c, In (r, c) grid_rules -> Re.matches r g = true ->
     entry_value (snd (init_classify case g (new_self case))) "dyn"
     = Some (VStr c)) /\
  classify "null" = None.
Proof.
  assert (Hex : forall r1 c1 r2 c2,
             In (r1, c1) grid_rules -> In (r2, c2) grid_rules ->
             Re.matches r1 g = true -> Re.matches r2 g = true -> c1 = c2).
  { intros r1 c1 r2 c2 H1 H2 M1 M2.
    destruct (rule_head r1 c1 g H1 M1) as (d & t & E1 & D1).
    destruct (rule_head r2 c2 g H2 M2) as (d' & t' & E2 & D2).
    rewrite E1 in E2. injection E2 as <- <-.
    destruct D1 as [[-> D1]|[[-> D1]|[[-> D1]|[[-> D1]|[-> D1]]]]];
      destruct D2 as [[-> D2]|[[-> D2]|[[-> D2]|[[-> D2]|[-> D2]]]]];
      try reflexivity; subst d; discriminate. }
  assert (Hcl : forall c, classify g = Some c <->
                  exists r, In (r, c) grid_rules /\ Re.matches r g = true).
  { intros c. unfold classify. split.
    - destruct (List.find _ grid_rules) as [[r c']|] eqn:F; [|discriminate].
      intros [= <-]. apply find_some in F. destruct F as [Hin Hm].
      now exists r.
    - intros (r & Hin & Hm).
      destruct (List.find (fun rule => Re.matches (fst rule) g) grid_rules)
        as [[r' c']|] eqn:F.
      + apply find_some in F. destruct F as [Hin' Hm']. simpl in Hm'.
        simpl. f_equal. exact (Hex r' c' r c Hin' Hin Hm' Hm).
      + apply (find_none _ _ F) in Hin. simpl in Hin. congruence. }
  split; [exact Hex|]. split; [exact Hcl|]. split; [|reflexivity].
  intros r c Hin Hm.
  assert (Hc : classify g = Some c) by (apply Hcl; now exists r).
  destruct (String.eqb c "se") eqn:Ese.
  - apply String.eqb_eq in Ese. subst c.
    destruct (collides (init_cppdefs (CAM_CPPDEFS case)) (NTHRDS_ATM case)) eqn:Hcol.
    + destruct (init_classify_se_collision case g Hc Hcol)
        as (sym & self' & E & _ & Hd & _).
      now rewrite E.
    + destruct (init_classify_ok case g "se" Hc (fun _ => Hcol))
        as (self' & E & (Hd & _) & _).
      now rewrite E.
  - apply String.eqb_neq in Ese.
    destruct (init_classify_ok case g c Hc (fun E => False_ind _ (Ese E)))
      as (self' & E & (Hd & _) & _).
    now rewrite E.
Qed.

(** ** [--dyn none] and the grid of the case *)

(** X8: with [--dyn none] the constructor reads neither the grid nor the
    two dimensions of the case: whatever [ATM_GRID], [ATM_NX] and [ATM_NY]
    are, a grid name that matches no pattern included, it returns the same
    object or raises the same exception. *)
Theorem dyn_none_ignores_the_grid case opts atm_grid nx ny :
  dyn opts = "none" ->
  __init__ (with_dims case atm_grid nx ny) opts = __init__ case opts.
Proof.
  intros H. unfold __init__. rewrite H, !check_dyn_opt_none.
  reflexivity.
Qed.

Lemma dyn_none_ignores_the_grid_witness :
  __init__ (with_dims FakeCase "not a grid" 0 (-1)) (fake_opts "none")
  = __init__ FakeCase (fake_opts "none").
Proof.
  apply (dyn_none_ignores_the_grid FakeCase (fake_opts "none") "not a grid" 0 (-1)).
  reflexivity.
Defined.

(** ** Setting a value *)

Lemma dict_set_names {V} (d : dict V) k v :
  dict_mem d k = true -> map fst (dict_set d k v) = map fst d.
Proof.
  unfold dict_mem. induction d as [|[k0 v0] d IH]; simpl; [discriminate|].
  destruct (String.eqb k k0) eqn:E.
  - intros _. simpl. apply String.eqb_eq in E. now subst.
  - intros H. simpl. now rewrite IH.
Qed.

Lemma obj_set_value_fields obj val obj' :
  obj_set_value obj val = Ok obj' ->
  value obj' = val /\ name obj' = name obj /\ desc obj' = desc obj /\
  kind obj' = kind obj /\ valid_vals obj' = valid_vals obj.
Proof.
  unfold obj_set_value, ConfigInteger, ConfigString, ConfigList.
  destruct (kind obj) eqn:K.
  - destruct (as_int val); [|discriminate].
    destruct (check_int _ _ _); [|discriminate]. intros [= <-]. now simpl.
  - destruct val; try discriminate.
    destruct (check_str _ _) as [[|]|]; try discriminate.
    intros [= <-]. now simpl.
  - destruct val; try discriminate.
    destruct (valid_vals obj); try discriminate.
    + destruct (match valid_type obj with
                | Some t => forallb (has_type t) l
                | None => true
                end); [|discriminate].
      intros [= <-]. now simpl.
    + destruct (_ && _); [|discriminate]. intros [= <-]. now simpl.
Qed.

(** X9: [set_value] looks the name up before it looks at the value: under a
    name the registry does not hold it raises the invalid-name error whatever
    the value is; under a known name a value that is neither an integer nor a
    string raises the type error of the method. Whatever it raises, the
    object is left as it was, so the prior value is still read back. *)
Theorem set_value_checks_name_then_type obj_name val self :
  (dict_mem (config_dict self) obj_name = false ->
   set_value obj_name val self
   = (Some (Exn (CamConfigValError (InvalidConfigName obj_name))), self)) /\
  (dict_mem (config_dict self) obj_name = true ->
   is_int_or_str val = false ->
   set_value obj_name val self = (Some (NotIntOrStr obj_name val), self)) /\
  (forall e self', set_value obj_name val self = (Some e, self') -> self' = self).
Proof.
  unfold set_value, dict_mem.
  destruct (dict_get (config_dict self) obj_name) as [obj|].
  - split; [discriminate|]. split.
    + intros _ ->. reflexivity.
    + intros e self'. destruct (negb (is_int_or_str val)); [now intros [= _ <-]|].
      destruct (obj_set_value obj val); [discriminate|now intros [= _ <-]].
  - split; [reflexivity|]. split; [discriminate|]. now intros e self' [= _ <-].
Qed.

(** X10: when [set_value] returns, the value given is an integer or a
    string and [get_value] of that name reads it back; the object stored
    under the name keeps its name, description, kind and constraint; every
    other entry, the order of the names, the CPP definitions and the namelist
    groups are as before. *)
Theorem set_value_then_get_value obj_name val self self' :
  set_value obj_name val self = (None, self') ->
  is_int_or_str val = true /\
  get_value obj_name self' = (Ok val, self') /\
  (exists obj obj',
     dict_get (config_dict self) obj_name = Some obj /\
     dict_get (config_dict self') obj_name = Some obj' /\
     name obj' = name obj /\ desc obj' = desc obj /\
     kind obj' = kind obj /\ valid_vals obj' = valid_vals obj) /\
  (forall k, k <> obj_name ->
             dict_get (config_dict self') k = dict_get (config_dict self) k) /\
  map fst (config_dict self') = map fst (config_dict self) /\
  cppdefs self' = cppdefs self /\ nml_groups self' = nml_groups self.
Proof.
  unfold set_value.
  destruct (dict_get (config_dict self) obj_name) as [obj|] eqn:Hget;
    [|discriminate].
  destruct (is_int_or_str val) eqn:Hv; [|discriminate]. cbn [negb].
  destruct (obj_set_value obj val) as [obj'|e] eqn:Hset; [|discriminate].
  intros [= <-]. apply obj_set_value_fields in Hset.
  destruct Hset as (Hval & Hname & Hdesc & Hkind & Hvalid).
  split; [reflexivity|]. split; [|split; [|split; [|split]]].
  - unfold get_value. cbn [config_dict]. rewrite dict_get_set_same.
    unfold ret. now rewrite Hval.
  - exists obj, obj'. cbn [config_dict]. now rewrite dict_get_set_same.
  - intros k Hk. cbn [config_dict]. now apply dict_get_set_other.
  - cbn [config_dict]. apply dict_set_names. unfold dict_mem. now rewrite Hget.
  - now split.
Qed.

Lemma set_value_then_get_value_witness :
  get_value "pcols" (snd (set_value "pcols" (VInt 32) FCONFIG))
  = (Ok (VInt 32), snd (set_value "pcols" (VInt 32) FCONFIG)).
Proof.
  apply (set_value_then_get_value "pcols" (VInt 32) FCONFIG).
  vm_compute. reflexivity.
Defined.

(** ** Printing *)

Lemma print_each_known names self : forall case_log,
  (forall k, In k names -> dict_mem (config_dict self) k = true) ->
  exists case_log',
    print_each names self case_log = (Ok tt, case_log') /\
    List.length case_log'
    = (List.length case_log + 2 * List.length names)%nat.
Proof.
  induction names as [|k names IH]; intros case_log H.
  - exists case_log. split; [reflexivity|]. simpl. lia.
  - cbn [print_each]. unfold print_config.
    assert (Hk : dict_mem (config_dict self) k = true) by (apply H; now left).
    unfold dict_mem in Hk.
    destruct (dict_get (config_dict self) k) as [obj|]; [|discriminate].
    destruct (IH (debug (NameValue (name obj) (value obj))
                    (debug (Desc (desc obj)) case_log)))
      as (case_log' & E & Hlen).
    { intros k' Hk'. apply H. now right. }
    exists case_log'. split; [exact E|].
    rewrite Hlen. unfold debug. rewrite !length_app. simpl. lia.
Qed.

Lemma dict_mem_names {V} (d : dict V) k :
  In k (map fst d) -> dict_mem d k = true.
Proof.
  unfold dict_mem. induction d as [|[k0 v0] d IH]; simpl; [contradiction|].
  destruct (String.eqb k k0) eqn:E; [reflexivity|].
  intros [H|H]; [|now apply IH].
  subst k0. now rewrite String.eqb_refl in E.
Qed.

Lemma print_all_ok self case_log :
  exists case_log',
    print_all self case_log = (Ok tt, case_log') /\
    List.length case_log'
    = (List.length case_log + 3 + 2 * List.length (config_dict self)
       + List.length (cpp_msgs (cppdefs self)))%nat.
Proof.
  unfold print_all.
  destruct (print_each_known (map fst (config_dict self)) self
              (debug separator (debug (Text "CAM configuration variables:")
                                      case_log)))
    as (log1 & E & Hlen).
  { intros k. apply dict_mem_names. }
  rewrite E. eexists. split; [reflexivity|].
  rewrite length_map in Hlen. unfold debug in *.
  rewrite !length_app in Hlen.
  destruct (cppdefs self); cbn [cpp_msgs]; rewrite ?length_app, Hlen; simpl; lia.
Qed.

(** X11: [print_all] never raises: every name it hands to [print_config]
    is a name of the dictionary. It writes three messages, two more for each
    entry and one more when there are CPP definitions. The constructor,
    which ends with [print_all], therefore returns or raises exactly as the
    construction before that last statement does, and writes nothing when
    the construction fails. *)
Theorem print_all_never_raises :
  (forall self case_log,
     exists case_log',
       print_all self case_log = (Ok tt, case_log') /\
       List.length case_log'
       = (List.length case_log + 3 + 2 * List.length (config_dict self)
          + (if Nat.eqb (List.length (cppdefs self)) 0 then 0 else 1))%nat) /\
  (forall case opts case_log,
     fst (init_and_print case opts case_log) = __init__ case opts /\
     (forall e, __init__ case opts = Raise e ->
                snd (init_and_print case opts case_log) = case_log)).
Proof.
  split.
  - intros self case_log. destruct (print_all_ok self case_log) as (l & E & H).
    exists l. split; [exact E|]. rewrite H. now destruct (cppdefs self).
  - intros case opts case_log. unfold init_and_print.
    destruct (__init__ case opts) as [self|e]; [|split; [reflexivity|trivial]].
    destruct (print_all_ok self case_log) as (l & E & _). rewrite E.
    split; [reflexivity|discriminate].
Qed.

Lemma dict_get_NoDup {V} (d : dict V) k v :
  NoDup (map fst d) -> In (k, v) d -> dict_get d k = Some v.
Proof.
  induction d as [|[k0 v0] d IH]; simpl; [contradiction|].
  intros Hnd [E|Hin].
  - injection E as -> ->. now rewrite String.eqb_refl.
  - inversion Hnd as [|? ? Hnotin Hnd']; subst.
    destruct (String.eqb k k0) eqn:E.
    + apply String.eqb_eq in E. subst k0. exfalso. apply Hnotin.
      change k with (fst (k, v)). now apply in_map.
    + now apply IH.
Qed.

Lemma print_each_entries self l : forall case_log,
  (forall k obj, In (k, obj) l -> dict_get (config_dict self) k = Some obj) ->
  print_each (map fst l) self case_log
  = (Ok tt, (case_log ++ flat_map entry_msgs l)%list).
Proof.
  induction l as [|[k obj] l IH]; intros case_log H.
  - simpl. now rewrite app_nil_r.
  - cbn [map fst print_each]. unfold print_config.
    rewrite (H k obj (or_introl eq_refl)).
    rewrite IH by (intros k' obj' Hin; apply H; now right).
    unfold debug. cbn [flat_map entry_msgs snd].
    now rewrite <- !app_assoc.
Qed.

(** X12: for a registry whose names are all different, as [create_config]
    keeps them, [print_all] appends to the log the two headings, then for
    each entry, in the order of creation, its description and its name with
    its value, then the CPP definitions joined by blanks if there are any, and
    the closing separator; [print_config] of an unknown name raises the
    invalid-name error and writes nothing. *)
Theorem print_all_writes_entries_in_order self case_log :
  NoDup (map fst (config_dict self)) ->
  print_all self case_log = (Ok tt, (case_log ++ all_msgs self)%list) /\
  (forall obj_name,
     dict_mem (config_dict self) obj_name = false ->
     print_config obj_name self case_log
     = (Raise (CamConfigValError (InvalidConfigName obj_name)), case_log)).
Proof.
  intros Hnd. split.
  - unfold print_all, all_msgs.
    rewrite print_each_entries.
    + unfold debug. destruct (cppdefs self); cbn [cpp_msgs];
        rewrite <- ?app_assoc; reflexivity.
    + intros k obj. now apply dict_get_NoDup.
  - intros obj_name H. unfold print_config, dict_mem in *.
    now destruct (dict_get (config_dict self) obj_name).
Qed.

Lemma print_all_writes_entries_in_order_witness :
  print_all (with_cppdefs ["-DA"; "-DB=1"]) []
  = (Ok tt, [Text "CAM configuration variables:"; separator;
             CppDefs "-DA -DB=1"; separator]) /\
  print_all registry_with_pcols []
  = (Ok tt, [Text "CAM configuration variables:"; separator;
             Desc (VStr "Maximum number of columns assigned to a thread.");
             NameValue "pcols" (VInt 16); separator]).
Proof.
  split.
  - apply (print_all_writes_entries_in_order (with_cppdefs ["-DA"; "-DB=1"]) []).
    constructor.
  - apply (print_all_writes_entries_in_order registry_with_pcols []).
    vm_compute. constructor; [intros []|constructor].
Defined.

(** ** Generating the source code *)

Lemma get_value_cases obj_name self :
  (exists obj, dict_get (config_dict self) obj_name = Some obj /\
               get_value obj_name self = (Ok (value obj), self)) \/
  (dict_mem (config_dict self) obj_name = false /\
   get_value obj_name self
   = (Raise (CamConfigValError (InvalidConfigName obj_name)), self)).
Proof.
  unfold get_value, dict_mem.
  destruct (dict_get (config_dict self) obj_name) as [obj|].
  - left. now exists obj.
  - now right.
Qed.

Lemma dict_mem_get {V} (d : dict V) k v : dict_get d k = Some v -> dict_mem d k = true.
Proof. unfold dict_mem. now intros ->. Qed.

Section Autogen.

Variable World : Type.
Variable BuildCache : Type.
Variable BuildCacheCAM : string -> World -> result BuildCache * World.
Variable generate_registry :
  list string -> BuildCache -> string -> string -> string -> pyval -> pyval ->
  World -> result (pyval * pyval * pyval * pyval) * World.
Variable generate_physics_suites :
  BuildCache -> list string -> string -> pyval -> string -> string -> pyval ->
  pyval -> string -> pyval ->
  World -> result (list string * pyval * pyval * list string * pyval) * World.
Variable generate_init_routines :
  BuildCache -> string -> pyval -> pyval -> string -> pyval -> pyval -> pyval ->
  World -> result pyval * World.
Variable build_cache_write : BuildCache -> World -> result unit * World.

Local Abbreviation generate :=
  (generate_cam_src World BuildCache BuildCacheCAM generate_registry
                    generate_physics_suites generate_init_routines
                    build_cache_write).

(** The method, step by step. *)
Lemma generate_cam_src_unfold gen_fort_indent self w :
  generate gen_fort_indent self w =
  match dict_get (config_dict self) "dyn" with
  | None => (Raise (CamConfigValError (InvalidConfigName "dyn")), self, w)
  | Some dyn_obj =>
  match dict_get (config_dict self) "physics_suites" with
  | None => (Raise (CamConfigValError (InvalidConfigName "physics_suites")), self, w)
  | Some suites_obj =>
  match BuildCacheCAM (cache_file self) w with
  | (Raise e, w1) => (Raise e, self, w1)
  | (Ok build_cache, w1) =>
  match generate_registry (data_search self) build_cache (atm_root self)
          (bldroot self) (source_mods_dir self) (value dyn_obj) gen_fort_indent w1 with
  | (Raise e, w2) => (Raise e, self, w2)
  | (Ok (reg_dir, force_ccpp, reg_files, ic_names), w2) =>
  match create_config "reg_dir" (VStr "Location of auto-generated registry code.")
                      reg_dir NoSpec None false self with
  | (Raise e, self1) => (Raise e, self1, w2)
  | (Ok _, self1) =>
  match generate_physics_suites build_cache (cppdefs self1) (atm_name self1)
          (value suites_obj) (atm_root self1) (bldroot self1) reg_dir reg_files
          (source_mods_dir self) force_ccpp w2 with
  | (Raise e, w3) => (Raise e, self1, w3)
  | (Ok (phys_dirs, force_init, cap_datafile, nl_groups, capgen_db), w3) =>
  match create_config "phys_dirs"
          (VStr "Locations of auto-generated CCPP physics codes.")
          (VStr (String.concat ";" phys_dirs)) NoSpec None false
          (with_groups nl_groups self1) with
  | (Raise e, self2) => (Raise e, self2, w3)
  | (Ok _, self2) =>
  match generate_init_routines build_cache (bldroot self2) force_ccpp force_init
          (source_mods_dir self) gen_fort_indent capgen_db ic_names w3 with
  | (Raise e, w4) => (Raise e, self2, w4)
  | (Ok init_dir, w4) =>
  match create_config "init_dir"
          (VStr "Location of auto-generated physics initilazation code.")
          init_dir NoSpec None false self2 with
  | (Raise e, self3) => (Raise e, self3, w4)
  | (Ok _, self3) =>
  match build_cache_write build_cache w4 with
  | (Raise e, w5) => (Raise e, self3, w5)
  | (Ok _, w5) => (Ok tt, self3, w5)
  end end end end end end end end end end.
Proof.
  unfold generate_cam_src, get_value, ret, raise, cache_file, data_search,
    source_mods_dir.
  destruct (dict_get (config_dict self) "dyn") as [dyn_obj|]; [|reflexivity].
  destruct (dict_get (config_dict self) "physics_suites") as [suites_obj|];
    [|reflexivity].
  destruct (BuildCacheCAM _ w) as [[build_cache|e] w1]; [|reflexivity].
  destruct (generate_registry _ _ _ _ _ _ _ w1)
    as [[[[[reg_dir force_ccpp] reg_files] ic_names]|e] w2]; [|reflexivity].
  destruct (create_config "reg_dir" _ _ _ _ _ self) as [[[]|e] self1];
    [|reflexivity].
  destruct (generate_physics_suites _ _ _ _ _ _ _ _ _ _ w2)
    as [[[[[[phys_dirs force_init] cap_datafile] nl_groups] capgen_db]|e] w3];
    [|reflexivity].
  unfold bind, nml_groups_extend, with_groups.
  reflexivity.
Qed.

Lemma generate_cam_src_inv gen_fort_indent self w r self' w' :
  generate gen_fort_indent self w = (r, self', w') ->
  exists added groups,
    self' = mk_config (atm_root self) (caseroot self) (bldroot self)
                      (atm_name self) (cppdefs self)
                      (config_dict self ++ added)%list
                      (nml_groups self ++ groups)%list /\
    (exists k, map fst added = firstn k generated_names) /\
    (r = Ok tt -> map fst added = generated_names) /\
    (added = [] -> groups = []) /\
    (dict_mem (config_dict self) "dyn" = false \/
     dict_mem (config_dict self) "physics_suites" = false ->
     w' = w /\ added = []).
Proof.
  assert (Hself : self = mk_config (atm_root self) (caseroot self) (bldroot self)
                           (atm_name self) (cppdefs self)
                           (config_dict self ++ [])%list
                           (nml_groups self ++ [])%list).
  { rewrite !app_nil_r. now destruct self. }
  rewrite generate_cam_src_unfold.
  destruct (dict_get (config_dict self) "dyn") as [dyn_obj|] eqn:Hdyn.
  2:{ intros [= <- <- <-]. exists [], []. split; [exact Hself|].
      split; [now exists 0%nat|]. split; [discriminate|]. now split. }
  destruct (dict_get (config_dict self) "physics_suites") as [suites_obj|] eqn:Hsu.
  2:{ intros [= <- <- <-]. exists [], []. split; [exact Hself|].
      split; [now exists 0%nat|]. split; [discriminate|]. now split. }
  assert (Hw : forall (w1 : World) (added : dict conf_obj),
             dict_mem (config_dict self) "dyn" = false \/
             dict_mem (config_dict self) "physics_suites" = false ->
             w1 = w /\ added = []).
  { apply dict_mem_get in Hdyn, Hsu. intros w1 added [H|H]; congruence. }
  destruct (BuildCacheCAM _ w) as [[build_cache|e] w1].
  2:{ intros [= <- <- <-]. exists [], []. split; [exact Hself|].
      split; [now exists 0%nat|]. split; [discriminate|].
      split; [reflexivity|apply Hw]. }
  destruct (generate_registry _ _ _ _ _ _ _ w1)
    as [[[[[reg_dir force_ccpp] reg_files] ic_names]|e] w2].
  2:{ intros [= <- <- <-]. exists [], []. split; [exact Hself|].
      split; [now exists 0%nat|]. split; [discriminate|].
      split; [reflexivity|apply Hw]. }
  destruct (create_config "reg_dir" _ _ _ _ _ self) as [[[]|e] self1] eqn:E1.
  2:{ apply create_config_raise_inv in E1. subst self1.
      intros [= <- <- <-]. exists [], []. split; [exact Hself|].
      split; [now exists 0%nat|]. split; [discriminate|].
      split; [reflexivity|apply Hw]. }
  apply create_config_ok_inv in E1. destruct E1 as (o1 & _ & _ & ->).
  destruct (generate_physics_suites _ _ _ _ _ _ _ _ _ _ w2)
    as [[[[[[phys_dirs force_init] cap_datafile] nl_groups] capgen_db]|e] w3].
  2:{ intros [= <- <- <-]. exists [("reg_dir", o1)], [].
      split; [unfold store; now rewrite app_nil_r|].
      split; [now exists 1%nat|]. split; [discriminate|].
      split; [discriminate|apply Hw]. }
  destruct (create_config "phys_dirs" _ _ _ _ _ _) as [[[]|e] self2] eqn:E2.
  2:{ apply create_config_raise_inv in E2. subst self2.
      intros [= <- <- <-]. exists [("reg_dir", o1)], nl_groups.
      split; [reflexivity|].
      split; [now exists 1%nat|]. split; [discriminate|].
      split; [discriminate|apply Hw]. }
  apply create_config_ok_inv in E2. destruct E2 as (o2 & _ & _ & ->).
  destruct (generate_init_routines _ _ _ _ _ _ _ _ w3) as [[init_dir|e] w4].
  2:{ intros [= <- <- <-]. exists [("reg_dir", o1); ("phys_dirs", o2)], nl_groups.
      split; [unfold store, with_groups; cbn; now rewrite <- app_assoc|].
      split; [now exists 2%nat|]. split; [discriminate|].
      split; [discriminate|apply Hw]. }
  destruct (create_config "init_dir" _ _ _ _ _ _) as [[[]|e] self3] eqn:E3.
  2:{ apply create_config_raise_inv in E3. subst self3.
      intros [= <- <- <-]. exists [("reg_dir", o1); ("phys_dirs", o2)], nl_groups.
      split; [unfold store, with_groups; cbn; now rewrite <- app_assoc|].
      split; [now exists 2%nat|]. split; [discriminate|].
      split; [discriminate|apply Hw]. }
  apply create_config_ok_inv in E3. destruct E3 as (o3 & _ & _ & ->).
  assert (Hthree : store "init_dir" o3
                     (store "phys_dirs" o2 (with_groups nl_groups (store "reg_dir" o1 self)))
                   = mk_config (atm_root self) (caseroot self) (bldroot self)
                       (atm_name self) (cppdefs self)
                       (config_dict self
                        ++ [("reg_dir", o1); ("phys_dirs", o2); ("init_dir", o3)])%list
                       (nml_groups self ++ nl_groups)%list).
  { unfold store, with_groups. cbn. now rewrite <- !app_assoc. }
  destruct (build_cache_write build_cache w4) as [[[]|e] w5];
    intros [= <- <- <-];
    exists [("reg_dir", o1); ("phys_dirs", o2); ("init_dir", o3)], nl_groups;
    (split; [exact Hthree|]); (split; [now exists 3%nat|]);
    (split; [first [reflexivity | discriminate]|]);
    (split; [discriminate|apply Hw]).
Qed.

(** X13: when [generate_cam_src] succeeds, the registry held [dyn] and
    [physics_suites] and none of the three generated names; the collaborators
    were called in turn, each in the world the one before left, the registry
    generator with the value of [dyn], the suites generator with the CPP
    definitions and the value of [physics_suites]; and the object has gained
    exactly the entries [reg_dir], [phys_dirs] and [init_dir], in this order,
    holding the registry directory, the physics directories joined by
    semicolons and the initialisation directory, and the namelist groups the
    suites generator returned, after those it had. *)
Theorem generate_cam_src_adds_three_entries gen_fort_indent self w self' w' :
  generate gen_fort_indent self w = (Ok tt, self', w') ->
  exists dyn phys_suites reg_dir phys_dirs init_dir nl_groups o1 o2 o3,
    entry_value self "dyn" = Some dyn /\
    entry_value self "physics_suites" = Some phys_suites /\
    fresh self generated_names /\
    config_dict self'
    = (config_dict self
       ++ [("reg_dir", o1); ("phys_dirs", o2); ("init_dir", o3)])%list /\
    value o1 = reg_dir /\ value o2 = VStr (String.concat ";" phys_dirs) /\
    value o3 = init_dir /\
    nml_groups self' = (nml_groups self ++ nl_groups)%list /\
    cppdefs self' = cppdefs self /\
    exists cache w1 w2 w3 w4 force_ccpp reg_files ic_names force_init
           cap_datafile capgen_db,
      BuildCacheCAM (cache_file self) w = (Ok cache, w1) /\
      generate_registry (data_search self) cache (atm_root self) (bldroot self)
                        (source_mods_dir self) dyn gen_fort_indent w1
      = (Ok (reg_dir, force_ccpp, reg_files, ic_names), w2) /\
      generate_physics_suites cache (cppdefs self) (atm_name self) phys_suites
                              (atm_root self) (bldroot self) reg_dir reg_files
                              (source_mods_dir self) force_ccpp w2
      = (Ok (phys_dirs, force_init, cap_datafile, nl_groups, capgen_db), w3) /\
      generate_init_routines cache (bldroot self) force_ccpp force_init
                             (source_mods_dir self) gen_fort_indent capgen_db
                             ic_names w3
      = (Ok init_dir, w4) /\
      build_cache_write cache w4 = (Ok tt, w').
Proof.
  rewrite generate_cam_src_unfold. unfold entry_value.
  destruct (dict_get (config_dict self) "dyn") as [dyn_obj|]; [|discriminate].
  destruct (dict_get (config_dict self) "physics_suites") as [suites_obj|];
    [|discriminate].
  destruct (BuildCacheCAM _ w) as [[cache|e] w1]; [|discriminate].
  destruct (generate_registry _ _ _ _ _ _ _ w1)
    as [[[[[reg_dir force_ccpp] reg_files] ic_names]|e] w2] eqn:Ereg;
    [|discriminate].
  destruct (create_config "reg_dir" _ _ _ _ _ self) as [[[]|e] self1] eqn:E1;
    [|discriminate].
  apply create_config_ok_inv in E1. destruct E1 as (o1 & Ho1 & F1 & ->).
  destruct (generate_physics_suites _ _ _ _ _ _ _ _ _ _ w2)
    as [[[[[[phys_dirs force_init] cap_datafile] nl_groups] capgen_db]|e] w3]
    eqn:Esu; [|discriminate].
  destruct (create_config "phys_dirs" _ _ _ _ _ _) as [[[]|e] self2] eqn:E2;
    [|discriminate].
  apply create_config_ok_inv in E2. destruct E2 as (o2 & Ho2 & F2 & ->).
  destruct (generate_init_routines _ _ _ _ _ _ _ _ w3) as [[init_dir|e] w4]
    eqn:Einit; [|discriminate].
  destruct (create_config "init_dir" _ _ _ _ _ _) as [[[]|e] self3] eqn:E3;
    [|discriminate].
  apply create_config_ok_inv in E3. destruct E3 as (o3 & Ho3 & F3 & ->).
  destruct (build_cache_write cache w4) as [[[]|e] w5] eqn:Ew; [|discriminate].
  intros [= <- <-].
  apply new_conf_obj_fields in Ho1, Ho2, Ho3.
  destruct Ho1 as (_ & _ & Hv1 & _). destruct Ho2 as (_ & _ & Hv2 & _).
  destruct Ho3 as (_ & _ & Hv3 & _).
  cbn [config_dict store with_groups] in F2, F3.
  rewrite dict_mem_snoc in F2. apply orb_false_elim in F2. destruct F2 as [F2 _].
  rewrite !dict_mem_snoc in F3. apply orb_false_elim in F3. destruct F3 as [F3 _].
  apply orb_false_elim in F3. destruct F3 as [F3 _].
  exists (value dyn_obj), (value suites_obj), reg_dir, phys_dirs, init_dir,
    nl_groups, o1, o2, o3.
  split; [reflexivity|]. split; [reflexivity|].
  split; [unfold fresh, generated_names; cbn [forallb]; now rewrite F1, F2, F3|].
  split; [cbn [config_dict store with_groups]; now rewrite <- !app_assoc|].
  split; [exact Hv1|]. split; [exact Hv2|]. split; [exact Hv3|].
  split; [reflexivity|]. split; [reflexivity|].
  exists cache, w1, w2, w3, w4, force_ccpp, reg_files, ic_names, force_init,
    cap_datafile, capgen_db.
  split; [reflexivity|]. split; [exact Ereg|]. split; [exact Esu|].
  split; [exact Einit|exact Ew].
Qed.

Lemma generate_cam_src_known_reg_dir gen_fort_indent self w :
  dict_mem (config_dict self) "reg_dir" = true ->
  exists e w', generate gen_fort_indent self w = (Raise e, self, w').
Proof.
  intros Hreg. rewrite generate_cam_src_unfold.
  destruct (dict_get (config_dict self) "dyn") as [dyn_obj|]; [|eauto].
  destruct (dict_get (config_dict self) "physics_suites") as [suites_obj|];
    [|eauto].
  destruct (BuildCacheCAM _ w) as [[cache|e] w1]; [|eauto].
  destruct (generate_registry _ _ _ _ _ _ _ w1)
    as [[[[[reg_dir force_ccpp] reg_files] ic_names]|e] w2]; [|eauto].
  rewrite create_config_unfold, Hreg.
  destruct (new_conf_obj _ _ _ _ _ _); eauto.
Qed.

(** X14: [generate_cam_src] succeeds at most once on an object: the first
    success stores [reg_dir], and on an object that holds [reg_dir] every
    call raises, whatever the collaborators do, and leaves the object as it
    was. *)
Theorem generate_cam_src_succeeds_once gen_fort_indent self w self' w' :
  generate gen_fort_indent self w = (Ok tt, self', w') ->
  dict_mem (config_dict self') "reg_dir" = true /\
  forall gen_fort_indent2 w2,
    exists e w3, generate gen_fort_indent2 self' w2 = (Raise e, self', w3).
Proof.
  intros H.
  destruct (generate_cam_src_inv _ _ _ _ _ _ H)
    as (added & groups & Hself & _ & Hadded & _).
  specialize (Hadded eq_refl).
  assert (Hreg : dict_mem (config_dict self') "reg_dir" = true).
  { apply dict_mem_names. rewrite Hself. cbn [config_dict].
    rewrite map_app, Hadded. apply in_or_app. right. now left. }
  split; [exact Hreg|]. intros gen_fort_indent2 w2.
  now apply generate_cam_src_known_reg_dir.
Qed.

(** X15: a failure of [generate_cam_src] is not undone: the object keeps
    the entries added before the failing step, a beginning of [reg_dir],
    [phys_dirs], [init_dir], and the namelist groups of the suites generator
    once [reg_dir] is stored; the CPP definitions are untouched. When [dyn]
    or [physics_suites] is missing, the method raises before any
    collaborator is called: the object and the world are unchanged. *)
Theorem generate_cam_src_failure_keeps_what_was_added
  gen_fort_indent self w e self' w' :
  generate gen_fort_indent self w = (Raise e, self', w') ->
  (exists added groups k,
     config_dict self' = (config_dict self ++ added)%list /\
     map fst added = firstn k generated_names /\
     nml_groups self' = (nml_groups self ++ groups)%list /\
     (added = [] -> groups = [])) /\
  cppdefs self' = cppdefs self /\
  (dict_mem (config_dict self) "dyn" = false \/
   dict_mem (config_dict self) "physics_suites" = false ->
   self' = self /\ w' = w).
Proof.
  intros H. destruct (generate_cam_src_inv _ _ _ _ _ _ H)
    as (added & groups & Hself & [k Hk] & _ & Hg & Hw).
  split; [|split].
  - exists added, groups, k. rewrite Hself. now cbn.
  - rewrite Hself. reflexivity.
  - intros Hm. destruct (Hw Hm) as [-> ->]. split; [|reflexivity].
    rewrite Hself, (Hg eq_refl), !app_nil_r. now destruct self.
Qed.

End Autogen.


Lemma generate_cam_src_adds_three_entries_witness :
  exists o1 o2 o3,
    config_dict (snd (fst (generate_nothing FCONFIG)))
    = (config_dict FCONFIG
       ++ [("reg_dir", o1); ("phys_dirs", o2); ("init_dir", o3)])%list /\
    value o1 = VStr "/reg" /\ value o2 = VStr "/phys/a;/phys/b" /\
    value o3 = VStr "/init" /\
    nml_groups (snd (fst (generate_nothing FCONFIG)))
    = (nml_groups FCONFIG ++ ["suite_nl"])%list.
Proof.
  destruct (generate_cam_src_adds_three_entries unit unit
              (fun _ w => (Ok tt, w)) no_registry no_suites no_init
              (fun _ w => (Ok tt, w)) (VInt 3) FCONFIG tt
              (snd (fst (generate_nothing FCONFIG))) tt)
    as (dyn & ps & reg_dir & phys_dirs & init_dir & nl_groups & o1 & o2 & o3
        & _ & _ & _ & Hcfg & Hv1 & Hv2 & Hv3 & Hn & _
        & (cache & w1 & w2 & w3 & w4 & fc & rf & ic & fi & cd & cdb
           & _ & Hr & Hs & Hi & _)).
  - vm_compute. reflexivity.
  - unfold no_registry in Hr. unfold no_suites in Hs. unfold no_init in Hi.
    injection Hr as <- _ _ _ _. injection Hs as <- _ _ <- _ _.
    injection Hi as <- _.
    exists o1, o2, o3. split; [exact Hcfg|]. split; [exact Hv1|].
    split; [exact Hv2|]. split; [exact Hv3|exact Hn].
Defined.

Lemma generate_cam_src_succeeds_once_witness :
  exists e w3,
    generate_cam_src unit unit (fun _ w => (Ok tt, w)) no_registry no_suites
                     no_init (fun _ w => (Ok tt, w)) (VInt 0)
                     (snd (fst (generate_nothing FCONFIG))) tt
    = (Raise e, snd (fst (generate_nothing FCONFIG)), w3).
Proof.
  apply (generate_cam_src_succeeds_once unit unit
           (fun _ w => (Ok tt, w)) no_registry no_suites no_init
           (fun _ w => (Ok tt, w)) (VInt 3) FCONFIG tt
           (snd (fst (generate_nothing FCONFIG))) tt).
  vm_compute. reflexivity.
Defined.

Lemma generate_cam_src_failure_keeps_what_was_added_witness :
  fst (fst (generate_nothing FCONFIG_with_phys_dirs))
  = Raise (CamConfigValError (ConfigExists "phys_dirs")) /\
  map fst (config_dict (snd (fst (generate_nothing FCONFIG_with_phys_dirs))))
  = (map fst (config_dict FCONFIG_with_phys_dirs) ++ ["reg_dir"])%list /\
  nml_groups (snd (fst (generate_nothing FCONFIG_with_phys_dirs)))
  = (nml_groups FCONFIG_with_phys_dirs ++ ["suite_nl"])%list /\
  cppdefs (snd (fst (generate_nothing FCONFIG_with_phys_dirs)))
  = cppdefs FCONFIG_with_phys_dirs.
Proof.
  split; [vm_compute; reflexivity|].
  split; [vm_compute; reflexivity|].
  split; [vm_compute; reflexivity|].
  apply (generate_cam_src_failure_keeps_what_was_added unit unit
           (fun _ w => (Ok tt, w)) no_registry no_suites no_init
           (fun _ w => (Ok tt, w)) (VInt 3) FCONFIG_with_phys_dirs tt
           (CamConfigValError (ConfigExists "phys_dirs"))
           (snd (fst (generate_nothing FCONFIG_with_phys_dirs))) tt).
  vm_compute. reflexivity.
Defined.

(** ** What the constructor adds *)

Lemma adds_ret {A} (a : A) : adds (ret a) [] [] [].
Proof. intros self a' self' [= _ <-]. now rewrite !app_nil_r. Qed.

Lemma adds_raise {A} e names cpp groups : adds (@raise A e) names cpp groups.
Proof. intros self a self' H. discriminate H. Qed.

Lemma adds_bind {A B} (m : M A) (k : A -> M B) n1 c1 g1 n2 c2 g2 names cpp groups :
  adds m n1 c1 g1 ->
  names = (n1 ++ n2)%list -> cpp = (c1 ++ c2)%list -> groups = (g1 ++ g2)%list ->
  (forall a, adds (k a) n2 c2 g2) ->
  adds (bind m k) names cpp groups.
Proof.
  intros Hm -> -> -> Hk self b self' H.
  apply bind_ok_inv in H. destruct H as (a & self1 & H1 & H2).
  destruct (Hm _ _ _ H1) as (E1 & E2 & E3).
  destruct (Hk a _ _ _ H2) as (F1 & F2 & F3).
  rewrite F1, F2, F3, E1, E2, E3. now rewrite !app_assoc.
Qed.

Lemma adds_lift_bind {A B} (r : result A) (k : A -> M B) names cpp groups :
  (forall a, r = Ok a -> adds (k a) names cpp groups) ->
  adds (bind (lift r) k) names cpp groups.
Proof.
  intros Hk self b self' H. unfold bind, lift in H.
  destruct r as [a|e]; [|discriminate]. exact (Hk a eq_refl _ _ _ H).
Qed.

Lemma adds_create_config nm ds val spec ty nml :
  adds (create_config nm ds val spec ty nml) [nm] [] [].
Proof.
  intros self [] self' H. apply create_config_ok_inv in H.
  destruct H as (obj & _ & _ & ->). unfold store. cbn.
  now rewrite map_app, !app_nil_r.
Qed.

Lemma adds_add_cppdef sym val :
  plain sym = true -> adds (add_cppdef sym val) [] [cpp_str sym val] [].
Proof.
  intros Hp self [] self' H. rewrite (add_cppdef_plain sym val self Hp) in H.
  destruct (defined sym (cppdefs self)); [discriminate|].
  injection H as <-. cbn. now rewrite !app_nil_r.
Qed.

Lemma adds_nml_groups_append g : adds (nml_groups_append g) [] [] [g].
Proof. intros self [] self' [= <-]. cbn. now rewrite !app_nil_r. Qed.

Lemma adds_get_value obj_name : adds (get_value obj_name) [] [] [].
Proof.
  intros self v self' H. unfold get_value in H.
  destruct (dict_get (config_dict self) obj_name); [|discriminate].
  injection H as _ <-. now rewrite !app_nil_r.
Qed.

Create HintDb adds.
#[local] Hint Resolve adds_ret adds_raise adds_create_config adds_nml_groups_append
  adds_get_value : adds.
#[local] Hint Extern 1 (adds (add_cppdef _ _) _ _ _) =>
  apply adds_add_cppdef; reflexivity : adds.

Ltac adds_tac :=
  first
    [ solve [eauto with adds]
    | progress cbv beta zeta; adds_tac
    | eapply adds_bind;
      [ adds_tac | reflexivity | reflexivity | reflexivity
      | intros ?; adds_tac ] ].

Lemma adds_set_fixed start_date debug_case :
  adds (set_fixed start_date debug_case) fixed_names [] [].
Proof. unfold set_fixed, fixed_names. adds_tac. Qed.

Lemma core_of_cases g :
  core_of g =
  if Re.matches fv_grid_re g then "fv"
  else if Re.matches se_grid_re g then "se"
  else if Re.matches fv3_grid_re g then "fv3"
  else if Re.matches mpas_grid_re g then "mpas"
  else if Re.matches eul_grid_re g then "eul"
  else if String.eqb g "null" then "none" else "".
Proof.
  unfold core_of. rewrite classify_cases.
  repeat match goal with |- context [if ?b then _ else _] => destruct b end;
    reflexivity.
Qed.

Lemma adds_set_dycore g nthrds :
  adds (set_dycore g nthrds) (dycore_names (core_of g))
       (dycore_defs (core_of g) nthrds) (dycore_groups (core_of g)).
Proof.
  rewrite core_of_cases. unfold set_dycore, create_dyn, create_hgrid.
  destruct (Re.matches fv_grid_re g); [adds_tac|].
  destruct (Re.matches se_grid_re g).
  { unfold dycore_names, dycore_defs, dycore_groups, se_defs, se_symbols.
    cbn [String.eqb Ascii.eqb Bool.eqb].
    destruct (1 <? nthrds); adds_tac. }
  destruct (Re.matches fv3_grid_re g); [adds_tac|].
  destruct (Re.matches mpas_grid_re g); [adds_tac|].
  destruct (Re.matches eul_grid_re g); [adds_tac|].
  destruct (String.eqb g "null"); adds_tac.
Qed.

Lemma adds_check_dycore user : adds (check_dycore user) [] [] [].
Proof.
  unfold check_dycore. eapply adds_bind;
    [apply adds_get_value|reflexivity|reflexivity|reflexivity|].
  intros dynv. destruct user as [opt|]; [|apply adds_ret].
  destruct (negb (py_eqb (VStr opt) dynv)); [apply adds_raise|apply adds_ret].
Qed.

Lemma adds_set_grid_vars c g nx ny :
  adds (set_grid_vars (VStr c) g nx ny) (grid_names c) (grid_defs c g) [].
Proof.
  unfold set_grid_vars, grid_names, grid_defs. cbn [py_eqb].
  destruct (String.eqb c "se"); [|adds_tac].
  apply adds_lift_bind. intros [[csne_val csnp_val] npg_val] E.
  unfold np_defs. rewrite E. cbn [fst snd]. adds_tac.
Qed.

Lemma adds_set_analytic_ic analytic :
  adds (set_analytic_ic analytic) ["analytic_ic"] (analytic_defs analytic)
       (analytic_groups analytic).
Proof.
  unfold set_analytic_ic, analytic_defs, analytic_groups.
  destruct analytic; adds_tac.
Qed.

Lemma adds_set_ocn_phys_kinds ocn opts :
  adds (set_ocn_phys_kinds ocn opts)
       ["ocn"; "physics_suites"; "dyn_kind"; "phys_kind"] [] [].
Proof. unfold set_ocn_phys_kinds. adds_tac. Qed.

#[local] Hint Resolve adds_set_fixed adds_set_dycore adds_check_dycore
  adds_set_grid_vars adds_set_analytic_ic adds_set_ocn_phys_kinds : adds.

Lemma check_dyn_opt_grid case opts user g nx ny :
  check_dyn_opt (dyn opts) (grid_token (ATM_GRID case)) (ATM_NX case) (ATM_NY case)
  = Ok (user, g, nx, ny) ->
  g = init_grid case opts /\
  user = (if String.eqb (dyn opts) "" then None else Some (dyn opts)) /\
  (dyn opts = "" \/ In (dyn opts) dyn_valid_vals).
Proof.
  unfold init_grid, check_dyn_opt.
  destruct (String.eqb (dyn opts) "none") eqn:E1.
  { apply String.eqb_eq in E1. rewrite E1. intros [= <- <- _ _].
    split; [reflexivity|]. split; [reflexivity|]. right. simpl. tauto. }
  destruct (String.eqb (dyn opts) "") eqn:E2.
  { intros [= <- <- _ _]. apply String.eqb_eq in E2. auto. }
  destruct (existsb (String.eqb (dyn opts)) dyn_valid_vals) eqn:E3;
    [|discriminate].
  intros [= <- <- _ _]. split; [reflexivity|]. split; [reflexivity|]. right.
  apply existsb_exists in E3. destruct E3 as (x & Hx & Heq).
  apply String.eqb_eq in Heq. now subst x.
Qed.

Lemma core_of_classified g c : classify g = Some c -> core_of g = c.
Proof. unfold core_of. now intros ->. Qed.

Lemma init_dycore_ok_inv case user g dynv self1 :
  init_dycore case user g (new_self case) = (Ok dynv, self1) ->
  In (core_of g) ["fv"; "se"; "fv3"; "mpas"; "eul"; "none"] /\
  dynv = VStr (core_of g) /\
  entry_value self1 "dyn" = Some (VStr (core_of g)) /\
  fresh self1 later_names /\
  (forall u, user = Some u -> u = core_of g) /\
  (core_of g = "se" ->
   collides (init_cppdefs (CAM_CPPDEFS case)) (NTHRDS_ATM case) = false) /\
  entry_value self1 "hgrid" = Some (VStr g) /\
  init_classify case g (new_self case) = (Ok tt, self1).
Proof.
  intros H.
  assert (Hstep : forall c s1,
             init_classify case g (new_self case) = (Ok tt, s1) ->
             entry_value s1 "dyn" = Some (VStr c) ->
             dynv = VStr c /\ self1 = s1 /\ (forall u, user = Some u -> u = c)).
  { intros c s1 Hrun Hd.
    rewrite (init_dycore_checked _ _ _ _ _ Hrun Hd) in H.
    destruct user as [u|].
    - destruct (String.eqb u c) eqn:E; [|discriminate].
      injection H as <- <-. apply String.eqb_eq in E.
      split; [reflexivity|]. split; [reflexivity|]. now intros u' [= <-].
    - injection H as <- <-. split; [reflexivity|]. split; [reflexivity|].
      discriminate. }
  destruct (classify g) as [c|] eqn:Hc.
  - rewrite (core_of_classified g c Hc).
    assert (Hcol : c = "se" ->
              collides (init_cppdefs (CAM_CPPDEFS case)) (NTHRDS_ATM case) = false).
    { intros ->.
      destruct (collides (init_cppdefs (CAM_CPPDEFS case)) (NTHRDS_ATM case))
        eqn:Hcol; [|reflexivity].
      destruct (init_classify_se_collision case g Hc Hcol)
        as (sym & s' & E & _).
      unfold init_dycore in H. now rewrite (bind_raise _ _ _ _ _ E) in H. }
    destruct (init_classify_ok case g c Hc Hcol)
      as (s1 & Hrun & (Hd & Hg & Hf) & _).
    destruct (Hstep c s1 Hrun Hd) as (-> & -> & Hu).
    split.
    { pose proof (classify_core _ _ Hc) as Hin. simpl in Hin. simpl. tauto. }
    split; [reflexivity|]. split; [exact Hd|]. split; [exact Hf|].
    split; [exact Hu|]. split; [exact Hcol|]. split; [exact Hg|exact Hrun].
  - destruct (String.eqb g "null") eqn:Hnull.
    + apply String.eqb_eq in Hnull. subst g.
      destruct (init_classify_null case) as (s1 & Hrun & (Hd & Hg & Hf) & _).
      destruct (Hstep "none" s1 Hrun Hd) as (-> & -> & Hu).
      change (core_of "null") with "none".
      split; [simpl; tauto|]. split; [reflexivity|]. split; [exact Hd|].
      split; [exact Hf|]. split; [exact Hu|]. split; [discriminate|].
      split; [exact Hg|exact Hrun].
    + apply String.eqb_neq in Hnull.
      destruct (init_classify_unknown case g Hc Hnull) as (s' & E).
      unfold init_dycore in H. now rewrite (bind_raise _ _ _ _ _ E) in H.
Qed.

Lemma adds_init_dycore case user g :
  adds (init_dycore case user g)
       (fixed_names ++ dycore_names (core_of g))%list
       (dycore_defs (core_of g) (NTHRDS_ATM case))
       (dycore_groups (core_of g)).
Proof.
  unfold init_dycore, init_classify.
  apply (adds_bind _ _ (fixed_names ++ dycore_names (core_of g))%list
           (dycore_defs (core_of g) (NTHRDS_ATM case))
           (dycore_groups (core_of g)) [] [] []).
  - eapply adds_bind;
      [apply adds_set_fixed|reflexivity|reflexivity|reflexivity
      |intros ?; apply adds_set_dycore].
  - now rewrite app_nil_r.
  - now rewrite app_nil_r.
  - now rewrite app_nil_r.
  - intros ?. apply adds_check_dycore.
Qed.

Lemma adds_init_rest case opts g nx ny c :
  adds (init_rest case opts g nx ny (VStr c))
       (grid_names c ++ last_names)%list
       (grid_defs c g ++ analytic_defs (analytic_ic opts))%list
       (analytic_groups (analytic_ic opts)).
Proof.
  unfold init_rest.
  eapply adds_bind;
    [apply adds_set_grid_vars|reflexivity|reflexivity|reflexivity|intros ?].
  apply (adds_bind _ _ ["analytic_ic"] (analytic_defs (analytic_ic opts))
           (analytic_groups (analytic_ic opts))
           ["ocn"; "physics_suites"; "dyn_kind"; "phys_kind"] [] []).
  - apply adds_set_analytic_ic.
  - reflexivity.
  - now rewrite app_nil_r.
  - now rewrite app_nil_r.
  - intros ?. apply adds_set_ocn_phys_kinds.
Qed.

(** The object the constructor returns, by the dycore of its grid. *)
Lemma init_layout case opts self :
  __init__ case opts = Ok self ->
  In (core_of (init_grid case opts)) ["fv"; "se"; "fv3"; "mpas"; "eul"; "none"] /\
  entry_value self "dyn" = Some (VStr (core_of (init_grid case opts))) /\
  map fst (config_dict self) = built_names (core_of (init_grid case opts)) /\
  cppdefs self
  = (init_cppdefs (CAM_CPPDEFS case)
     ++ dycore_defs (core_of (init_grid case opts)) (NTHRDS_ATM case)
     ++ grid_defs (core_of (init_grid case opts)) (init_grid case opts)
     ++ analytic_defs (analytic_ic opts))%list /\
  nml_groups self
  = (default_nml_groups ++ dycore_groups (core_of (init_grid case opts))
     ++ analytic_groups (analytic_ic opts))%list.
Proof.
  intros Hok.
  destruct (init_ok_inv _ _ _ Hok)
    as (user & g & nx & ny & dynv & self1 & Hcheck & Hdy & Hrest).
  destruct (check_dyn_opt_grid _ _ _ _ _ _ Hcheck) as (-> & _ & _).
  destruct (init_dycore_ok_inv _ _ _ _ _ Hdy) as (Hin & -> & Hd & _).
  destruct (adds_init_dycore _ _ _ _ _ _ Hdy) as (N1 & C1 & G1).
  destruct (adds_init_rest _ _ _ _ _ _ _ _ _ Hrest) as (N2 & C2 & G2).
  split; [exact Hin|]. split.
  { exact (keeps_entry_value _ _ _ _ _ _ (keeps_init_rest _ _ _ _ _ _) Hrest Hd). }
  split; [|split].
  - rewrite N2, N1. unfold built_names. cbn [new_self config_dict map app].
    now rewrite <- !app_assoc.
  - rewrite C2, C1. cbn [new_self cppdefs]. now rewrite <- !app_assoc.
  - rewrite G2, G1. cbn [new_self nml_groups]. now rewrite <- !app_assoc.
Qed.

(** X16: the names of the entries of every object the constructor
    returns, and their order, are fixed by the dycore of its grid: the four
    fixed entries, [dyn] and [hgrid] with the entries of the dycore, the
    fields of the grid ([csne], [csnp], [npg] for the spectral-element
    dycore, [nlat], [nlon] for the others) and the five last entries. The
    dycore stored is the one of the grid, [none] with [--dyn none], and all
    the names are different. *)
Theorem built_object_names case opts self :
  __init__ case opts = Ok self ->
  In (core_of (init_grid case opts)) ["fv"; "se"; "fv3"; "mpas"; "eul"; "none"] /\
  get_value "dyn" self = (Ok (VStr (core_of (init_grid case opts))), self) /\
  map fst (config_dict self) = built_names (core_of (init_grid case opts)) /\
  NoDup (map fst (config_dict self)).
Proof.
  intros Hok. destruct (init_layout _ _ _ Hok) as (Hin & Hd & Hn & _).
  split; [exact Hin|]. split; [|split; [exact Hn|]].
  - unfold get_value. unfold entry_value in Hd.
    destruct (dict_get (config_dict self) "dyn") as [obj|]; [|discriminate].
    simpl in Hd. injection Hd as Hd. unfold ret. now rewrite Hd.
  - rewrite Hn. simpl in Hin.
    destruct Hin as [<-|[<-|[<-|[<-|[<-|[<-|[]]]]]]];
      vm_compute;
      repeat (constructor; [simpl; intuition discriminate|]); constructor.
Qed.

Lemma built_object_names_witness :
  map fst (config_dict FCONFIG)
  = ["ic_ymd"; "debug"; "pcols"; "psubcols"; "dyn"; "hgrid"; "dyn_src_dirs";
     "nlat"; "nlon"; "analytic_ic"; "ocn"; "physics_suites"; "dyn_kind";
     "phys_kind"].
Proof.
  apply (built_object_names FakeCase (fake_opts "none") FCONFIG).
  vm_compute. reflexivity.
Defined.

(** X17: the CPP definitions and the namelist groups of every object the
    constructor returns: the definitions of the case, then for the
    spectral-element dycore [-D_MPI], [-DSPMD], [-D_OPENMP] with more than one
    thread, and [-DNP=] with the points per element decoded from the grid
    name, then [-DANALYTIC_IC] when analytic initial conditions are asked
    for; the six default groups, then [air_composition_nl] and [dyn_se_nl]
    for the spectral-element dycore, then [analytic_ic_nl] when asked for.
    Nothing else is added and what the case gave is neither removed nor
    reordered. *)
Theorem built_object_cppdefs_and_groups case opts self :
  __init__ case opts = Ok self ->
  cppdefs self
  = (init_cppdefs (CAM_CPPDEFS case)
     ++ (if String.eqb (core_of (init_grid case opts)) "se"
         then se_defs (NTHRDS_ATM case) ++ np_defs (init_grid case opts)
         else [])
     ++ analytic_defs (analytic_ic opts))%list /\
  nml_groups self
  = (default_nml_groups
     ++ (if String.eqb (core_of (init_grid case opts)) "se"
         then ["air_composition_nl"; "dyn_se_nl"] else [])
     ++ analytic_groups (analytic_ic opts))%list /\
  (core_of (init_grid case opts) = "se" ->
   exists csnp_val,
     get_value "csnp" self = (Ok (VInt csnp_val), self) /\
     np_defs (init_grid case opts) = [cpp_str "NP" (Some (CppInt csnp_val))]).
Proof.
  intros Hok. destruct (init_layout _ _ _ Hok) as (_ & _ & _ & Hc & Hg).
  split; [|split; [exact Hg|]].
  - rewrite Hc. unfold dycore_defs, grid_defs.
    destruct (String.eqb (core_of (init_grid case opts)) "se");
      [now rewrite <- app_assoc|reflexivity].
  - intros Hse.
    destruct (init_ok_inv _ _ _ Hok)
      as (user & g & nx & ny & dynv & self1 & Hcheck & Hdy & Hrest).
    destruct (check_dyn_opt_grid _ _ _ _ _ _ Hcheck) as (-> & _ & _).
    destruct (init_dycore_ok_inv _ _ _ _ _ Hdy) as (_ & -> & _).
    rewrite Hse in Hrest. unfold init_rest in Hrest.
    apply bind_ok_inv in Hrest. destruct Hrest as ([] & s2 & Hgrid & Hrest).
    unfold set_grid_vars in Hgrid. cbn [py_eqb String.eqb Ascii.eqb Bool.eqb] in Hgrid.
    unfold np_defs.
    destruct (se_decode (init_grid case opts)) as [[[csne_val csnp_val] npg_val]|e];
      [|discriminate].
    unfold bind at 1, lift in Hgrid. cbn [fst snd] in Hgrid.
    apply bind_ok_inv in Hgrid. destruct Hgrid as ([] & s3 & H1 & Hgrid).
    apply bind_ok_inv in Hgrid. destruct Hgrid as ([] & s4 & H2 & Hgrid).
    apply create_config_ok_inv in H2. destruct H2 as (obj & Hobj & Hm & ->).
    assert (Hv : entry_value (store "csnp" obj s3) "csnp" = Some (VInt csnp_val)).
    { unfold entry_value, store. cbn [config_dict].
      rewrite (dict_get_snoc_new _ _ _ Hm). simpl.
      apply new_conf_obj_fields in Hobj. destruct Hobj as (_ & _ & -> & _).
      reflexivity. }
    assert (Hk : keeps (create_config "npg"
                          (VStr "Number of finite volume grid cells on each edge of each element in a cubed sphere grid.")
                          (VInt npg_val) NoSpec None true ;;
                        add_cppdef "NP" (Some (CppInt csnp_val)))).
    { keeps_tac. }
    pose proof (keeps_entry_value _ _ _ _ _ _ Hk Hgrid Hv) as Hv2.
    assert (Hk2 : keeps (set_analytic_ic (analytic_ic opts) ;;
                         set_ocn_phys_kinds (COMP_OCN case) opts)).
    { keeps_tac. }
    pose proof (keeps_entry_value _ _ _ _ _ _ Hk2 Hrest Hv2) as Hv3.
    exists csnp_val. split; [|reflexivity].
    unfold get_value. unfold entry_value in Hv3.
    destruct (dict_get (config_dict self) "csnp") as [o|]; [|discriminate].
    simpl in Hv3. injection Hv3 as Hv3. unfold ret. now rewrite Hv3.
Qed.

Lemma built_object_cppdefs_and_groups_witness :
  exists self,
    __init__ (with_grid FakeCase "ne30np4.pg3") (mk_opts "kessler" "se" true "REAL64" "REAL32")
    = Ok self /\
    cppdefs self
    = ["-DTEST_CPPDEF"; "-DNEW_TEST=5"; "-D_MPI"; "-DSPMD"; "-DNP=4";
       "-DANALYTIC_IC"] /\
    nml_groups self
    = ["cam_initfiles_nl"; "cam_logfile_nl"; "physics_nl"; "qneg_nl";
       "vert_coord_nl"; "ref_pres_nl"; "air_composition_nl"; "dyn_se_nl";
       "analytic_ic_nl"].
Proof.
  destruct (__init__ (with_grid FakeCase "ne30np4.pg3")
              (mk_opts "kessler" "se" true "REAL64" "REAL32")) as [self|e] eqn:E;
    [|vm_compute in E; discriminate E].
  exists self. split; [reflexivity|].
  destruct (built_object_cppdefs_and_groups _ _ _ E) as (Hc & Hg & _).
  split; [exact Hc|exact Hg].
Defined.

(** ** When the constructor succeeds *)

Lemma new_str_one_of_inv nm ds s l ty nml obj :
  new_conf_obj nm ds (VStr s) (OneOf (strs l)) ty nml = Ok obj -> In s l.
Proof.
  intros H. destruct (in_dec string_dec s l) as [Hin|Hn]; [exact Hin|].
  rewrite (new_str_not_one_of nm ds s l ty nml Hn) in H. discriminate H.
Qed.

Lemma dict_mem_fst {V} (d : dict V) k :
  dict_mem d k = existsb (String.eqb k) (map fst d).
Proof.
  unfold dict_mem. induction d as [|[k0 v0] d IH]; [reflexivity|].
  simpl. destruct (String.eqb k k0); [reflexivity|exact IH].
Qed.

Lemma defined_np_analytic n :
  defined "ANALYTIC_IC" [cpp_str "NP" (Some (CppInt n))] = false.
Proof.
  unfold defined, defines, cpp_str. cbn [existsb].
  change (("-D" ++ "NP") ++ "=" ++ format_value (CppInt n))
    with (String "-" "DNP=" ++ format_value (CppInt n)).
  rewrite strip_app_no_space by reflexivity.
  generalize (Py.rstrip (format_value (CppInt n))). intros x. reflexivity.
Qed.

Lemma init_rest_se_ok case opts g nx ny csne_val csnp_val npg_val self :
  se_decode g = Ok (csne_val, csnp_val, npg_val) ->
  fresh self later_names ->
  defined "NP" (cppdefs self) = false ->
  In (COMP_OCN case) ocn_valid_vals ->
  In (dyn_kind opts) kind_valid_vals -> In (phys_kind opts) kind_valid_vals ->
  (analytic_ic opts = true -> defined "ANALYTIC_IC" (cppdefs self) = false) ->
  exists self', init_rest case opts g nx ny (VStr "se") self = (Ok tt, self').
Proof.
  intros Hdec Hfresh Hnp Hocn Hdk Hpk Hic.
  assert (Hmem : forall k, In k later_names ->
                           dict_mem (config_dict self) k = false).
  { intros k Hk. unfold fresh in Hfresh. rewrite forallb_forall in Hfresh.
    apply negb_true_iff. now apply Hfresh. }
  destruct (set_grid_vars_se g nx ny _ _ _ self Hdec) as (s2 & H2 & _ & _ & _ & C2).
  { unfold fresh. cbn [forallb].
    rewrite !Hmem by (simpl; tauto). reflexivity. }
  { exact Hnp. }
  destruct (adds_set_grid_vars "se" g nx ny _ _ _ H2) as (N2 & _ & _).
  assert (Hmem2 : forall k, In k last_names ->
                            dict_mem (config_dict s2) k = false).
  { intros k Hk. rewrite dict_mem_fst, N2, existsb_app, <- dict_mem_fst.
    rewrite Hmem by (unfold last_names in Hk; simpl in *; tauto).
    unfold last_names in Hk. simpl in Hk.
    destruct Hk as [<-|[<-|[<-|[<-|[<-|[]]]]]]; reflexivity. }
  destruct (set_analytic_ic_ok (analytic_ic opts) s2) as (s3 & H3 & C3).
  { apply Hmem2. simpl. tauto. }
  { intros Ha. rewrite C2, defined_app, (Hic Ha).
    now rewrite defined_np_analytic. }
  destruct (set_ocn_phys_kinds_ok (COMP_OCN case) opts s3) as (s4 & H4 & _);
    try assumption;
    try (rewrite C3, dict_mem_snoc, Hmem2 by (simpl; tauto); reflexivity).
  exists s4. unfold init_rest.
  rewrite (bind_ok _ _ _ _ _ H2), (bind_ok _ _ _ _ _ H3). exact H4.
Qed.

Lemma init_rest_ok_inv case opts g nx ny c self1 self :
  init_rest case opts g nx ny (VStr c) self1 = (Ok tt, self) ->
  In (COMP_OCN case) ocn_valid_vals /\
  In (dyn_kind opts) kind_valid_vals /\ In (phys_kind opts) kind_valid_vals /\
  (analytic_ic opts = true -> defined "ANALYTIC_IC" (cppdefs self1) = false) /\
  (c = "se" ->
   defined "NP" (cppdefs self1) = false /\ exists vals, se_decode g = Ok vals).
Proof.
  unfold init_rest. intros H.
  apply bind_ok_inv in H. destruct H as ([] & s2 & Hgrid & H).
  apply bind_ok_inv in H. destruct H as ([] & s3 & Hana & Hocn).
  destruct (adds_set_grid_vars _ _ _ _ _ _ _ Hgrid) as (_ & C2 & _).
  split; [|split; [|split; [|split]]].
  - unfold set_ocn_phys_kinds in Hocn.
    apply bind_ok_inv in Hocn. destruct Hocn as ([] & s & H1 & _).
    apply create_config_ok_inv in H1. destruct H1 as (obj & Hobj & _).
    now apply new_str_one_of_inv in Hobj.
  - unfold set_ocn_phys_kinds in Hocn.
    apply bind_ok_inv in Hocn. destruct Hocn as ([] & s & _ & Hocn).
    apply bind_ok_inv in Hocn. destruct Hocn as ([] & s' & _ & Hocn).
    apply bind_ok_inv in Hocn. destruct Hocn as ([] & s'' & H1 & _).
    apply create_config_ok_inv in H1. destruct H1 as (obj & Hobj & _).
    now apply new_str_one_of_inv in Hobj.
  - unfold set_ocn_phys_kinds in Hocn.
    apply bind_ok_inv in Hocn. destruct Hocn as ([] & s & _ & Hocn).
    apply bind_ok_inv in Hocn. destruct Hocn as ([] & s' & _ & Hocn).
    apply bind_ok_inv in Hocn. destruct Hocn as ([] & s'' & _ & H1).
    apply create_config_ok_inv in H1. destruct H1 as (obj & Hobj & _).
    now apply new_str_one_of_inv in Hobj.
  - intros Ha. rewrite Ha in Hana. unfold set_analytic_ic in Hana.
    apply bind_ok_inv in Hana. destruct Hana as (v & s & Hana & _).
    apply bind_ok_inv in Hana. destruct Hana as ([] & s' & Hg & Hana).
    apply bind_ok_inv in Hana. destruct Hana as ([] & s'' & Hadd & _).
    injection Hg as <-.
    rewrite (add_cppdef_plain "ANALYTIC_IC" None _ eq_refl) in Hadd.
    cbn [cppdefs] in Hadd.
    destruct (defined "ANALYTIC_IC" (cppdefs s2)) eqn:Hd; [discriminate|].
    rewrite C2, defined_app in Hd. now apply orb_false_elim in Hd.
  - intros ->. unfold set_grid_vars in Hgrid.
    cbn [py_eqb String.eqb Ascii.eqb Bool.eqb] in Hgrid.
    destruct (se_decode g) as [[[csne_val csnp_val] npg_val]|e] eqn:Hdec.
    2:{ unfold bind, lift in Hgrid. discriminate Hgrid. }
    split; [|now eexists].
    unfold bind at 1, lift in Hgrid. cbn [fst snd] in Hgrid.
    apply bind_ok_inv in Hgrid. destruct Hgrid as ([] & t1 & H1 & Hgrid).
    apply bind_ok_inv in Hgrid. destruct Hgrid as ([] & t2 & H2 & Hgrid).
    apply bind_ok_inv in Hgrid. destruct Hgrid as ([] & t3 & H3 & Hadd).
    apply create_config_ok_inv in H1, H2, H3.
    destruct H1 as (o1 & _ & _ & ->). destruct H2 as (o2 & _ & _ & ->).
    destruct H3 as (o3 & _ & _ & ->).
    rewrite (add_cppdef_plain "NP" _ _ eq_refl) in Hadd.
    cbn [cppdefs store] in Hadd.
    now destruct (defined "NP" (cppdefs self1)).
Qed.

Lemma defined_se_defs nthrds :
  defined "NP" (se_defs nthrds) = false /\
  defined "ANALYTIC_IC" (se_defs nthrds) = false.
Proof.
  unfold se_defs, se_symbols. destruct (1 <? nthrds); split; vm_compute; reflexivity.
Qed.


Lemma init_dycore_ok case user g :
  In (core_of g) ["fv"; "se"; "fv3"; "mpas"; "eul"; "none"] ->
  (core_of g = "se" ->
   collides (init_cppdefs (CAM_CPPDEFS case)) (NTHRDS_ATM case) = false) ->
  (forall u, user = Some u -> u = core_of g) ->
  exists self1,
    init_dycore case user g (new_self case) = (Ok (VStr (core_of g)), self1) /\
    fresh self1 later_names /\
    cppdefs self1
    = (init_cppdefs (CAM_CPPDEFS case)
       ++ dycore_defs (core_of g) (NTHRDS_ATM case))%list.
Proof.
  intros Hin Hcol Hu.
  assert (Hchecked : forall s1,
             init_classify case g (new_self case) = (Ok tt, s1) ->
             entry_value s1 "dyn" = Some (VStr (core_of g)) ->
             init_dycore case user g (new_self case)
             = (Ok (VStr (core_of g)), s1)).
  { intros s1 Hrun Hd. rewrite (init_dycore_checked _ _ _ _ _ Hrun Hd).
    destruct user as [u|]; [|reflexivity].
    now rewrite (Hu u eq_refl), String.eqb_refl. }
  destruct (classify g) as [c|] eqn:Hc.
  - pose proof (core_of_classified g c Hc) as Hcore. rewrite Hcore in *.
    destruct (init_classify_ok case g c Hc Hcol)
      as (s1 & Hrun & (Hd & _ & Hf) & Hcp).
    exists s1. split; [now apply Hchecked|]. split; [exact Hf|exact Hcp].
  - unfold core_of in Hin, Hchecked, Hcol, Hu |- *. rewrite Hc in *.
    destruct (String.eqb g "null") eqn:Hnull.
    + apply String.eqb_eq in Hnull. subst g.
      destruct (init_classify_null case) as (s1 & Hrun & (Hd & _ & Hf) & _ & Hcp).
      exists s1. split; [now apply Hchecked|]. split; [exact Hf|].
      rewrite Hcp. unfold dycore_defs. simpl. now rewrite app_nil_r.
    + simpl in Hin. intuition discriminate.
Qed.

(** X18: the exact condition under which the constructor returns an
    object. The grid it classifies (the sentinel with [--dyn none], else
    the grid of the case without its level suffix) matches one of the five
    patterns or is the sentinel [null]; [--dyn] is absent or names the dycore
    of that grid; for a spectral-element grid the case defines none of
    [_MPI], [SPMD], [_OPENMP] (the last only with more than one thread) nor
    [NP], and the grid name decodes; [ANALYTIC_IC] is not defined by the case
    when analytic initial conditions are asked for; and the ocean component
    and the two kinds are among the valid values. In every other case the
    constructor raises. *)
Theorem constructor_succeeds_iff case opts :
  (exists self, __init__ case opts = Ok self) <->
  (In (core_of (init_grid case opts)) ["fv"; "se"; "fv3"; "mpas"; "eul"; "none"] /\
   (dyn opts = "" \/ dyn opts = core_of (init_grid case opts)) /\
   (core_of (init_grid case opts) = "se" ->
    collides (init_cppdefs (CAM_CPPDEFS case)) (NTHRDS_ATM case) = false /\
    defined "NP" (init_cppdefs (CAM_CPPDEFS case)) = false /\
    exists vals, se_decode (init_grid case opts) = Ok vals) /\
   (analytic_ic opts = true ->
    defined "ANALYTIC_IC" (init_cppdefs (CAM_CPPDEFS case)) = false) /\
   In (COMP_OCN case) ocn_valid_vals /\
   In (dyn_kind opts) kind_valid_vals /\ In (phys_kind opts) kind_valid_vals).
Proof.
  split.
  - intros [self Hok].
    destruct (init_ok_inv _ _ _ Hok)
      as (user & g & nx & ny & dynv & self1 & Hcheck & Hdy & Hrest).
    destruct (check_dyn_opt_grid _ _ _ _ _ _ Hcheck) as (-> & -> & _).
    destruct (init_dycore_ok_inv _ _ _ _ _ Hdy)
      as (Hin & -> & _ & _ & Hu & Hcol & _).
    destruct (adds_init_dycore _ _ _ _ _ _ Hdy) as (_ & C1 & _).
    cbn [new_self cppdefs] in C1.
    destruct (init_rest_ok_inv _ _ _ _ _ _ _ _ Hrest)
      as (Hocn & Hdk & Hpk & Hic & Hse).
    split; [exact Hin|]. split.
    { destruct (String.eqb (dyn opts) "") eqn:E.
      - left. now apply String.eqb_eq.
      - right. now apply Hu. }
    split.
    { intros Hc. destruct (Hse Hc) as [Hnp Hdec].
      split; [now apply Hcol|]. split; [|exact Hdec].
      rewrite C1, defined_app in Hnp. now apply orb_false_elim in Hnp. }
    split.
    { intros Ha. specialize (Hic Ha). rewrite C1, defined_app in Hic.
      now apply orb_false_elim in Hic. }
    now split.
  - intros (Hin & Hdyn & Hse & Hic & Hocn & Hdk & Hpk).
    assert (Hcheck : exists nx ny olat olon,
               check_dyn_opt (dyn opts) (grid_token (ATM_GRID case))
                             (ATM_NX case) (ATM_NY case)
               = Ok (if String.eqb (dyn opts) "" then None else Some (dyn opts),
                     init_grid case opts, nx, ny) /\
               new_conf_obj "nlat" nlat_desc ny NoSpec None false = Ok olat /\
               new_conf_obj "nlon" nlon_desc nx NoSpec None false = Ok olon).
    { unfold init_grid in *. destruct (String.eqb (dyn opts) "none") eqn:E.
      - apply String.eqb_eq in E. rewrite E.
        exists (VStr "null"), (VStr "null"). eexists. eexists.
        split; [apply check_dyn_opt_none|]. split; reflexivity.
      - apply String.eqb_neq in E.
        exists (VInt (ATM_NX case)), (VInt (ATM_NY case)). eexists. eexists.
        split; [|split; reflexivity].
        apply check_dyn_opt_ok; [exact E|].
        destruct Hdyn as [Hd|Hd]; [now left|right].
        rewrite Hd. simpl in Hin. simpl. tauto. }
    destruct Hcheck as (nx & ny & olat & olon & Hcheck & Hlat & Hlon).
    destruct (init_dycore_ok case
                (if String.eqb (dyn opts) "" then None else Some (dyn opts))
                (init_grid case opts) Hin)
      as (self1 & Hdy & Hf & C1).
    { intros Hc. now apply Hse. }
    { intros u. destruct (String.eqb (dyn opts) "") eqn:E; [discriminate|].
      intros [= <-]. destruct Hdyn as [Hd|Hd]; [|exact Hd].
      rewrite Hd in E. discriminate E. }
    rewrite (init_unfold _ _ _ _ _ _ _ _ Hcheck Hdy).
    destruct (String.eqb (core_of (init_grid case opts)) "se") eqn:Ec.
    + apply String.eqb_eq in Ec.
      destruct (Hse Ec) as (_ & Hnp & [[[csne_val csnp_val] npg_val] Hdec]).
      rewrite Ec in *.
      destruct (init_rest_se_ok case opts (init_grid case opts) nx ny _ _ _ self1
                  Hdec Hf) as (self & Hrun); try assumption.
      * rewrite C1, defined_app, Hnp. apply defined_se_defs.
      * intros Ha. rewrite C1, defined_app, (Hic Ha). apply defined_se_defs.
      * exists self. now rewrite Hrun.
    + destruct (init_rest_latlon_ok case opts (init_grid case opts) nx ny
                  olat olon (VStr (core_of (init_grid case opts))) self1)
        as (self & Hrun & _); try assumption.
      * intros Ha. rewrite C1. unfold dycore_defs. rewrite Ec, app_nil_r.
        now apply Hic.
      * exists self. now rewrite Hrun.
Qed.

(** ** Grid names of the spectral-element dycore that decode *)

Lemma no_dot_no_pg rest :
  all_chars not_dot rest = true -> forall mid tail, rest <> mid ++ ".pg" ++ tail.
Proof.
  intros H mid tail E. rewrite E, all_chars_app in H.
  apply andb_prop in H. destruct H as [_ H]. discriminate H.
Qed.

Lemma first_pg mid tail :
  all_chars not_dot mid = true ->
  forall mid' tail', mid ++ ".pg" ++ tail = mid' ++ ".pg" ++ tail' ->
                     (String.length mid <= String.length mid')%nat.
Proof.
  induction mid as [|c mid IH]; intros H mid' tail' E; [simpl; lia|].
  simpl in H. apply andb_prop in H. destruct H as [Hc H].
  destruct mid' as [|c' mid'].
  - simpl in E. injection E as E _. subst c. discriminate Hc.
  - simpl in E. injection E as _ E. simpl. apply le_n_S. now apply (IH H _ tail').
Qed.

Lemma se_name_core ds d rest :
  ds <> "" -> all_chars Py.is_digit ds = true -> is_1_to_8 d = true ->
  core_of ("ne" ++ ds ++ "np" ++ String d rest) = "se".
Proof.
  intros Hne Hds Hd. apply core_of_classified. rewrite classify_cases.
  change ("ne" ++ ds ++ "np" ++ String d rest)
    with (String "n" (String "e" (ds ++ "np" ++ String d rest))).
  rewrite fv_rejects_n.
  replace (Re.matches se_grid_re
             (String "n" (String "e" (ds ++ "np" ++ String d rest)))) with true;
    [reflexivity|].
  symmetry. apply se_grid_re_shape. destruct ds as [|d0 ds']; [contradiction|].
  simpl in Hds. apply andb_prop in Hds. destruct Hds as [Hd0 Hds'].
  now exists d0, ds', d, rest.
Qed.

(** X19: a spectral-element grid name written with digits only decodes
    to the numbers it writes: after [ne] a non-empty run of digits gives the
    elements along an edge, after [np] a digit from 1 to 8 and any further
    digits give the points per element, and a non-empty run of digits after
    [.pg], when present, gives the physics grid, which is 0 otherwise. Such a
    name is classified to the spectral-element dycore. *)
Theorem se_grid_name_decodes ds d ds2 :
  ds <> "" -> all_chars Py.is_digit ds = true ->
  is_1_to_8 d = true -> all_chars Py.is_digit ds2 = true ->
  (core_of ("ne" ++ ds ++ "np" ++ String d ds2) = "se" /\
   se_decode ("ne" ++ ds ++ "np" ++ String d ds2)
   = Ok (dec_val ds 0, dec_val (String d ds2) 0, 0)) /\
  (forall ps,
     ps <> "" -> all_chars Py.is_digit ps = true ->
     core_of ("ne" ++ ds ++ "np" ++ String d ds2 ++ ".pg" ++ ps) = "se" /\
     se_decode ("ne" ++ ds ++ "np" ++ String d ds2 ++ ".pg" ++ ps)
     = Ok (dec_val ds 0, dec_val (String d ds2) 0, dec_val ps 0)).
Proof.
  intros Hne Hds Hd Hds2.
  assert (Hall : all_chars Py.is_digit (String d ds2) = true).
  { simpl. now rewrite (is_1_to_8_digit d Hd), Hds2. }
  assert (Hnd : all_chars not_dot (String d ds2) = true)
    by now apply digits_not_dot.
  split.
  - split; [now apply se_name_core|].
    rewrite (se_decode_no_pg ds Hne Hds) by now apply no_dot_no_pg.
    rewrite py_int_digits; [reflexivity|discriminate|exact Hall].
  - intros ps Hps Hdps. split.
    + change (String d ds2 ++ ".pg" ++ ps) with (String d (ds2 ++ ".pg" ++ ps)).
      now apply se_name_core.
    + rewrite (se_decode_pg ds Hne Hds) by now apply first_pg.
      rewrite py_int_digits; [|discriminate|exact Hall].
      rewrite py_int_digits; [reflexivity|exact Hps|exact Hdps].
Qed.

Lemma se_grid_name_decodes_witness :
  se_decode "ne120np4" = Ok (120, 4, 0) /\
  se_decode "ne30np4.pg3" = Ok (30, 4, 3).
Proof.
  destruct (se_grid_name_decodes "120" "4" "") as [[_ H1] _];
    [discriminate|reflexivity|reflexivity|reflexivity|].
  destruct (se_grid_name_decodes "30" "4" "") as [_ H2];
    [discriminate|reflexivity|reflexivity|reflexivity|].
  destruct (H2 "3") as [_ H3]; [discriminate|reflexivity|].
  split; [exact H1|exact H3].
Defined.

(** ** The registry is well kept *)

Lemma new_conf_obj_rebuilt nm ds val spec ty nml obj :
  new_conf_obj nm ds val spec ty nml = Ok obj ->
  name obj = nm /\ rebuilt obj = Ok obj.
Proof.
  unfold rebuilt, new_conf_obj, ConfigInteger, ConfigString, ConfigList.
  destruct val as [n|b|s|l|d|]; cbn [as_int]; try discriminate.
  - destruct (check_int _ _ _) eqn:E; [|discriminate].
    intros [= <-]. cbn. now rewrite E.
  - destruct (check_int _ _ _) eqn:E; [|discriminate].
    intros [= <-]. cbn. now rewrite E.
  - destruct (check_str s spec) as [[|]|] eqn:E; try discriminate.
    intros [= <-]. cbn. now rewrite E.
  - destruct spec; try discriminate.
    + destruct (match ty with Some t => forallb (has_type t) l | None => true end)
        eqn:E; [|discriminate].
      intros [= <-]. cbn [name desc value valid_vals valid_type is_nml_attr].
      now rewrite E.
    + destruct (_ && _) eqn:E; [|discriminate].
      intros [= <-]. cbn [name desc value valid_vals valid_type is_nml_attr].
      now rewrite E.
Qed.

Lemma obj_set_value_rebuilt obj val obj' :
  obj_set_value obj val = Ok obj' ->
  name obj' = name obj /\ rebuilt obj' = Ok obj'.
Proof.
  unfold obj_set_value. destruct (kind obj).
  - unfold ConfigInteger. destruct (as_int val) as [n|] eqn:Ei; [|discriminate].
    destruct (check_int val n (valid_vals obj)) eqn:E; [|discriminate].
    intros [= <-]. split; [reflexivity|].
    unfold rebuilt, new_conf_obj, ConfigInteger.
    cbn [name desc value valid_vals valid_type is_nml_attr].
    destruct val; try discriminate; now rewrite Ei, E.
  - unfold ConfigString. destruct val as [| |s| | |]; try discriminate.
    destruct (check_str s (valid_vals obj)) as [[|]|] eqn:E; try discriminate.
    intros [= <-]. split; [reflexivity|].
    unfold rebuilt, new_conf_obj, ConfigString.
    cbn [name desc value valid_vals valid_type is_nml_attr]. now rewrite E.
  - unfold ConfigList. destruct val as [| | |l| |]; try discriminate.
    destruct (valid_vals obj) eqn:Ev; try discriminate.
    + destruct (match valid_type obj with
                | Some t => forallb (has_type t) l
                | None => true
                end) eqn:E; [|discriminate].
      intros [= <-]. split; [reflexivity|].
      unfold rebuilt, new_conf_obj, ConfigList.
      cbn [name desc value valid_vals valid_type is_nml_attr]. now rewrite E.
    + destruct (_ && _) eqn:E; [|discriminate].
      intros [= <-]. split; [reflexivity|].
      unfold rebuilt, new_conf_obj, ConfigList.
      cbn [name desc value valid_vals valid_type is_nml_attr]. now rewrite E.
Qed.

Lemma in_dict_set {V} (d : dict V) k v k' v' :
  In (k', v') (dict_set d k v) -> (k' = k /\ v' = v) \/ In (k', v') d.
Proof.
  induction d as [|[k0 v0] d IH]; simpl.
  - intros [[= <- <-]|[]]. now left.
  - destruct (String.eqb k k0).
    + intros [[= <- <-]|H]; [now left|right; now right].
    + intros [H|H]; [right; now left|].
      destruct (IH H) as [?|?]; [now left|right; now right].
Qed.

Lemma preserves_ret {A} (a : A) : preserves (ret a).
Proof. now intros self r self' [= _ <-]. Qed.

Lemma preserves_raise {A} e : preserves (@raise A e).
Proof. now intros self r self' [= _ <-]. Qed.

Lemma preserves_lift {A} (x : result A) : preserves (lift x).
Proof. now intros self r self' [= _ <-]. Qed.

Lemma preserves_bind {A B} (m : M A) (k : A -> M B) :
  preserves m -> (forall a, preserves (k a)) -> preserves (bind m k).
Proof.
  intros Hm Hk self r self' H Hwf. unfold bind in H.
  destruct (m self) as [[a|e] self1] eqn:Em.
  - exact (Hk a _ _ _ H (Hm _ _ _ Em Hwf)).
  - injection H as _ <-. exact (Hm _ _ _ Em Hwf).
Qed.

Lemma preserves_create_config nm ds val spec ty nml :
  preserves (create_config nm ds val spec ty nml).
Proof.
  intros self r self' H [Hnd Hall]. rewrite create_config_unfold in H.
  destruct (new_conf_obj nm ds val spec ty nml) as [obj|e] eqn:Hobj.
  2:{ injection H as _ <-. now split. }
  destruct (dict_mem (config_dict self) nm) eqn:Hm.
  { injection H as _ <-. now split. }
  injection H as _ <-. cbn [config_dict]. split.
  - now apply dict_set_fresh_NoDup.
  - intros k o Hin. apply in_dict_set in Hin. destruct Hin as [[-> ->]|Hin].
    + now apply new_conf_obj_rebuilt in Hobj.
    + now apply Hall.
Qed.

Lemma preserves_add_cppdef cppname val : preserves (add_cppdef cppname val).
Proof.
  intros self r self' H Hwf. unfold well_kept in *.
  now rewrite (add_cppdef_config_dict _ _ _ _ _ H).
Qed.

Lemma preserves_nml_groups_append g : preserves (nml_groups_append g).
Proof. now intros self r self' [= _ <-]. Qed.

Lemma preserves_get_value obj_name : preserves (get_value obj_name).
Proof.
  intros self r self' H. unfold get_value in H.
  destruct (dict_get (config_dict self) obj_name); now injection H as _ <-.
Qed.

Create HintDb preserves.
#[local] Hint Resolve preserves_ret preserves_raise preserves_lift
  preserves_create_config preserves_add_cppdef preserves_nml_groups_append
  preserves_get_value : preserves.

Ltac preserves_tac :=
  repeat first
    [ solve [auto with preserves]
    | progress cbv beta zeta
    | match goal with |- preserves (if ?b then _ else _) => destruct b end
    | match goal with |- preserves (match ?x with _ => _ end) => destruct x end
    | apply preserves_bind; [|intros ?] ].

Lemma preserves_init case opts user g nx ny :
  preserves (dyn <- init_dycore case user g ;;
             init_rest case opts g nx ny dyn).
Proof.
  unfold init_dycore, init_classify, init_rest, set_fixed, set_dycore,
    create_dyn, create_hgrid, check_dycore, set_grid_vars, set_analytic_ic,
    set_ocn_phys_kinds.
  preserves_tac.
Qed.

Lemma set_value_preserves obj_name val self :
  well_kept self -> well_kept (snd (set_value obj_name val self)).
Proof.
  intros [Hnd Hall]. unfold set_value.
  destruct (dict_get (config_dict self) obj_name) as [obj|] eqn:Hget;
    [|now split].
  destruct (negb (is_int_or_str val)); [now split|].
  destruct (obj_set_value obj val) as [obj'|e] eqn:Hset; [|now split].
  unfold well_kept. cbn [snd config_dict]. split.
  - rewrite dict_set_names; [exact Hnd|]. now apply (dict_mem_get _ _ obj).
  - intros k o Hin. apply in_dict_set in Hin. destruct Hin as [[-> ->]|Hin].
    + apply obj_set_value_rebuilt in Hset. destruct Hset as [Hn Hr].
      split; [|exact Hr]. rewrite Hn.
      assert (Hin : In (obj_name, obj) (config_dict self)).
      { clear - Hget. induction (config_dict self) as [|[k0 v0] d IH];
          [discriminate|].
        simpl in Hget. destruct (String.eqb obj_name k0) eqn:E.
        - injection Hget as ->. apply String.eqb_eq in E. subst. now left.
        - right. now apply IH. }
      now apply Hall in Hin.
    + now apply Hall.
Qed.

(** X20: the registry stays well kept. In every object the constructor
    returns, and after any [create_config], [set_value] or [add_cppdef] on a
    well-kept object, whether the call returns or raises, the names are all
    different and every entry is stored under its own name with a value that
    passes the validation of its class (the classes as section 4.1 of the
    specification gives them): in particular an entry with a range holds an
    integer within the range, and a string entry with an enumerated set holds
    one of its values. *)
Theorem registry_stays_well_kept :
  (forall case opts self, __init__ case opts = Ok self -> well_kept self) /\
  (forall nm ds val spec ty nml self,
     well_kept self -> well_kept (snd (create_config nm ds val spec ty nml self))) /\
  (forall obj_name val self,
     well_kept self -> well_kept (snd (set_value obj_name val self))) /\
  (forall cppname val self,
     well_kept self -> well_kept (snd (add_cppdef cppname val self))) /\
  (forall self k obj,
     well_kept self -> dict_get (config_dict self) k = Some obj ->
     name obj = k /\
     (forall lo hi, valid_vals obj = Range lo hi ->
        exists n, as_int (value obj) = Some n /\ lo <= n /\
                  forall h, hi = Some h -> n <= h) /\
     (forall allowed s, valid_vals obj = OneOf allowed -> value obj = VStr s ->
        py_in (VStr s) allowed = true)).
Proof.
  split; [|split; [|split; [|split]]].
  - intros case opts self H. unfold __init__ in H.
    destruct (check_dyn_opt _ _ _ _) as [[[[user g] nx] ny]|e]; [|discriminate].
    destruct ((dyn <- init_dycore case user g ;;
               init_rest case opts g nx ny dyn) (new_self case))
      as [[[]|e] s] eqn:E; [|discriminate].
    injection H as <-.
    apply (preserves_init _ _ _ _ _ _ _ _ _ E).
    split; [constructor|intros k obj []].
  - intros nm ds val spec ty nml self Hwf.
    destruct (create_config nm ds val spec ty nml self) as [r s] eqn:E.
    exact (preserves_create_config _ _ _ _ _ _ _ _ _ E Hwf).
  - intros obj_name val self. apply set_value_preserves.
  - intros cppname val self Hwf.
    destruct (add_cppdef cppname val self) as [r s] eqn:E.
    exact (preserves_add_cppdef _ _ _ _ _ E Hwf).
  - intros self k obj [Hnd Hall] Hget.
    assert (Hin : In (k, obj) (config_dict self)).
    { clear - Hget. induction (config_dict self) as [|[k0 v0] d IH];
        [discriminate|].
      simpl in Hget. destruct (String.eqb k k0) eqn:E.
      - injection Hget as ->. apply String.eqb_eq in E. subst. now left.
      - right. now apply IH. }
    destruct (Hall _ _ Hin) as [Hname Hre]. split; [exact Hname|].
    unfold rebuilt, new_conf_obj, ConfigInteger, ConfigString, ConfigList in Hre.
    split.
    + intros lo hi Hv. rewrite Hv in Hre.
      destruct (value obj) as [n|b|s|l|d|] eqn:Eval; cbn [as_int] in *;
        try discriminate.
      * exists n. split; [reflexivity|]. cbn [check_int] in Hre.
        destruct ((lo <=? n) && match hi with Some h => n <=? h | None => true end)
          eqn:E; [|discriminate].
        apply andb_prop in E. destruct E as [E1 E2].
        split; [now apply Z.leb_le|]. intros h ->. now apply Z.leb_le.
      * exists (Z.b2z b). split; [reflexivity|]. cbn [check_int] in Hre.
        destruct ((lo <=? Z.b2z b)
                  && match hi with Some h => Z.b2z b <=? h | None => true end)
          eqn:E; [|discriminate].
        apply andb_prop in E. destruct E as [E1 E2].
        split; [now apply Z.leb_le|]. intros h ->. now apply Z.leb_le.
    + intros allowed s Hv Hs. rewrite Hv, Hs in Hre. cbn [check_str] in Hre.
      now destruct (py_in (VStr s) allowed).
Qed.

(** ** The values the constructor stores *)

Lemma remove_chr_absent c s :
  all_chars (fun d => negb (Ascii.eqb d c)) (Py.remove_chr c s) = true.
Proof.
  induction s as [|d t IH]; [reflexivity|].
  simpl. destruct (Ascii.eqb d c) eqn:E; [exact IH|].
  simpl. now rewrite E, IH.
Qed.

Lemma keeps_set_dycore g nthrds : keeps (set_dycore g nthrds).
Proof. unfold set_dycore, create_dyn, create_hgrid. keeps_tac. Qed.

Lemma set_fixed_new_self case :
  exists s0,
    set_fixed (RUN_STARTDATE case) (DEBUG case) (new_self case) = (Ok tt, s0) /\
    entry_value s0 "ic_ymd"
    = Some (VStr (Py.remove_chr "-" (RUN_STARTDATE case))) /\
    entry_value s0 "debug" = Some (VInt (Z.b2z (DEBUG case))) /\
    entry_value s0 "pcols" = Some (VInt 16) /\
    entry_value s0 "psubcols" = Some (VInt 1).
Proof.
  unfold set_fixed, bind. do 4 ok_create.
  eexists. split; [reflexivity|]. now repeat split.
Qed.

Lemma create_config_entry nm ds val spec ty nml self self' :
  create_config nm ds val spec ty nml self = (Ok tt, self') ->
  entry_value self' nm = Some val.
Proof.
  intros H. apply create_config_ok_inv in H. destruct H as (obj & Hobj & Hm & ->).
  unfold entry_value, store. cbn [config_dict].
  rewrite (dict_get_snoc_new _ _ _ Hm). simpl.
  apply new_conf_obj_fields in Hobj. now destruct Hobj as (_ & _ & -> & _).
Qed.

Lemma set_analytic_ic_entry analytic self self' :
  set_analytic_ic analytic self = (Ok tt, self') ->
  entry_value self' "analytic_ic" = Some (VInt (Z.b2z analytic)).
Proof.
  unfold set_analytic_ic. intros H.
  apply bind_ok_inv in H. destruct H as (v & s & Hv & H).
  apply create_config_entry in H. rewrite H.
  destruct analytic.
  - apply bind_ok_inv in Hv. destruct Hv as ([] & s1 & _ & Hv).
    apply bind_ok_inv in Hv. destruct Hv as ([] & s2 & _ & Hv).
    now injection Hv as <- _.
  - now injection Hv as <- _.
Qed.

Lemma set_ocn_phys_kinds_entries ocn opts self self' :
  set_ocn_phys_kinds ocn opts self = (Ok tt, self') ->
  entry_value self' "ocn" = Some (VStr ocn) /\
  entry_value self' "physics_suites" = Some (VStr (physics_suites opts)) /\
  entry_value self' "dyn_kind" = Some (VStr (dyn_kind opts)) /\
  entry_value self' "phys_kind" = Some (VStr (phys_kind opts)).
Proof.
  unfold set_ocn_phys_kinds. intros H.
  apply bind_ok_inv in H. destruct H as ([] & s1 & H1 & H).
  apply bind_ok_inv in H. destruct H as ([] & s2 & H2 & H).
  apply bind_ok_inv in H. destruct H as ([] & s3 & H3 & H4).
  pose proof (create_config_entry _ _ _ _ _ _ _ _ H1) as E1.
  pose proof (create_config_entry _ _ _ _ _ _ _ _ H2) as E2.
  pose proof (create_config_entry _ _ _ _ _ _ _ _ H3) as E3.
  pose proof (create_config_entry _ _ _ _ _ _ _ _ H4) as E4.
  split; [|split; [|split; [|exact E4]]].
  - apply (keeps_entry_value _ _ _ _ _ _ (keeps_create_config _ _ _ _ _ _) H4).
    apply (keeps_entry_value _ _ _ _ _ _ (keeps_create_config _ _ _ _ _ _) H3).
    apply (keeps_entry_value _ _ _ _ _ _ (keeps_create_config _ _ _ _ _ _) H2).
    exact E1.
  - apply (keeps_entry_value _ _ _ _ _ _ (keeps_create_config _ _ _ _ _ _) H4).
    apply (keeps_entry_value _ _ _ _ _ _ (keeps_create_config _ _ _ _ _ _) H3).
    exact E2.
  - apply (keeps_entry_value _ _ _ _ _ _ (keeps_create_config _ _ _ _ _ _) H4).
    exact E3.
Qed.

(** X21: the values every object the constructor returns holds: the start
    date of the case with its dashes removed, the debug flag as the integer 0
    or 1, 16 and 1 for the physics columns and sub-columns, the grid the
    constructor classified under [hgrid], the analytic flag as 0 or 1, and
    the ocean component, the suites string and the two kinds as given. *)
Theorem built_object_values case opts self :
  __init__ case opts = Ok self ->
  entry_value self "ic_ymd" = Some (VStr (Py.remove_chr "-" (RUN_STARTDATE case))) /\
  all_chars (fun c => negb (Ascii.eqb c "-"))
            (Py.remove_chr "-" (RUN_STARTDATE case)) = true /\
  entry_value self "debug" = Some (VInt (Z.b2z (DEBUG case))) /\
  entry_value self "pcols" = Some (VInt 16) /\
  entry_value self "psubcols" = Some (VInt 1) /\
  entry_value self "hgrid" = Some (VStr (init_grid case opts)) /\
  entry_value self "analytic_ic" = Some (VInt (Z.b2z (analytic_ic opts))) /\
  entry_value self "ocn" = Some (VStr (COMP_OCN case)) /\
  entry_value self "physics_suites" = Some (VStr (physics_suites opts)) /\
  entry_value self "dyn_kind" = Some (VStr (dyn_kind opts)) /\
  entry_value self "phys_kind" = Some (VStr (phys_kind opts)).
Proof.
  intros Hok.
  destruct (init_ok_inv _ _ _ Hok)
    as (user & g & nx & ny & dynv & self1 & Hcheck & Hdy & Hrest).
  destruct (check_dyn_opt_grid _ _ _ _ _ _ Hcheck) as (-> & _ & _).
  destruct (init_dycore_ok_inv _ _ _ _ _ Hdy)
    as (_ & _ & _ & _ & _ & _ & Hg & Hrun).
  unfold init_classify in Hrun.
  apply bind_ok_inv in Hrun. destruct Hrun as ([] & s0 & Hfix & Hdyc).
  destruct (set_fixed_new_self case) as (s0' & Hfix' & V1 & V2 & V3 & V4).
  rewrite Hfix' in Hfix. injection Hfix as ->.
  assert (Hfwd : forall nm v, entry_value s0 nm = Some v ->
                              entry_value self nm = Some v).
  { intros nm v Hv.
    apply (keeps_entry_value _ _ _ _ _ _ (keeps_init_rest _ _ _ _ _ _) Hrest).
    apply (keeps_entry_value _ _ _ _ _ _ (keeps_set_dycore _ _) Hdyc). exact Hv. }
  unfold init_rest in Hrest.
  apply bind_ok_inv in Hrest. destruct Hrest as ([] & s2 & Hgrid & Hrest).
  apply bind_ok_inv in Hrest. destruct Hrest as ([] & s3 & Hana & Hocn).
  destruct (set_ocn_phys_kinds_entries _ _ _ _ Hocn) as (O1 & O2 & O3 & O4).
  split; [now apply Hfwd|]. split; [apply remove_chr_absent|].
  split; [now apply Hfwd|]. split; [now apply Hfwd|]. split; [now apply Hfwd|].
  split.
  { apply (keeps_entry_value _ _ _ _ _ _ (keeps_set_ocn_phys_kinds _ _) Hocn).
    apply (keeps_entry_value _ _ _ _ _ _ (keeps_set_analytic_ic _) Hana).
    apply (keeps_entry_value _ _ _ _ _ _ (keeps_set_grid_vars _ _ _ _) Hgrid).
    exact Hg. }
  split.
  { apply (keeps_entry_value _ _ _ _ _ _ (keeps_set_ocn_phys_kinds _ _) Hocn).
    exact (set_analytic_ic_entry _ _ _ Hana). }
  now repeat split.
Qed.

Lemma built_object_values_witness :
  entry_value FCONFIG "ic_ymd" = Some (VStr "101") /\
  entry_value FCONFIG "debug" = Some (VInt 0) /\
  entry_value FCONFIG "hgrid" = Some (VStr "null") /\
  entry_value FCONFIG "ocn" = Some (VStr "socn").
Proof.
  destruct (built_object_values FakeCase (fake_opts "none") FCONFIG)
    as (H1 & _ & H2 & _ & _ & H3 & _ & H4 & _).
  - vm_compute. reflexivity.
  - split; [exact H1|]. split; [exact H2|]. split; [exact H3|exact H4].
Defined.
